(** * CardPlan: the card-scoring and compatibility engine

    A shallow embedding of the rule engine under [src/app/domain/rules]
    together with the date and money utilities it calls and the code
    around it (the campaign wizard that builds its campaigns, the
    simulation screen that calls it, the result card that reads its
    scores), followed by the properties of the engine that the
    specification states and by further properties of the code.

    Conventions of the embedding.
    - A JavaScript [number] that carries money, a ratio or a score is an
      exact rational ([Q]); counts of installments and days of the month
      are integers ([Z]).  Division only occurs behind a guard in the
      source, except the division by [totalLimit], which the data model
      requires to be positive.
    - Module [IEEE] repeats the installment-amount arithmetic of
      [cashflow.ts] on binary64 floating-point numbers, the actual
      carrier of a JavaScript [number], where the difference between the
      two is observable.
    - An ISO date string (yyyy-MM-dd) is the record of its three numeric
      components; a JavaScript [Date] at local midnight is the record of
      [getFullYear], [getMonth] (0-based) and [getDate].
    - Module [Dates] is utils/dates.ts where every local day has 24 hours.
      Module [LocalTime] repeats the two functions that compute with
      milliseconds, [nextDueDate] and [daysBetween], and their callers for
      a time zone in which the clocks are moved, where a day of 23 or 25
      hours makes them leave the calendar.
    - Optional fields are [option]s; the truthiness tests of the source
      ([if (campaign.minAmount)]) are the [truthy*] functions.
    - Notes are values of an inductive type that carry the numbers the
      source interpolates into the message; the free-text [explanation]
      of a scored card is presentation only and is left out.
    - A [try] block is the value it computes or [Thrown].
    - The algorithm of [Array.prototype.sort] and the collation of
      [localeCompare] belong to the JavaScript engine.  [scoreCardsWith]
      takes both as a parameter; [scoreCards] is [scoreCardsWith] on an
      engine that sorts by stable insertion and compares names character
      by character, and is used where the order of the result does not
      matter. *)

From Stdlib Require Import ZArith QArith Qround Qabs Qminmax Lqa Lia String List Sorted.
From Stdlib Require Import Floats.PrimFloat Floats.FloatOps Floats.SpecFloat.
From Stdlib Require Import Numbers.Cyclic.Int63.Uint63.
From stdpp Require Import base list gmap.

Local Open Scope Q_scope.

(** ** JavaScript numbers as rationals *)

Module Num.

Definition leb (x y : Q) : bool := Qle_bool x y.
Definition ltb (x y : Q) : bool := negb (Qle_bool y x).
Definition gtb (x y : Q) : bool := ltb y x.
Definition geb (x y : Q) : bool := leb y x.
Definition eqb (x y : Q) : bool := Qeq_bool x y.

(** [Math.round]: the nearest integer, a tie going up. *)
Definition mathRound (x : Q) : Z := Qfloor (x + (1 # 2)).

(** Truthiness of an optional number: [undefined] and [0] are falsy. *)
Definition truthyQ (o : option Q) : option Q :=
  match o with
  | Some q => if Qeq_bool q 0 then None else Some q
  | None => None
  end.

Definition truthyZ (o : option Z) : option Z :=
  match o with
  | Some z => if (z =? 0)%Z then None else Some z
  | None => None
  end.

(** Truthiness of an optional string: [undefined] and the empty string. *)
Definition truthyS (o : option string) : option string :=
  match o with
  | Some s => if String.eqb s EmptyString then None else Some s
  | None => None
  end.

(** Truthiness of an optional boolean flag. *)
Definition truthyB (o : option bool) : bool :=
  match o with
  | Some b => b
  | None => false
  end.

(** [sum] of a list of numbers, from the left, as a [for] loop with
    [acc += x] computes it. *)
Definition sum (l : list Q) : Q := fold_left Qplus l 0.

End Num.

Infix "<?" := Num.ltb (at level 70, no associativity) : Q_scope.
Infix "<=?" := Num.leb (at level 70, no associativity) : Q_scope.
Infix ">?" := Num.gtb (at level 70, no associativity) : Q_scope.
Infix ">=?" := Num.geb (at level 70, no associativity) : Q_scope.

(** ** utils/money.ts *)

Module Money.

Definition round2 (n : Q) : Q := inject_Z (Num.mathRound (n * 100)) / 100.

Definition clamp01 (n : Q) : Q := Qmax 0 (Qmin 1 n).

Definition minMaxNormalize (value min max : Q) : Q :=
  if Num.eqb max min then 0.5
  else clamp01 ((value - min) / (max - min)).

End Money.

(** ** utils/dates.ts *)

Module Dates.

(** An ISO date-only string "yyyy-MM-dd". *)
Record ISODate := mkISO { isoYear : Z; isoMonth : Z; isoDay : Z }.

(** A [Date] at local midnight; [getMonth] is 0-based. *)
Record JSDate := mkJSDate { getFullYear : Z; getMonth : Z; getDate : Z }.

Definition isLeap (y : Z) : bool :=
  (((y mod 4 =? 0) && negb (y mod 100 =? 0)) || (y mod 400 =? 0))%Z.

(** Length of month [m] (0-based) of year [y]. *)
Definition daysInMonth (y m : Z) : Z :=
  (if m =? 1 then (if isLeap y then 29 else 28)
   else if (m =? 3) || (m =? 5) || (m =? 8) || (m =? 10) then 30
   else 31)%Z.

(** Days of year [y] that precede the first of month [m] (0-based). *)
Definition daysBeforeMonth (y m : Z) : Z :=
  let feb := (if isLeap y then 29 else 28)%Z in
  (if m <=? 0 then 0
   else if m =? 1 then 31
   else if m =? 2 then 31 + feb
   else if m =? 3 then 62 + feb
   else if m =? 4 then 92 + feb
   else if m =? 5 then 123 + feb
   else if m =? 6 then 153 + feb
   else if m =? 7 then 184 + feb
   else if m =? 8 then 215 + feb
   else if m =? 9 then 245 + feb
   else if m =? 10 then 276 + feb
   else 306 + feb)%Z.

(** Days that precede the first of January of year [y] in the proleptic
    Gregorian calendar. *)
Definition daysBeforeYear (y : Z) : Z :=
  (365 * (y - 1) + (y - 1) / 4 - (y - 1) / 100 + (y - 1) / 400)%Z.

(** [getTime], in whole days: every [Date] of the engine is a local
    midnight, so all differences are multiples of a day. *)
Definition getTimeDays (d : JSDate) : Z :=
  (daysBeforeYear (getFullYear d) + daysBeforeMonth (getFullYear d) (getMonth d)
   + getDate d)%Z.

(** [new Date(year, monthIndex, day)]: a month index outside 0..11 carries
    into the year.  The engine only passes a day that exists in the
    resulting month (a clamped day 1..28, or the day of a parsed date). *)
Definition newDate (y m d : Z) : JSDate :=
  mkJSDate (y + m / 12)%Z (m mod 12)%Z d.

Definition toISODate (d : JSDate) : ISODate :=
  mkISO (getFullYear d) (getMonth d + 1)%Z (getDate d).

Definition parseISODate (iso : ISODate) : JSDate :=
  newDate (isoYear iso) (isoMonth iso - 1)%Z (isoDay iso).

(** [new Date(d.getTime() + 24 * 60 * 60 * 1000)]: the next calendar day,
    every day of local time having 24 hours ([LocalTime.plusOneDay] has
    the days of 23 and 25 hours). *)
Definition plusOneDay (d : JSDate) : JSDate :=
  if (getDate d <? daysInMonth (getFullYear d) (getMonth d))%Z
  then mkJSDate (getFullYear d) (getMonth d) (getDate d + 1)%Z
  else newDate (getFullYear d) (getMonth d + 1)%Z 1%Z.

(** The difference of two local midnights in whole days, every day of
    local time having 24 hours ([LocalTime.daysBetween] has the days of 23
    and 25 hours). *)
Definition daysBetween (aISO bISO : ISODate) : Z :=
  let dateA := parseISODate aISO in
  let dateB := parseISODate bISO in
  Z.abs (getTimeDays dateB - getTimeDays dateA).

Definition nextDayOfMonth (baseISO : ISODate) (day : Z) : ISODate :=
  (* [Math.floor(day)] is [day]: the day is an integer *)
  let clampedDay := Z.max 1 (Z.min 28 day) in
  let baseDate := parseISODate baseISO in
  let currentDay := getDate baseDate in
  if (currentDay <=? clampedDay)%Z then
    toISODate (newDate (getFullYear baseDate) (getMonth baseDate) clampedDay)
  else
    toISODate (newDate (getFullYear baseDate) (getMonth baseDate + 1)%Z clampedDay).

Definition addMonths (iso : ISODate) (months : Z) : ISODate :=
  let date := parseISODate iso in
  let currentDay := Z.min 28 (getDate date) in
  toISODate (newDate (getFullYear date) (getMonth date + months)%Z currentDay).

Definition nextStatementDate (purchaseISO : ISODate) (statementDay : Z) : ISODate :=
  nextDayOfMonth purchaseISO statementDay.

Definition nextDueDate (purchaseISO : ISODate) (statementDay dueDay : Z) : ISODate :=
  let statementDate := nextStatementDate purchaseISO statementDay in
  let statementDateObj := parseISODate statementDate in
  let dayAfterStatement := toISODate (plusOneDay statementDateObj) in
  nextDayOfMonth dayAfterStatement dueDay.

(** A date string that names a day of the calendar. *)
Definition validISO (iso : ISODate) : Prop :=
  (1 <= isoMonth iso <= 12 /\
   1 <= isoDay iso <= daysInMonth (isoYear iso) (isoMonth iso - 1))%Z.

(** A [Date] whose month index is in range and whose day exists. *)
Definition validDate (d : JSDate) : Prop :=
  (0 <= getMonth d < 12 /\
   1 <= getDate d <= daysInMonth (getFullYear d) (getMonth d))%Z.

(** Chronological position of a date string. *)
Definition isoTime (iso : ISODate) : Z := getTimeDays (parseISODate iso).

End Dates.

(** ** domain/types.ts *)

Inductive Channel := online | offline.

Definition Channel_eqb (a b : Channel) : bool :=
  match a, b with
  | online, online | offline, offline => true
  | _, _ => false
  end.

(** [s === o] for a string [s] and an optional string [o]. *)
Definition eqOptString (s : string) (o : option string) : bool :=
  match o with
  | Some s' => String.eqb s s'
  | None => false
  end.

(** [Channel | "any"], the type of a campaign's channel. *)
Inductive CampaignChannel := only (c : Channel) | any.

Inductive CampaignType :=
  cashback | points | flatDiscountType | installmentBoost | interestFree.

(** [number | boolean], the type of [Card.installmentSupport]. *)
Inductive InstallmentSupport := ISNumber (n : Z) | ISBoolean (b : bool).

Record DateRange := mkDateRange { rangeStart : Dates.ISODate; rangeEnd : Dates.ISODate }.

Module Purchase.
Record t := mk {
  amount : Q;
  category : string;
  installmentCount : Z;
  date : Dates.ISODate;
  channel : Channel;
  merchant : option string;
  posFeePercent : option Q;
  currency : option string
}.
End Purchase.

Module Card.
Record t := mk {
  id : Z;
  name : string;
  totalLimit : Q;
  availableLimit : Q;
  statementDay : Z;
  dueDay : Z;
  cashbackPercent : Q;
  pointRate : Q;
  pointValue : Q;
  installmentSupport : InstallmentSupport;
  utilization : option Q
}.
End Card.

Module Campaign.
Record t := mk {
  name : string;
  types : option (list CampaignType);
  category : option string;
  channel : option CampaignChannel;
  brand : option string;
  dateRange : option DateRange;
  minAmount : option Q;
  capAmount : option Q;
  monthlyCap : option bool;
  extraCashbackPercent : option Q;
  extraPointRate : option Q;
  flatDiscount : option Q;
  maxInstallments : option Z;
  interestFreeMonths : option Z;
  requiresEnrollment : option bool;
  enrolled : option bool;
  requiresCode : option bool;
  codeProvided : option bool
}.
End Campaign.

(** Reasons collected by [evaluateCampaignMatch]. *)
Inductive Reason :=
| RDateMatches
| RDateOutside (rangeStart rangeEnd : Dates.ISODate)
| RChannelMatches (got : Channel)
| RChannelMismatch (need : CampaignChannel) (got : Channel)
| RCategoryMatches (got : string)
| RCategoryMismatch (need got : string)
| RBrandMatches (got : option string)
| RBrandMismatch (need : string) (got : option string)
| RMinAmountSatisfied (amount minAmount : Q)
| RBelowMinAmount (amount minAmount : Q).

(** The notes of the four rule modules. *)
Inductive Note :=
(* compatibility.ts *)
| NInsufficientCreditLimit (need available : Q)
| NNoInstallmentSupport
| NInstallmentsReducedCardLimit (requested adjusted : Z)
| NVeryHighUtilization
| NCampaignAllowsInstallments (upTo : Z)
(* campaignMatch.ts *)
| NCampaignApplies (name : string) (score : Q)
| NRequiresEnrollment (name : string)
| NRequiresCode (name : string)
| NAddedExtraCashback (percent : Q)
| NAddedExtraPoints (rate : Q)
| NAppliedFlatDiscount (amount : Q)
| NBenefitsNotApplied (name : string)
| NCampaignDoesNotApply (name : string) (reasons : list Reason)
| NNoApplicableCampaigns
| NApplicableCampaigns (count : Z) (matchScore : Q)
(* value.ts *)
| NBaseCashback (amount percent : Q)
| NBasePoints (value pts perPoint : Q)
| NExtraCashback (amount : Q) (name : string) (percent : Q)
| NExtraPoints (value : Q) (name : string) (pts : Q)
| NFlatDiscount (amount : Q) (name : string)
| NBenefitCapped (cappedAmount limit : Q)
| NPosCommission (fee percent : Q)
(* riskPenalty.ts *)
| NRiskInsufficientLimit (need available : Q)
| NHighUtilizationRisk (percent : Q)
| NModerateUtilizationRisk (percent : Q)
| NLowUtilizationRisk (percent : Q)
| NCloseToDueDate (daysUntilDue : Z)
| NDueDateUnavailable
| NRiskInstallmentsReduced (requested adjusted : Z)
| NEnrollmentNotMet
| NCodeNotMet
| NPenaltyCapped (percent : Q).

Record ScoreBreakdown := mkScoreBreakdown {
  netValueTL : Q;
  valueScore : Q;
  cashflowScore : Q;
  riskPenalty : Q;
  usabilityScore : Q;
  campaignMatchScore : Q;
  notes : list Note
}.

Module ScoredCard.
Record t := mk {
  card : Card.t;
  totalScore : Q;
  breakdown : ScoreBreakdown;
  resultingUtilization : option Q;
  adjustedInstallments : option Z
}.
End ScoredCard.

(** ** domain/rules/value.ts *)

Module Value.

Record ValueResult := mkValueResult {
  rewardTL : Q;
  costTL : Q;
  netValueTL : Q;
  notes : list Note
}.

Definition isCampaignApplicable (purchase : Purchase.t) (campaign : Campaign.t) : bool :=
  let dateOut :=
    match Campaign.dateRange campaign with
    | Some range =>
        let purchaseDate := Dates.getTimeDays (Dates.parseISODate (Purchase.date purchase)) in
        let startDate := Dates.getTimeDays (Dates.parseISODate (rangeStart range)) in
        let endDate := Dates.getTimeDays (Dates.parseISODate (rangeEnd range)) in
        ((purchaseDate <? startDate) || (endDate <? purchaseDate))%Z
    | None => false
    end in
  if dateOut then false
  else if match Num.truthyQ (Campaign.minAmount campaign) with
          | Some minAmount => Purchase.amount purchase <? minAmount
          | None => false
          end then false
  else if match Campaign.channel campaign with
          | Some (only c) => negb (Channel_eqb c (Purchase.channel purchase))
          | Some any => false
          | None => false
          end then false
  else if match Num.truthyS (Campaign.category campaign) with
          | Some category =>
              negb (String.eqb category "general")
              && negb (String.eqb category (Purchase.category purchase))
          | None => false
          end then false
  else if match Num.truthyS (Campaign.brand campaign) with
          | Some brand =>
              negb (String.eqb brand "general")
              && negb (eqOptString brand (Purchase.merchant purchase))
          | None => false
          end then false
  else if Num.truthyB (Campaign.requiresEnrollment campaign)
          && negb (Num.truthyB (Campaign.enrolled campaign)) then false
  else if Num.truthyB (Campaign.requiresCode campaign)
          && negb (Num.truthyB (Campaign.codeProvided campaign)) then false
  else true.

(** Body of the loop over the applicable campaigns: the benefit of one
    campaign and the notes it pushes. *)
Definition campaignBenefit (purchase : Purchase.t) (card : Card.t)
    (campaign : Campaign.t) : Q * list Note :=
  let '(b1, n1) :=
    match Num.truthyQ (Campaign.extraCashbackPercent campaign) with
    | Some pct =>
        let extraCashback := Purchase.amount purchase * pct in
        (0 + extraCashback,
         [NExtraCashback (Money.round2 extraCashback) (Campaign.name campaign)
            (Money.round2 (pct * 100))])
    | None => (0, [])
    end in
  let '(b2, n2) :=
    match Num.truthyQ (Campaign.extraPointRate campaign) with
    | Some rate =>
        let extraPointsEarned := Purchase.amount purchase * rate in
        let extraPointsValue := extraPointsEarned * Card.pointValue card in
        (b1 + extraPointsValue,
         n1 ++ [NExtraPoints (Money.round2 extraPointsValue) (Campaign.name campaign)
                  (Money.round2 extraPointsEarned)])
    | None => (b1, n1)
    end in
  match Num.truthyQ (Campaign.flatDiscount campaign) with
  | Some discount =>
      (b2 + discount, n2 ++ [NFlatDiscount (Money.round2 discount) (Campaign.name campaign)])
  | None => (b2, n2)
  end.

(** The loop [for (const campaign of applicableCampaigns)]: state is
    [(totalCampaignBenefit, notes)]. *)
Definition accumulateBenefits (purchase : Purchase.t) (card : Card.t)
    (applicableCampaigns : list Campaign.t) (init : Q * list Note) : Q * list Note :=
  fold_left
    (fun st campaign =>
       let '(benefit, ns) := campaignBenefit purchase card campaign in
       (fst st + benefit, snd st ++ ns))
    applicableCampaigns init.

(** The loop that finds the most restrictive cap; [None] is [Infinity]. *)
Definition findMinCap (applicableCampaigns : list Campaign.t) : option Q :=
  fold_left
    (fun minCap campaign =>
       match Num.truthyQ (Campaign.capAmount campaign) with
       | Some cap =>
           match minCap with
           | None => Some cap
           | Some m => if cap <? m then Some cap else Some m
           end
       | None => minCap
       end)
    applicableCampaigns None.

Definition computeValueTL (purchase : Purchase.t) (card : Card.t)
    (campaigns : list Campaign.t) : ValueResult :=
  let notes0 : list Note := [] in
  let totalRewards0 := 0 in
  let totalCosts0 := 0 in
  (* base cashback *)
  let baseCashback := Purchase.amount purchase * Card.cashbackPercent card in
  let '(totalRewards1, notes1) :=
    if baseCashback >? 0 then
      (totalRewards0 + baseCashback,
       notes0 ++ [NBaseCashback (Money.round2 baseCashback)
                    (Money.round2 (Card.cashbackPercent card * 100))])
    else (totalRewards0, notes0) in
  (* base points *)
  let basePointsEarned := Purchase.amount purchase * Card.pointRate card in
  let basePointsValue := basePointsEarned * Card.pointValue card in
  let '(totalRewards2, notes2) :=
    if basePointsValue >? 0 then
      (totalRewards1 + basePointsValue,
       notes1 ++ [NBasePoints (Money.round2 basePointsValue)
                    (Money.round2 basePointsEarned)
                    (Money.round2 (Card.pointValue card))])
    else (totalRewards1, notes1) in
  (* campaign bonuses *)
  let applicableCampaigns := List.filter (isCampaignApplicable purchase) campaigns in
  let '(totalCampaignBenefit, notes3) :=
    accumulateBenefits purchase card applicableCampaigns (0, notes2) in
  (* campaign benefit caps *)
  let '(totalRewards3, notes4) :=
    if totalCampaignBenefit >? 0 then
      let minCap := findMinCap applicableCampaigns in
      let '(cappedBenefit, ns) :=
        match minCap with
        | Some m =>
            if totalCampaignBenefit >? m then
              (m, notes3 ++ [NBenefitCapped (Money.round2 (totalCampaignBenefit - m))
                               (Money.round2 m)])
            else (totalCampaignBenefit, notes3)
        | None => (totalCampaignBenefit, notes3)
        end in
      (totalRewards2 + cappedBenefit, ns)
    else (totalRewards2, notes3) in
  (* costs *)
  let feePercent := default 0 (Purchase.posFeePercent purchase) in
  let posFee := Purchase.amount purchase * feePercent in
  let '(totalCosts1, notes5) :=
    if posFee >? 0 then
      (totalCosts0 + posFee,
       notes4 ++ [NPosCommission (Money.round2 posFee) (Money.round2 (feePercent * 100))])
    else (totalCosts0, notes4) in
  let netValueTL := Money.round2 (totalRewards3 - totalCosts1) in
  mkValueResult (Money.round2 totalRewards3) (Money.round2 totalCosts1) netValueTL notes5.

End Value.

(** ** domain/rules/cashflow.ts *)

Module Cashflow.

Record PaymentPlan := mkPaymentPlan {
  dueISO : Dates.ISODate;
  amount : Q;
  daysFromPurchase : Z
}.

(** [new Date(iso)] of a date-only string, and the day count between two
    of them. *)
Definition calculateDaysFromPurchase (purchaseISO dueISO : Dates.ISODate) : Z :=
  let purchaseDate := Dates.parseISODate purchaseISO in
  let dueDate := Dates.parseISODate dueISO in
  let diffDays := (Dates.getTimeDays dueDate - Dates.getTimeDays purchaseDate)%Z in
  Z.max 0 diffDays.

Definition buildInstallmentPlan (purchaseISO : Dates.ISODate) (installments : Z)
    (statementDay dueDay : Z) : list PaymentPlan :=
  if (installments <=? 1)%Z then
    let firstDueDate := Dates.nextDueDate purchaseISO statementDay dueDay in
    let daysFromPurchase := calculateDaysFromPurchase purchaseISO firstDueDate in
    [mkPaymentPlan firstDueDate 1.0 daysFromPurchase]
  else
    let installmentAmount := Money.round2 (1.0 / inject_Z installments) in
    let firstDueDate := Dates.nextDueDate purchaseISO statementDay dueDay in
    List.map
      (fun i : Z =>
         let dueDate := if (i =? 0)%Z then firstDueDate
                        else Dates.addMonths firstDueDate i in
         let daysFromPurchase := calculateDaysFromPurchase purchaseISO dueDate in
         let amount :=
           if (i =? installments - 1)%Z
           then Money.round2 (1.0 - installmentAmount * inject_Z (installments - 1))
           else installmentAmount in
         mkPaymentPlan dueDate amount daysFromPurchase)
      (seqZ 0 installments).

(** Every entry of a [PaymentPlan] list has an [amount], so the weight is
    the amount; the loop state is [(totalDays, totalWeight)]. *)
Definition weightedTotals (plan : list PaymentPlan) : Q * Q :=
  fold_left
    (fun st payment =>
       let weight := amount payment in
       (fst st + inject_Z (daysFromPurchase payment) * weight, snd st + weight))
    plan (0, 0).

Definition cashflowScore (plan : list PaymentPlan) : Q :=
  if (Z.of_nat (length plan) =? 0)%Z then 0
  else
    let '(totalDays, totalWeight) := weightedTotals plan in
    let averageDays := if totalWeight >? 0 then totalDays / totalWeight else 0 in
    let normalizedScore := Qmin averageDays 60 / 60 in
    Money.clamp01 normalizedScore.

End Cashflow.

(** ** domain/rules/compatibility.ts *)

Module Compatibility.

Record CompatibilityResult := mkCompatibilityResult {
  compatible : bool;
  adjustedInstallments : Z;
  usabilityScore : Q;
  notes : list Note
}.

(** The [purchase] argument is accepted and not used by the source. *)
Definition getCampaignInstallmentBoost (campaigns : list Campaign.t)
    (purchase : option Purchase.t) : Z :=
  fold_left
    (fun maxBoost campaign =>
       match Num.truthyZ (Campaign.maxInstallments campaign) with
       | Some n => if (n >? maxBoost)%Z then n else maxBoost
       | None => maxBoost
       end)
    campaigns 0%Z.

Definition getMaxAllowedInstallments (card : Card.t) (campaigns : list Campaign.t) : Z :=
  let maxInstallments :=
    match Card.installmentSupport card with
    | ISNumber n => n
    | ISBoolean true => 24%Z
    | ISBoolean false => 0%Z
    end in
  let campaignBoost := getCampaignInstallmentBoost campaigns None in
  if (campaignBoost >? maxInstallments)%Z then campaignBoost else maxInstallments.

Definition checkCompatibility (purchase : Purchase.t) (card : Card.t)
    (campaigns : list Campaign.t) : CompatibilityResult :=
  let notes0 : list Note := [] in
  let compatible := true in
  let usabilityScore0 := 1.0 in
  let adjustedInstallments0 := Purchase.installmentCount purchase in
  (* 1. credit limit *)
  if Card.availableLimit card <? Purchase.amount purchase then
    mkCompatibilityResult false adjustedInstallments0 0
      (notes0 ++ [NInsufficientCreditLimit (Purchase.amount purchase)
                    (Card.availableLimit card)])
  else
    (* 2. installments *)
    let maxAllowedInstallments := getMaxAllowedInstallments card campaigns in
    let '(adjustedInstallments, usabilityScore1, notes1) :=
      if (Purchase.installmentCount purchase >? maxAllowedInstallments)%Z then
        let adjusted := Z.max 1 maxAllowedInstallments in
        (adjusted, 0.4,
         notes0 ++
         [if (maxAllowedInstallments =? 0)%Z then NNoInstallmentSupport
          else NInstallmentsReducedCardLimit (Purchase.installmentCount purchase) adjusted])
      else if ((Purchase.installmentCount purchase >? 1)
               && (maxAllowedInstallments =? 0))%Z then
        (1%Z, 0.4, notes0 ++ [NNoInstallmentSupport])
      else (adjustedInstallments0, usabilityScore0, notes0) in
    (* 3. utilization *)
    let utilizationAfterPurchase :=
      (Card.totalLimit card - (Card.availableLimit card - Purchase.amount purchase))
      / Card.totalLimit card in
    let '(usabilityScore2, notes2) :=
      if utilizationAfterPurchase >? 0.9 then
        (Qmin usabilityScore1 0.6, notes1 ++ [NVeryHighUtilization])
      else (usabilityScore1, notes1) in
    let campaignInstallmentBoost := getCampaignInstallmentBoost campaigns (Some purchase) in
    let notes3 :=
      if (campaignInstallmentBoost >? maxAllowedInstallments)%Z
      then notes2 ++ [NCampaignAllowsInstallments campaignInstallmentBoost]
      else notes2 in
    mkCompatibilityResult compatible adjustedInstallments usabilityScore2 notes3.

End Compatibility.

(** ** domain/rules/campaignMatch.ts *)

Module CampaignMatch.

Record EffectiveCampaignBenefits := mkEffective {
  extraCashbackPercent : Q;
  extraPointRate : Q;
  flatDiscount : Q;
  maxInstallmentsBoost : option Z;
  interestFreeMonths : option Z
}.

Record CampaignRequirements := mkRequirements {
  enrollmentOk : bool;
  codeOk : bool
}.

Record CampaignEvaluationResult := mkEvaluation {
  effective : EffectiveCampaignBenefits;
  matchScore : Q;
  requirementsOk : CampaignRequirements;
  notes : list Note
}.

Record MatchResult := mkMatchResult {
  matches : bool;
  score : Q;
  reasons : list Reason
}.

(** The three locals of [evaluateCampaignMatch]. *)
Record Counters := mkCounters {
  matchCount : Z;
  totalCriteria : Z;
  seen : list Reason
}.

(** One criterion that is present: [totalCriteria++], then [matchCount++]
    and the first reason when it holds, the second reason otherwise. *)
Definition check (holds : bool) (yes no : Reason) (c : Counters) : Counters :=
  if holds
  then mkCounters (matchCount c + 1) (totalCriteria c + 1) (seen c ++ [yes])
  else mkCounters (matchCount c) (totalCriteria c + 1) (seen c ++ [no]).

Definition dateStep (purchase : Purchase.t) (campaign : Campaign.t) (c : Counters) : Counters :=
  match Campaign.dateRange campaign with
  | Some range =>
      let purchaseDate := Dates.getTimeDays (Dates.parseISODate (Purchase.date purchase)) in
      let startDate := Dates.getTimeDays (Dates.parseISODate (rangeStart range)) in
      let endDate := Dates.getTimeDays (Dates.parseISODate (rangeEnd range)) in
      check ((startDate <=? purchaseDate) && (purchaseDate <=? endDate))%Z
        RDateMatches (RDateOutside (rangeStart range) (rangeEnd range)) c
  | None => c
  end.

Definition channelStep (purchase : Purchase.t) (campaign : Campaign.t) (c : Counters) : Counters :=
  match Campaign.channel campaign with
  | Some (only ch) =>
      check (Channel_eqb ch (Purchase.channel purchase))
        (RChannelMatches (Purchase.channel purchase))
        (RChannelMismatch (only ch) (Purchase.channel purchase)) c
  | Some any => c
  | None => c
  end.

Definition categoryStep (purchase : Purchase.t) (campaign : Campaign.t) (c : Counters) : Counters :=
  match Num.truthyS (Campaign.category campaign) with
  | Some category =>
      if String.eqb category "general" then c
      else check (String.eqb category (Purchase.category purchase))
             (RCategoryMatches (Purchase.category purchase))
             (RCategoryMismatch category (Purchase.category purchase)) c
  | None => c
  end.

Definition brandStep (purchase : Purchase.t) (campaign : Campaign.t) (c : Counters) : Counters :=
  match Num.truthyS (Campaign.brand campaign) with
  | Some brand =>
      if String.eqb brand "general" then c
      else check (eqOptString brand (Purchase.merchant purchase))
             (RBrandMatches (Purchase.merchant purchase))
             (RBrandMismatch brand (Purchase.merchant purchase)) c
  | None => c
  end.

Definition minAmountStep (purchase : Purchase.t) (campaign : Campaign.t) (c : Counters) : Counters :=
  match Num.truthyQ (Campaign.minAmount campaign) with
  | Some minAmount =>
      check (Purchase.amount purchase >=? minAmount)
        (RMinAmountSatisfied (Purchase.amount purchase) minAmount)
        (RBelowMinAmount (Purchase.amount purchase) minAmount) c
  | None => c
  end.

Definition countCriteria (purchase : Purchase.t) (campaign : Campaign.t) : Counters :=
  minAmountStep purchase campaign
    (brandStep purchase campaign
       (categoryStep purchase campaign
          (channelStep purchase campaign
             (dateStep purchase campaign (mkCounters 0 0 []))))).

Definition evaluateCampaignMatch (purchase : Purchase.t) (campaign : Campaign.t) : MatchResult :=
  let c := countCriteria purchase campaign in
  let score :=
    if (totalCriteria c =? 0)%Z then 1.0
    else if (matchCount c =? totalCriteria c)%Z then 1.0
    else if (matchCount c >? 0)%Z then
      Qmax 0.3 (inject_Z (matchCount c) / inject_Z (totalCriteria c))
    else 0 in
  mkMatchResult (score >? 0) score (seen c).

(** The locals of [evaluateCampaigns] that its loop updates. *)
Record Acc := mkAcc {
  accNotes : list Note;
  totalMatchScore : Q;
  applicableCampaignCount : Z;
  accEffective : EffectiveCampaignBenefits;
  hasEnrollmentRequirement : bool;
  allEnrollmentsSatisfied : bool;
  hasCodeRequirement : bool;
  allCodesSatisfied : bool
}.

Definition initialAcc : Acc :=
  mkAcc [] 0 0 (mkEffective 0 0 0 None None) false true false true.

(** Aggregation of the benefits of one campaign whose requirements are met. *)
Definition aggregate (campaign : Campaign.t) (st : EffectiveCampaignBenefits * list Note)
    : EffectiveCampaignBenefits * list Note :=
  let '(e0, n0) := st in
  let '(e1, n1) :=
    match Num.truthyQ (Campaign.extraCashbackPercent campaign) with
    | Some pct =>
        (mkEffective (extraCashbackPercent e0 + pct) (extraPointRate e0) (flatDiscount e0)
           (maxInstallmentsBoost e0) (interestFreeMonths e0),
         n0 ++ [NAddedExtraCashback (pct * 100)])
    | None => (e0, n0)
    end in
  let '(e2, n2) :=
    match Num.truthyQ (Campaign.extraPointRate campaign) with
    | Some rate =>
        (mkEffective (extraCashbackPercent e1) (extraPointRate e1 + rate) (flatDiscount e1)
           (maxInstallmentsBoost e1) (interestFreeMonths e1),
         n1 ++ [NAddedExtraPoints rate])
    | None => (e1, n1)
    end in
  let '(e3, n3) :=
    match Num.truthyQ (Campaign.flatDiscount campaign) with
    | Some discount =>
        if discount >? flatDiscount e2 then
          (mkEffective (extraCashbackPercent e2) (extraPointRate e2) discount
             (maxInstallmentsBoost e2) (interestFreeMonths e2),
           n2 ++ [NAppliedFlatDiscount discount])
        else (e2, n2)
    | None => (e2, n2)
    end in
  let e4 :=
    match Num.truthyZ (Campaign.maxInstallments campaign) with
    | Some n =>
        mkEffective (extraCashbackPercent e3) (extraPointRate e3) (flatDiscount e3)
          (Some (Z.max (default 0%Z (Num.truthyZ (maxInstallmentsBoost e3))) n))
          (interestFreeMonths e3)
    | None => e3
    end in
  let e5 :=
    match Num.truthyZ (Campaign.interestFreeMonths campaign) with
    | Some n =>
        mkEffective (extraCashbackPercent e4) (extraPointRate e4) (flatDiscount e4)
          (maxInstallmentsBoost e4)
          (Some (Z.max (default 0%Z (Num.truthyZ (interestFreeMonths e4))) n))
    | None => e4
    end in
  (e5, n3).

(** Body of the loop [for (const campaign of campaigns)]. *)
Definition step (purchase : Purchase.t) (st : Acc) (campaign : Campaign.t) : Acc :=
  let matchResult := evaluateCampaignMatch purchase campaign in
  if matches matchResult then
    let count := (applicableCampaignCount st + 1)%Z in
    let total := totalMatchScore st + score matchResult in
    let n0 := accNotes st ++ [NCampaignApplies (Campaign.name campaign)
                                (score matchResult * 100)] in
    let '(hasE, allE, n1) :=
      if Num.truthyB (Campaign.requiresEnrollment campaign) then
        if negb (Num.truthyB (Campaign.enrolled campaign))
        then (true, false, n0 ++ [NRequiresEnrollment (Campaign.name campaign)])
        else (true, allEnrollmentsSatisfied st, n0)
      else (hasEnrollmentRequirement st, allEnrollmentsSatisfied st, n0) in
    let '(hasC, allC, n2) :=
      if Num.truthyB (Campaign.requiresCode campaign) then
        if negb (Num.truthyB (Campaign.codeProvided campaign))
        then (true, false, n1 ++ [NRequiresCode (Campaign.name campaign)])
        else (true, allCodesSatisfied st, n1)
      else (hasCodeRequirement st, allCodesSatisfied st, n1) in
    let requirementsMet :=
      (negb (Num.truthyB (Campaign.requiresEnrollment campaign))
       || Num.truthyB (Campaign.enrolled campaign))
      && (negb (Num.truthyB (Campaign.requiresCode campaign))
          || Num.truthyB (Campaign.codeProvided campaign)) in
    let '(eff, n3) :=
      if requirementsMet then aggregate campaign (accEffective st, n2)
      else (accEffective st, n2 ++ [NBenefitsNotApplied (Campaign.name campaign)]) in
    mkAcc n3 total count eff hasE allE hasC allC
  else
    mkAcc (accNotes st ++ [NCampaignDoesNotApply (Campaign.name campaign)
                             (reasons matchResult)])
      (totalMatchScore st) (applicableCampaignCount st) (accEffective st)
      (hasEnrollmentRequirement st) (allEnrollmentsSatisfied st)
      (hasCodeRequirement st) (allCodesSatisfied st).

(** The [card] argument is accepted for context and not used by the source. *)
Definition evaluateCampaigns (purchase : Purchase.t) (card : Card.t)
    (campaigns : list Campaign.t) : CampaignEvaluationResult :=
  let st := fold_left (step purchase) campaigns initialAcc in
  let matchScore :=
    if (applicableCampaignCount st >? 0)%Z
    then Money.clamp01 (totalMatchScore st / inject_Z (applicableCampaignCount st))
    else 0 in
  let requirementsOk :=
    mkRequirements
      (negb (hasEnrollmentRequirement st) || allEnrollmentsSatisfied st)
      (negb (hasCodeRequirement st) || allCodesSatisfied st) in
  let notes :=
    if (applicableCampaignCount st =? 0)%Z
    then accNotes st ++ [NNoApplicableCampaigns]
    else accNotes st ++ [NApplicableCampaigns (applicableCampaignCount st)
                           (matchScore * 100)] in
  mkEvaluation (accEffective st) matchScore requirementsOk notes.

End CampaignMatch.

(** ** domain/rules/riskPenalty.ts *)

Module RiskPenalty.

Record RequiredFlags := mkRequiredFlags {
  enrollmentOk : option bool;
  codeOk : option bool
}.

Record RiskPenaltyParams := mkParams {
  card : Card.t;
  purchase : Purchase.t;
  adjustedInstallments : Z;
  requiredFlags : option RequiredFlags
}.

Record RiskPenaltyResult := mkRiskPenaltyResult {
  penalty : Q;
  notes : list Note
}.

(** Outcome of the [try] block that computes the days until the next due
    date: the value, or an exception. *)
Inductive Outcome := Returned (daysUntilDue : Z) | Thrown.

(** The [try] block.  On dates that were parsed the date utilities do not
    throw. *)
Definition daysUntilNextDue (purchase : Purchase.t) (card : Card.t) : Outcome :=
  let nextDueDateISO :=
    Dates.nextDueDate (Purchase.date purchase) (Card.statementDay card) (Card.dueDay card) in
  Returned (Dates.daysBetween (Purchase.date purchase) nextDueDateISO).

(** The running state [(totalPenalty, notes)]. *)
Definition State : Type := Q * list Note.

Definition add (amount : Q) (note : Note) (st : State) : State :=
  (fst st + amount, snd st ++ [note]).

Definition postTransactionUtilization (card : Card.t) (purchase : Purchase.t) : Q :=
  (Card.totalLimit card - (Card.availableLimit card - Purchase.amount purchase))
  / Card.totalLimit card.

Definition limitStep (params : RiskPenaltyParams) (st : State) : State :=
  if Card.availableLimit (card params) <? Purchase.amount (purchase params) then
    add 0.6 (NRiskInsufficientLimit (Money.round2 (Purchase.amount (purchase params)))
               (Money.round2 (Card.availableLimit (card params)))) st
  else st.

Definition utilizationStep (params : RiskPenaltyParams) (st : State) : State :=
  let u := postTransactionUtilization (card params) (purchase params) in
  if u >? 0.8 then add 0.15 (NHighUtilizationRisk (Money.round2 (u * 100))) st
  else if u >? 0.5 then add 0.10 (NModerateUtilizationRisk (Money.round2 (u * 100))) st
  else if u >? 0.3 then add 0.05 (NLowUtilizationRisk (Money.round2 (u * 100))) st
  else st.

Definition dueDateStep (due : Outcome) (st : State) : State :=
  match due with
  | Returned daysUntilDue =>
      if (daysUntilDue <=? 3)%Z then add 0.1 (NCloseToDueDate daysUntilDue) st else st
  | Thrown => (fst st, snd st ++ [NDueDateUnavailable])
  end.

Definition installmentStep (params : RiskPenaltyParams) (st : State) : State :=
  if (adjustedInstallments params <? Purchase.installmentCount (purchase params))%Z then
    add 0.2 (NRiskInstallmentsReduced (Purchase.installmentCount (purchase params))
               (adjustedInstallments params)) st
  else st.

(** [flag === false]. *)
Definition isFalse (flag : option bool) : bool :=
  match flag with
  | Some false => true
  | _ => false
  end.

Definition requirementStep (params : RiskPenaltyParams) (st : State) : State :=
  match requiredFlags params with
  | Some flags =>
      let st1 := if isFalse (enrollmentOk flags) then add 0.15 NEnrollmentNotMet st else st in
      if isFalse (codeOk flags) then add 0.15 NCodeNotMet st1 else st1
  | None => st
  end.

(** [computeRiskPenalty] with the outcome of its [try] block given. *)
Definition computeRiskPenaltyWith (due : Outcome) (params : RiskPenaltyParams)
    : RiskPenaltyResult :=
  let st :=
    requirementStep params
      (installmentStep params
         (dueDateStep due
            (utilizationStep params
               (limitStep params (0, []))))) in
  let totalPenalty := fst st in
  let clampedPenalty := Money.clamp01 totalPenalty in
  let notes :=
    if totalPenalty >? 1 then snd st ++ [NPenaltyCapped (Money.round2 (totalPenalty * 100))]
    else snd st in
  mkRiskPenaltyResult clampedPenalty notes.

Definition computeRiskPenalty (params : RiskPenaltyParams) : RiskPenaltyResult :=
  computeRiskPenaltyWith (daysUntilNextDue (purchase params) (card params)) params.

End RiskPenalty.

(** ** domain/rules/score.ts *)

Module Score.

Record ScoreWeights := mkWeights {
  value : Q;
  cashflow : Q;
  risk : Q;
  usability : Q;
  campaign : Q
}.

Definition DEFAULT_WEIGHTS : ScoreWeights := mkWeights 0.45 0.25 0.20 0.05 0.05.

(** [Partial<ScoreWeights>]. *)
Record PartialWeights := mkPartialWeights {
  pValue : option Q;
  pCashflow : option Q;
  pRisk : option Q;
  pUsability : option Q;
  pCampaign : option Q
}.

Record ScoringOptions := mkOptions {
  campaignsByCardId : option (gmap Z (list Campaign.t));
  weights : option PartialWeights
}.

(** The default parameter value [options = {}]. *)
Definition noOptions : ScoringOptions := mkOptions None None.

(** [{ ...DEFAULT_WEIGHTS, ...customWeights }]. *)
Definition mergeWeights (customWeights : PartialWeights) : ScoreWeights :=
  mkWeights
    (default (value DEFAULT_WEIGHTS) (pValue customWeights))
    (default (cashflow DEFAULT_WEIGHTS) (pCashflow customWeights))
    (default (risk DEFAULT_WEIGHTS) (pRisk customWeights))
    (default (usability DEFAULT_WEIGHTS) (pUsability customWeights))
    (default (campaign DEFAULT_WEIGHTS) (pCampaign customWeights)).

Record CardScoreData := mkData {
  dCard : Card.t;
  dNetValueTL : Q;
  dValueScore : Q;
  dCashflowScore : Q;
  dRiskPenalty : Q;
  dUsabilityScore : Q;
  dCampaignMatchScore : Q;
  dNotes : list Note;
  dAdjustedInstallments : Z;
  dResultingUtilization : Q
}.

(** [campaignsByCardId[card.id] ?? []]. *)
Definition campaignsFor (options : ScoringOptions) (card : Card.t) : list Campaign.t :=
  default [] (default ∅ (campaignsByCardId options) !! Card.id card).

(** Phase 1, body of the loop over the cards: [None] is [continue]. *)
Definition evaluateCard (purchase : Purchase.t) (options : ScoringOptions)
    (card : Card.t) : option CardScoreData :=
  let campaigns := campaignsFor options card in
  let compatibility := Compatibility.checkCompatibility purchase card campaigns in
  if negb (Compatibility.compatible compatibility) then None
  else
    let campaignEval := CampaignMatch.evaluateCampaigns purchase card campaigns in
    let valueResult := Value.computeValueTL purchase card campaigns in
    let installmentPlan :=
      Cashflow.buildInstallmentPlan (Purchase.date purchase)
        (Compatibility.adjustedInstallments compatibility)
        (Card.statementDay card) (Card.dueDay card) in
    let cashflow := Cashflow.cashflowScore installmentPlan in
    let riskResult :=
      RiskPenalty.computeRiskPenalty
        (RiskPenalty.mkParams card purchase
           (Compatibility.adjustedInstallments compatibility)
           (Some (RiskPenalty.mkRequiredFlags
                    (Some (CampaignMatch.enrollmentOk (CampaignMatch.requirementsOk campaignEval)))
                    (Some (CampaignMatch.codeOk (CampaignMatch.requirementsOk campaignEval)))))) in
    let resultingUtilization :=
      (Card.totalLimit card - (Card.availableLimit card - Purchase.amount purchase))
      / Card.totalLimit card in
    let allNotes :=
      Compatibility.notes compatibility ++ CampaignMatch.notes campaignEval
      ++ Value.notes valueResult ++ RiskPenalty.notes riskResult in
    Some (mkData card (Value.netValueTL valueResult) 0 cashflow
            (RiskPenalty.penalty riskResult)
            (Compatibility.usabilityScore compatibility)
            (CampaignMatch.matchScore campaignEval)
            allNotes
            (Compatibility.adjustedInstallments compatibility)
            resultingUtilization).

(** Phase 2: the loop that writes [data.valueScore]. *)
Definition normalize (minValue maxValue : Q) (data : CardScoreData) : CardScoreData :=
  mkData (dCard data) (dNetValueTL data)
    (Money.minMaxNormalize (dNetValueTL data) minValue maxValue)
    (dCashflowScore data) (dRiskPenalty data) (dUsabilityScore data)
    (dCampaignMatchScore data) (dNotes data) (dAdjustedInstallments data)
    (dResultingUtilization data).

(** Phase 3: one [ScoredCard]. *)
Definition toScoredCard (weights : ScoreWeights) (data : CardScoreData) : ScoredCard.t :=
  let totalScore :=
    Money.round2 (100 * (value weights * dValueScore data
                         + cashflow weights * dCashflowScore data
                         + risk weights * (1 - dRiskPenalty data)
                         + usability weights * dUsabilityScore data
                         + campaign weights * dCampaignMatchScore data)) in
  let breakdown :=
    mkScoreBreakdown (dNetValueTL data)
      (Money.clamp01 (dValueScore data))
      (Money.clamp01 (dCashflowScore data))
      (Money.clamp01 (dRiskPenalty data))
      (Money.clamp01 (dUsabilityScore data))
      (Money.clamp01 (dCampaignMatchScore data))
      (dNotes data) in
  ScoredCard.mk (dCard data)
    (Qmax 0 (Qmin 100 totalScore))
    breakdown
    (Some (Money.round2 (dResultingUtilization data)))
    (Some (dAdjustedInstallments data)).

(** [String.prototype.localeCompare] of an engine that compares the two
    names character by character.  The collation is left to the engine
    and its locale; [compareScoredWith] below takes it as a parameter. *)
Definition localeCompare (a b : string) : Q :=
  match String.compare a b with
  | Lt => -1
  | Eq => 0
  | Gt => 1
  end.

(** The comparator passed to [sort]. *)
Definition compareScored (a b : ScoredCard.t) : Q :=
  let scoreDiff := ScoredCard.totalScore b - ScoredCard.totalScore a in
  if Qabs scoreDiff >? 1e-6 then scoreDiff
  else
    let valueDiff := valueScore (ScoredCard.breakdown b)
                     - valueScore (ScoredCard.breakdown a) in
    if Qabs valueDiff >? 1e-6 then valueDiff
    else
      let cashflowDiff := cashflowScore (ScoredCard.breakdown b)
                          - cashflowScore (ScoredCard.breakdown a) in
      if Qabs cashflowDiff >? 1e-6 then cashflowDiff
      else
        let riskDiff := riskPenalty (ScoredCard.breakdown a)
                        - riskPenalty (ScoredCard.breakdown b) in
        if Qabs riskDiff >? 1e-6 then riskDiff
        else
          let utilizationDiff := default 0 (ScoredCard.resultingUtilization a)
                                 - default 0 (ScoredCard.resultingUtilization b) in
          if Qabs utilizationDiff >? 1e-6 then utilizationDiff
          else localeCompare (Card.name (ScoredCard.card a)) (Card.name (ScoredCard.card b)).

(** [Array.prototype.sort(compareFn)] of an engine that sorts by stable
    insertion: an element goes before the first element that the
    comparator does not put before it.  The language requires the sort to
    be stable and leaves the algorithm to the engine; [scoreCardsWith]
    below takes it as a parameter. *)
Fixpoint insertBy {A} (compareFn : A -> A -> Q) (x : A) (l : list A) : list A :=
  match l with
  | [] => [x]
  | y :: l' =>
      if compareFn x y <=? 0 then x :: y :: l'
      else y :: insertBy compareFn x l'
  end.

Definition arraySort {A} (compareFn : A -> A -> Q) (l : list A) : list A :=
  fold_right (insertBy compareFn) [] l.

Definition scoreCards (purchase : Purchase.t) (cards : list Card.t)
    (options : ScoringOptions) : list ScoredCard.t :=
  let weights := mergeWeights (default (mkPartialWeights None None None None None)
                                 (weights options)) in
  (* Phase 1 *)
  let cardScoreData := omap (evaluateCard purchase options) cards in
  match List.map dNetValueTL cardScoreData with
  | [] => [] (* early return: [cardScoreData.length === 0] *)
  | v :: vs =>
      (* Phase 2: [Math.min(...netValues)] and [Math.max(...netValues)] of a
         list that is not empty *)
      let minValue := fold_left Qmin vs v in
      let maxValue := fold_left Qmax vs v in
      let normalized := List.map (normalize minValue maxValue) cardScoreData in
      (* Phase 3 *)
      let scoredCards := List.map (toScoredCard weights) normalized in
      (* Phase 4 *)
      arraySort compareScored scoredCards
  end.

(** What score.ts leaves to the JavaScript engine: the algorithm of
    [Array.prototype.sort] and the collation of
    [String.prototype.localeCompare]. *)
Record Engine := mkEngine {
  sortOf : (ScoredCard.t -> ScoredCard.t -> Q) -> list ScoredCard.t -> list ScoredCard.t;
  localeCompareOf : string -> string -> Q
}.

(** The engine of [scoreCards] above. *)
Definition referenceEngine : Engine := mkEngine arraySort localeCompare.

(** The comparator passed to [sort], for the collation of the engine. *)
Definition compareScoredWith (collate : string -> string -> Q) (a b : ScoredCard.t) : Q :=
  let scoreDiff := ScoredCard.totalScore b - ScoredCard.totalScore a in
  if Qabs scoreDiff >? 1e-6 then scoreDiff
  else
    let valueDiff := valueScore (ScoredCard.breakdown b)
                     - valueScore (ScoredCard.breakdown a) in
    if Qabs valueDiff >? 1e-6 then valueDiff
    else
      let cashflowDiff := cashflowScore (ScoredCard.breakdown b)
                          - cashflowScore (ScoredCard.breakdown a) in
      if Qabs cashflowDiff >? 1e-6 then cashflowDiff
      else
        let riskDiff := riskPenalty (ScoredCard.breakdown a)
                        - riskPenalty (ScoredCard.breakdown b) in
        if Qabs riskDiff >? 1e-6 then riskDiff
        else
          let utilizationDiff := default 0 (ScoredCard.resultingUtilization a)
                                 - default 0 (ScoredCard.resultingUtilization b) in
          if Qabs utilizationDiff >? 1e-6 then utilizationDiff
          else collate (Card.name (ScoredCard.card a)) (Card.name (ScoredCard.card b)).

(** Phases 1 to 3 of [scoreCards]: the array [scoredCards] before it is
    sorted. *)
Definition scoredEntries (purchase : Purchase.t) (cards : list Card.t)
    (options : ScoringOptions) : list ScoredCard.t :=
  let weights := mergeWeights (default (mkPartialWeights None None None None None)
                                 (weights options)) in
  let cardScoreData := omap (evaluateCard purchase options) cards in
  match List.map dNetValueTL cardScoreData with
  | [] => []
  | v :: vs =>
      let minValue := fold_left Qmin vs v in
      let maxValue := fold_left Qmax vs v in
      let normalized := List.map (normalize minValue maxValue) cardScoreData in
      List.map (toScoredCard weights) normalized
  end.

(** [scoreCards] on a given engine. *)
Definition scoreCardsWith (engine : Engine) (purchase : Purchase.t) (cards : list Card.t)
    (options : ScoringOptions) : list ScoredCard.t :=
  let weights := mergeWeights (default (mkPartialWeights None None None None None)
                                 (weights options)) in
  (* Phase 1 *)
  let cardScoreData := omap (evaluateCard purchase options) cards in
  match List.map dNetValueTL cardScoreData with
  | [] => [] (* early return: [cardScoreData.length === 0] *)
  | v :: vs =>
      (* Phase 2 *)
      let minValue := fold_left Qmin vs v in
      let maxValue := fold_left Qmax vs v in
      let normalized := List.map (normalize minValue maxValue) cardScoreData in
      (* Phase 3 *)
      let scoredCards := List.map (toScoredCard weights) normalized in
      (* Phase 4 *)
      sortOf engine (compareScoredWith (localeCompareOf engine)) scoredCards
  end.

End Score.

(** ** The installment amounts on binary64 numbers

    [round2] and the amounts of [buildInstallmentPlan], with [number] as
    the IEEE 754 double it is at run time. *)

Module IEEE.

(** An integer of at most 53 bits as a double. *)
Definition ofZ (z : Z) : float :=
  if (z <? 0)%Z then PrimFloat.opp (PrimFloat.of_uint63 (Uint63.of_Z (- z)))
  else PrimFloat.of_uint63 (Uint63.of_Z z).

(** [Math.round]: a double with a non-negative exponent is an integer
    already; otherwise the value is [n * 2^e] with [e < 0] and the result
    is [floor (n * 2^e + 1/2)], which has at most 53 bits. *)
Definition mathRound (x : float) : float :=
  match Prim2SF x with
  | S754_finite s m e =>
      if (0 <=? e)%Z then x
      else
        let n := if s then Z.neg m else Z.pos m in
        let r := ((2 * n + 2 ^ (- e)) / 2 ^ (- e + 1))%Z in
        if (r =? 0)%Z && s then PrimFloat.opp PrimFloat.zero else ofZ r
  | _ => x
  end.

Definition round2 (n : float) : float :=
  PrimFloat.div (mathRound (PrimFloat.mul n (ofZ 100))) (ofZ 100).

Record PaymentPlan := mkPaymentPlan {
  dueISO : Dates.ISODate;
  amount : float;
  daysFromPurchase : Z
}.

Definition buildInstallmentPlan (purchaseISO : Dates.ISODate) (installments : Z)
    (statementDay dueDay : Z) : list PaymentPlan :=
  if (installments <=? 1)%Z then
    let firstDueDate := Dates.nextDueDate purchaseISO statementDay dueDay in
    let daysFromPurchase := Cashflow.calculateDaysFromPurchase purchaseISO firstDueDate in
    [mkPaymentPlan firstDueDate PrimFloat.one daysFromPurchase]
  else
    let installmentAmount := round2 (PrimFloat.div PrimFloat.one (ofZ installments)) in
    let firstDueDate := Dates.nextDueDate purchaseISO statementDay dueDay in
    List.map
      (fun i : Z =>
         let dueDate := if (i =? 0)%Z then firstDueDate
                        else Dates.addMonths firstDueDate i in
         let daysFromPurchase := Cashflow.calculateDaysFromPurchase purchaseISO dueDate in
         let amount :=
           if (i =? installments - 1)%Z
           then round2 (PrimFloat.sub PrimFloat.one
                          (PrimFloat.mul installmentAmount (ofZ (installments - 1))))
           else installmentAmount in
         mkPaymentPlan dueDate amount daysFromPurchase)
      (seqZ 0 installments).

(** The loop of [cashflowScore]: [(totalDays, totalWeight)], the second
    component being the sum of the amounts. *)
Definition weightedTotals (plan : list PaymentPlan) : float * float :=
  fold_left
    (fun st payment =>
       let weight := amount payment in
       (PrimFloat.add (fst st) (PrimFloat.mul (ofZ (daysFromPurchase payment)) weight),
        PrimFloat.add (snd st) weight))
    plan (PrimFloat.zero, PrimFloat.zero).

Definition sumOfAmounts (plan : list PaymentPlan) : float := snd (weightedTotals plan).

(** The amounts of the plan add up to exactly 1.0. *)
Definition sumsToOne (plan : list PaymentPlan) : Prop :=
  PrimFloat.eqb (sumOfAmounts plan) PrimFloat.one = true.

(** The rational number that a finite double stands for. *)
Definition valueOf (x : float) : Q :=
  match Prim2SF x with
  | S754_finite s m e =>
      let n := if s then Z.neg m else Z.pos m in
      if (0 <=? e)%Z then inject_Z (n * 2 ^ e)
      else Qmake n (Z.to_pos (2 ^ (- e)))
  | _ => 0
  end.

(** The sum of the amounts as rational numbers, without any rounding. *)
Definition exactSumOfAmounts (plan : list PaymentPlan) : Q :=
  fold_right Qplus 0 (List.map (fun payment => valueOf (amount payment)) plan).

End IEEE.

(** ** components/ResultCard.tsx: the three helpers that read a score *)

Module ResultCard.

Definition getRiskLevel (penalty : Q) : string :=
  if penalty <=? 0.2 then "Low"
  else if penalty <=? 0.5 then "Medium"
  else "High".


Definition estimatePaymentDays (cashflowScore : Q) : Z :=
  Num.mathRound (cashflowScore * 60).

End ResultCard.

(** ** db/repositories/cards.ts: a row of the table [cards] *)

Module Db.

Record Card := mkCard {
  id : Z;
  name : string;
  total_limit : Q;
  available_limit : Q;
  statement_day : Z;
  due_day : Z;
  cashback_percent : Q;
  point_rate : Q;
  point_value : Q;
  installment_support : Z
}.

End Db.

(** ** screens/Simulation.tsx: [computeScores]

    The rows that [getAllCards] resolves to and the two fields of the
    component state that the callback reads are arguments; the alert and
    the log are left out. *)

Module Simulation.

(** The object literal of [cards.map]: no [utilization] is set. *)
Definition toDomainCard (card : Db.Card) : Card.t :=
  Card.mk (Db.id card) (Db.name card) (Db.total_limit card) (Db.available_limit card)
    (Db.statement_day card) (Db.due_day card) (Db.cashback_percent card)
    (Db.point_rate card) (Db.point_value card)
    (ISNumber (Db.installment_support card)) None.

(** [campaignsByCardId]: the loop [domainCards.forEach] writes the same
    list under the id of every card. *)
Definition campaignsByCardId (campaignsActive : bool) (currentCampaigns : list Campaign.t)
    (domainCards : list Card.t) : gmap Z (list Campaign.t) :=
  if campaignsActive && (Z.of_nat (length currentCampaigns) >? 0)%Z then
    fold_left (fun m card => <[Card.id card := currentCampaigns]> m) domainCards ∅
  else ∅.

Definition computeScores (campaignsActive : bool) (currentCampaigns : list Campaign.t)
    (cards : list Db.Card) (purchase : Purchase.t) : list ScoredCard.t :=
  if (Z.of_nat (length cards) =? 0)%Z then []
  else
    let domainCards := List.map toDomainCard cards in
    let byCardId := campaignsByCardId campaignsActive currentCampaigns domainCards in
    Score.scoreCards purchase domainCards (Score.mkOptions (Some byCardId) None).

End Simulation.

(** ** components/CampaignWizard.tsx: [buildCampaign]

    A text field of the wizard that holds a number is the number that
    [parseFloat] or [parseInt] reads from it, or [None] when the field is
    empty or the reading is [NaN]; a date field is [None] when it is
    empty. *)

Module CampaignWizard.

Record WizardState := mkState {
  selectedTypes : list CampaignType;
  category : string;
  channel : CampaignChannel;
  brand : string;
  dateRangeStart : option Dates.ISODate;
  dateRangeEnd : option Dates.ISODate;
  minAmount : option Q;
  extraCashbackPercent : option Q;
  extraPointRate : option Q;
  flatDiscount : option Q;
  maxInstallments : option Z;
  interestFreeMonths : option Z;
  capAmount : option Q;
  monthlyCap : bool;
  requiresEnrollment : bool;
  enrolled : bool;
  requiresCode : bool;
  codeProvided : bool
}.

Definition typeName (type : CampaignType) : string :=
  match type with
  | cashback => "cashback"
  | points => "points"
  | flatDiscountType => "flatDiscount"
  | installmentBoost => "installmentBoost"
  | interestFree => "interestFree"
  end.

(** [if (!isNaN(x) && x > 0) campaign.field = x]. *)
Definition positiveQ (field : option Q) : option Q :=
  match field with
  | Some x => if x >? 0 then Some x else None
  | None => None
  end.

Definition positiveZ (field : option Z) : option Z :=
  match field with
  | Some n => if (n >? 0)%Z then Some n else None
  | None => None
  end.

Definition buildCampaign (state : WizardState) : Campaign.t :=
  Campaign.mk
    ("Custom Campaign - " ++ String.concat ", " (List.map typeName (selectedTypes state)))%string
    (Some (selectedTypes state))
    (if String.eqb (category state) "general" then None else Some (category state))
    (match channel state with
     | any => None
     | only c => Some (only c)
     end)
    (if String.eqb (brand state) "general" then None else Some (brand state))
    (match dateRangeStart state, dateRangeEnd state with
     | Some s, Some e => Some (mkDateRange s e)
     | _, _ => None
     end)
    (positiveQ (minAmount state))
    (positiveQ (capAmount state))
    (if monthlyCap state then Some true else None)
    (positiveQ (option_map (fun x => x / 100) (extraCashbackPercent state)))
    (positiveQ (extraPointRate state))
    (positiveQ (flatDiscount state))
    (positiveZ (maxInstallments state))
    (positiveZ (interestFreeMonths state))
    (if requiresEnrollment state then Some true else None)
    (if requiresEnrollment state then Some (enrolled state) else None)
    (if requiresCode state then Some true else None)
    (if requiresCode state then Some (codeProvided state) else None).

(** [INITIAL_STATE]. *)
Definition INITIAL_STATE : WizardState :=
  mkState [] "general" any "general" None None None None None None None None None
    false false false false false.

End CampaignWizard.

(** ** utils/dates.ts in local time

    [parseISODate] builds the [Date] of the local midnight of its day, and
    two functions of utils/dates.ts compute with the milliseconds of such
    dates: [nextDueDate] adds 24 hours to one of them, [daysBetween]
    divides the difference of two of them by 24 hours.  Where the clocks
    are moved by an hour twice a year, one local day has 23 hours and
    another has 25, and on these days the two functions do not follow the
    calendar.  A time zone is given here by the length of each of its
    local days; module [Dates] above is the case in which every day has 24
    hours. *)

Module LocalTime.
Import Dates.

(** The length of a local day: 23 hours when the clocks go forward, 25
    hours when they go back, 24 hours otherwise.  The clocks are moved in
    the small hours, never at midnight. *)
Inductive DayLength := Short | Usual | Long.

Definition minutes (l : DayLength) : Z :=
  match l with
  | Short => 1380
  | Usual => 1440
  | Long => 1500
  end%Z.

(** A time zone: the length of the local day with a given day number (the
    [getTimeDays] of its [Date]). *)
Definition Zone : Type := Z -> DayLength.

(** A time zone whose clocks are never moved: UTC, or Europe/Istanbul
    since 2016. *)
Definition uniform : Zone := fun _ => Usual.

(** America/New_York in 2024: the clocks go forward on 10 March and back
    on 3 November. *)
Definition newYork2024 : Zone := fun day =>
  (if day =? isoTime (mkISO 2024 3 10) then Short
   else if day =? isoTime (mkISO 2024 11 3) then Long
   else Usual)%Z.

(** [toISODate(new Date(d.getTime() + 24 * 60 * 60 * 1000))] for the local
    midnight [d]: 24 hours after the midnight of a day of 25 hours it is
    11 pm of the same day; after the midnight of another day it is
    midnight or 1 am of the next day. *)
Definition plusOneDay (zone : Zone) (d : JSDate) : JSDate :=
  match zone (getTimeDays d) with
  | Long => d
  | _ => Dates.plusOneDay d
  end.

(** The minutes of the [n] local days that begin with the day [day]. *)
Definition minutesFrom (zone : Zone) (day n : Z) : Z :=
  foldr Z.add 0%Z ((fun k => minutes (zone k)) <$> seqZ day n).

(** [dateB.getTime() - dateA.getTime()] in minutes, for two local
    midnights. *)
Definition getTimeDifference (zone : Zone) (dateA dateB : JSDate) : Z :=
  let a := getTimeDays dateA in
  let b := getTimeDays dateB in
  (if a <=? b then minutesFrom zone a (b - a)
   else - minutesFrom zone b (a - b))%Z.

Definition daysBetween (zone : Zone) (aISO bISO : ISODate) : Z :=
  let dateA := parseISODate aISO in
  let dateB := parseISODate bISO in
  let diffMs := Z.abs (getTimeDifference zone dateA dateB) in
  (* [Math.floor(diffMs / (1000 * 60 * 60 * 24))], in minutes *)
  (diffMs / (60 * 24))%Z.

Definition nextDueDate (zone : Zone) (purchaseISO : ISODate) (statementDay dueDay : Z)
    : ISODate :=
  let statementDate := nextStatementDate purchaseISO statementDay in
  let statementDateObj := parseISODate statementDate in
  let dayAfterStatement := toISODate (plusOneDay zone statementDateObj) in
  nextDayOfMonth dayAfterStatement dueDay.

(** The [try] block of [computeRiskPenalty]. *)
Definition daysUntilNextDue (zone : Zone) (purchase : Purchase.t) (card : Card.t)
    : RiskPenalty.Outcome :=
  let nextDueDateISO :=
    nextDueDate zone (Purchase.date purchase) (Card.statementDay card) (Card.dueDay card) in
  RiskPenalty.Returned (daysBetween zone (Purchase.date purchase) nextDueDateISO).

Definition computeRiskPenalty (zone : Zone) (params : RiskPenalty.RiskPenaltyParams)
    : RiskPenalty.RiskPenaltyResult :=
  RiskPenalty.computeRiskPenaltyWith
    (daysUntilNextDue zone (RiskPenalty.purchase params) (RiskPenalty.card params)) params.

(** [buildInstallmentPlan] of cashflow.ts; [calculateDaysFromPurchase]
    parses its dates as UTC midnights and is the same in every zone. *)
Definition buildInstallmentPlan (zone : Zone) (purchaseISO : ISODate) (installments : Z)
    (statementDay dueDay : Z) : list Cashflow.PaymentPlan :=
  if (installments <=? 1)%Z then
    let firstDueDate := nextDueDate zone purchaseISO statementDay dueDay in
    let daysFromPurchase := Cashflow.calculateDaysFromPurchase purchaseISO firstDueDate in
    [Cashflow.mkPaymentPlan firstDueDate 1.0 daysFromPurchase]
  else
    let installmentAmount := Money.round2 (1.0 / inject_Z installments) in
    let firstDueDate := nextDueDate zone purchaseISO statementDay dueDay in
    List.map
      (fun i : Z =>
         let dueDate := if (i =? 0)%Z then firstDueDate
                        else addMonths firstDueDate i in
         let daysFromPurchase := Cashflow.calculateDaysFromPurchase purchaseISO dueDate in
         let amount :=
           if (i =? installments - 1)%Z
           then Money.round2 (1.0 - installmentAmount * inject_Z (installments - 1))
           else installmentAmount in
         Cashflow.mkPaymentPlan dueDate amount daysFromPurchase)
      (seqZ 0 installments).

End LocalTime.

(** * The vocabulary of the specification

    Definitions that follow the words of the specification; the
    properties below relate them to the embedding of the source. *)

Module CompatibilitySpec.

(** The cap that the card itself gives: the number when
    [installmentSupport] is a number, 24 when it is [true], 0 when it is
    [false]. *)
Definition cardCap (card : Card.t) : Z :=
  match Card.installmentSupport card with
  | ISNumber n => n
  | ISBoolean true => 24
  | ISBoolean false => 0
  end%Z.

(** The cap of the card raised to the largest [maxInstallments] of all the
    campaigns supplied, applicable or not. *)
Definition installmentCeiling (card : Card.t) (campaigns : list Campaign.t) : Z :=
  fold_right Z.max (cardCap card) (omap Campaign.maxInstallments campaigns).

End CompatibilitySpec.

Module ValueSpec.

(** Base reward: cashback on the amount plus the value of the points. *)
Definition baseReward (purchase : Purchase.t) (card : Card.t) : Q :=
  Purchase.amount purchase * Card.cashbackPercent card
  + Purchase.amount purchase * Card.pointRate card * Card.pointValue card.

(** Benefit of one campaign: extra cashback, the value of the extra points
    and the flat discount; a benefit the campaign does not have counts 0. *)
Definition benefitOf (purchase : Purchase.t) (card : Card.t) (campaign : Campaign.t) : Q :=
  Purchase.amount purchase * default 0 (Campaign.extraCashbackPercent campaign)
  + Purchase.amount purchase * default 0 (Campaign.extraPointRate campaign)
    * Card.pointValue card
  + default 0 (Campaign.flatDiscount campaign).

Definition summedBenefit (purchase : Purchase.t) (card : Card.t)
    (applicable : list Campaign.t) : Q :=
  fold_right Qplus 0 (List.map (benefitOf purchase card) applicable).

(** The caps that the applicable campaigns carry. *)
Definition caps (applicable : list Campaign.t) : list Q :=
  omap Campaign.capAmount applicable.

(** The summed benefit, replaced by the smallest cap exactly when some
    applicable campaign carries a cap and the sum exceeds the smallest. *)
Definition cappedBenefit (purchase : Purchase.t) (card : Card.t)
    (applicable : list Campaign.t) : Q :=
  match caps applicable with
  | [] => summedBenefit purchase card applicable
  | c :: cs =>
      let minimum := fold_right Qmin c cs in
      if minimum <? summedBenefit purchase card applicable
      then minimum
      else summedBenefit purchase card applicable
  end.

(** The positive part of a reward: a number that is not positive counts
    0. *)
Definition positivePart (x : Q) : Q := if 0 <? x then x else 0.

(** Base reward in which the cashback and the value of the points count
    when they are positive. *)
Definition countedBaseReward (purchase : Purchase.t) (card : Card.t) : Q :=
  positivePart (Purchase.amount purchase * Card.cashbackPercent card)
  + positivePart (Purchase.amount purchase * Card.pointRate card * Card.pointValue card).

(** The caps of the applicable campaigns that are not 0. *)
Definition nonZeroCaps (applicable : list Campaign.t) : list Q :=
  List.filter (fun cap => negb (Qeq_bool cap 0)) (caps applicable).

(** The summed benefit, when it is positive; replaced by the smallest cap
    other than 0 exactly when some applicable campaign carries such a cap
    and the sum exceeds the smallest of them. *)
Definition positiveCappedBenefit (purchase : Purchase.t) (card : Card.t)
    (applicable : list Campaign.t) : Q :=
  if 0 <? summedBenefit purchase card applicable then
    match nonZeroCaps applicable with
    | [] => summedBenefit purchase card applicable
    | c :: cs =>
        let minimum := fold_right Qmin c cs in
        if minimum <? summedBenefit purchase card applicable
        then minimum
        else summedBenefit purchase card applicable
    end
  else 0.

(** The ranges of the data model: a positive amount, rates and values of
    the card that are not negative. *)
Definition inRange (purchase : Purchase.t) (card : Card.t) : Prop :=
  0 < Purchase.amount purchase
  /\ 0 <= Card.cashbackPercent card
  /\ 0 <= Card.pointRate card
  /\ 0 <= Card.pointValue card.

(** A campaign as the campaign wizard builds it: a cap that is set is
    positive, a benefit that is set is not negative. *)
Definition wellFormed (campaign : Campaign.t) : Prop :=
  (forall cap, Campaign.capAmount campaign = Some cap -> 0 < cap)
  /\ (forall x, Campaign.extraCashbackPercent campaign = Some x -> 0 <= x)
  /\ (forall x, Campaign.extraPointRate campaign = Some x -> 0 <= x)
  /\ (forall x, Campaign.flatDiscount campaign = Some x -> 0 <= x).

End ValueSpec.

Module RiskSpec.
Import RiskPenalty.

(** Insufficient limit: 0.6. *)
Definition limitContribution (params : RiskPenaltyParams) : Q :=
  if Card.availableLimit (card params) <? Purchase.amount (purchase params)
  then 0.6 else 0.

(** Post-purchase utilization, one tier at most: above 80% 0.15, else
    above 50% 0.10, else above 30% 0.05. *)
Definition utilizationContribution (params : RiskPenaltyParams) : Q :=
  let utilization :=
    (Card.totalLimit (card params)
     - (Card.availableLimit (card params) - Purchase.amount (purchase params)))
    / Card.totalLimit (card params) in
  if 0.8 <? utilization then 0.15
  else if 0.5 <? utilization then 0.10
  else if 0.3 <? utilization then 0.05
  else 0.

(** Due date at most 3 days away: 0.1; nothing when the date computation
    fails. *)
Definition dueDateContribution (due : Outcome) : Q :=
  match due with
  | Returned daysUntilDue => if (daysUntilDue <=? 3)%Z then 0.1 else 0
  | Thrown => 0
  end.

(** Fewer installments than requested: 0.2. *)
Definition installmentContribution (params : RiskPenaltyParams) : Q :=
  if (adjustedInstallments params <? Purchase.installmentCount (purchase params))%Z
  then 0.2 else 0.

(** Unmet enrollment requirement: 0.15. *)
Definition enrollmentContribution (params : RiskPenaltyParams) : Q :=
  match requiredFlags params with
  | Some flags => match enrollmentOk flags with Some false => 0.15 | _ => 0 end
  | None => 0
  end.

(** Unmet code requirement: 0.15. *)
Definition codeContribution (params : RiskPenaltyParams) : Q :=
  match requiredFlags params with
  | Some flags => match codeOk flags with Some false => 0.15 | _ => 0 end
  | None => 0
  end.

Definition contributions (due : Outcome) (params : RiskPenaltyParams) : list Q :=
  [limitContribution params; utilizationContribution params;
   dueDateContribution due; installmentContribution params;
   enrollmentContribution params; codeContribution params].

Definition total (due : Outcome) (params : RiskPenaltyParams) : Q :=
  fold_right Qplus 0 (contributions due params).

(** The days from the date of the purchase to a due date, counted on the
    calendar. *)
Definition daysAfterPurchase (dueISO : Dates.ISODate) (params : RiskPenaltyParams) : Z :=
  (Dates.isoTime dueISO - Dates.isoTime (Purchase.date (purchase params)))%Z.

(** Next due date at most 3 days after the purchase date: 0.1. *)
Definition closeDueDateContribution (dueISO : Dates.ISODate) (params : RiskPenaltyParams)
    : Q :=
  if (daysAfterPurchase dueISO params <=? 3)%Z then 0.1 else 0.

(** The six contributions, for the next due date [dueISO]. *)
Definition contributionsFor (dueISO : Dates.ISODate) (params : RiskPenaltyParams) : list Q :=
  [limitContribution params; utilizationContribution params;
   closeDueDateContribution dueISO params; installmentContribution params;
   enrollmentContribution params; codeContribution params].

End RiskSpec.

Module CampaignMatchSpec.

(** The five criteria of a campaign.  [None]: the criterion is not
    present; [Some b]: it is present and [b] tells whether the purchase
    matches it.  A field is set when it is defined and neither the empty
    string nor zero. *)
Definition dateCriterion (purchase : Purchase.t) (campaign : Campaign.t) : option bool :=
  match Campaign.dateRange campaign with
  | Some range =>
      let day := Dates.isoTime (Purchase.date purchase) in
      Some ((Dates.isoTime (rangeStart range) <=? day)
            && (day <=? Dates.isoTime (rangeEnd range)))%Z
  | None => None
  end.

Definition channelCriterion (purchase : Purchase.t) (campaign : Campaign.t) : option bool :=
  match Campaign.channel campaign with
  | Some (only c) => Some (Channel_eqb c (Purchase.channel purchase))
  | Some any => None
  | None => None
  end.

Definition categoryCriterion (purchase : Purchase.t) (campaign : Campaign.t) : option bool :=
  match Num.truthyS (Campaign.category campaign) with
  | Some c =>
      if String.eqb c "general" then None
      else Some (String.eqb c (Purchase.category purchase))
  | None => None
  end.

Definition brandCriterion (purchase : Purchase.t) (campaign : Campaign.t) : option bool :=
  match Num.truthyS (Campaign.brand campaign) with
  | Some b =>
      if String.eqb b "general" then None
      else Some (eqOptString b (Purchase.merchant purchase))
  | None => None
  end.

Definition minAmountCriterion (purchase : Purchase.t) (campaign : Campaign.t) : option bool :=
  match Num.truthyQ (Campaign.minAmount campaign) with
  | Some minAmount => Some (minAmount <=? Purchase.amount purchase)
  | None => None
  end.

(** The outcomes of the criteria that are present. *)
Definition criteria (purchase : Purchase.t) (campaign : Campaign.t) : list bool :=
  omap id [dateCriterion purchase campaign; channelCriterion purchase campaign;
           categoryCriterion purchase campaign; brandCriterion purchase campaign;
           minAmountCriterion purchase campaign].

Definition totalCriteria (purchase : Purchase.t) (campaign : Campaign.t) : Z :=
  Z.of_nat (length (criteria purchase campaign)).

Definition matchedCount (purchase : Purchase.t) (campaign : Campaign.t) : Z :=
  Z.of_nat (length (List.filter id (criteria purchase campaign))).



End CampaignMatchSpec.

Module ScoreSpec.

(** Two numbers within 1e-6 of each other are tied. *)
Definition tolerance : Q := 1e-6.

Definition tied (x y : Q) : Prop := Qabs (x - y) <= tolerance.

(** [x] is higher than [y], and not tied with it. *)
Definition higher (x y : Q) : Prop := y + tolerance < x.

(** The name [a] does not come after the name [b] in lexicographic order. *)
Definition nameNotAfter (a b : string) : Prop := String.compare a b <> Gt.

Definition utilizationOf (sc : ScoredCard.t) : Q :=
  default 0 (ScoredCard.resultingUtilization sc).

(** The documented order of an entry [a] that stands before an entry [b]
    with a tied total score: higher value score first, then higher
    cashflow score, then lower risk penalty, then lower resulting
    utilization, then the name of the card ascending, in the collation
    [collate] of [localeCompare]: the name of [a] does not collate after
    the name of [b]. *)
Definition tieBreak (collate : string -> string -> Q) (a b : ScoredCard.t) : Prop :=
  let A := ScoredCard.breakdown a in
  let B := ScoredCard.breakdown b in
  higher (valueScore A) (valueScore B)
  \/ (tied (valueScore A) (valueScore B)
      /\ (higher (cashflowScore A) (cashflowScore B)
          \/ (tied (cashflowScore A) (cashflowScore B)
              /\ (higher (riskPenalty B) (riskPenalty A)
                  \/ (tied (riskPenalty A) (riskPenalty B)
                      /\ (higher (utilizationOf b) (utilizationOf a)
                          \/ (tied (utilizationOf a) (utilizationOf b)
                              /\ collate (Card.name (ScoredCard.card a))
                                   (Card.name (ScoredCard.card b)) <= 0))))))).

(** Two numbers that the tolerance does not blur: they are equal, or they
    differ by more than 1e-6. *)
Definition separate (x y : Q) : Prop := x == y \/ tolerance < Qabs (x - y).

(** Scored cards of which no two have values of one key that differ by
    1e-6 or less without being equal. *)
Definition separated (entries : list ScoredCard.t) : Prop :=
  forall a b, a ∈ entries -> b ∈ entries ->
    separate (ScoredCard.totalScore a) (ScoredCard.totalScore b)
    /\ separate (valueScore (ScoredCard.breakdown a)) (valueScore (ScoredCard.breakdown b))
    /\ separate (cashflowScore (ScoredCard.breakdown a))
         (cashflowScore (ScoredCard.breakdown b))
    /\ separate (riskPenalty (ScoredCard.breakdown a)) (riskPenalty (ScoredCard.breakdown b))
    /\ separate (utilizationOf a) (utilizationOf b).

(** The same order with exact comparisons below the total score: a
    level decides as soon as the two values differ at all. *)
Definition strictTieBreak (a b : ScoredCard.t) : Prop :=
  let A := ScoredCard.breakdown a in
  let B := ScoredCard.breakdown b in
  valueScore B < valueScore A
  \/ (valueScore A == valueScore B
      /\ (cashflowScore B < cashflowScore A
          \/ (cashflowScore A == cashflowScore B
              /\ (riskPenalty A < riskPenalty B
                  \/ (riskPenalty A == riskPenalty B
                      /\ (utilizationOf a < utilizationOf b
                          \/ (utilizationOf a == utilizationOf b
                              /\ nameNotAfter (Card.name (ScoredCard.card a))
                                   (Card.name (ScoredCard.card b))))))))).

End ScoreSpec.

(** What the language (ECMAScript, [Array.prototype.sort]) says of a
    comparator and of the sort. *)
Module LanguageSpec.

(** A comparator is consistent for a collection of values when, on these
    values, equality by the comparator is reflexive, symmetric and
    transitive, and "before" and "after" by the comparator are
    transitive. *)
Definition consistentValues (aa ab ba bc ac : Q) : Prop :=
  aa == 0
  /\ (ab == 0 -> ba == 0)
  /\ (ab == 0 -> bc == 0 -> ac == 0)
  /\ (ab < 0 -> bc < 0 -> ac < 0)
  /\ (0 < ab -> 0 < bc -> 0 < ac).

Definition consistent {A} (compareFn : A -> A -> Q) (values : list A) : Prop :=
  forall a b c, a ∈ values -> b ∈ values -> c ∈ values ->
    consistentValues (compareFn a a) (compareFn a b) (compareFn b a)
      (compareFn b c) (compareFn a c).

(** The same, decided on three values and on a list. *)
Definition consistentAt {A} (compareFn : A -> A -> Q) (a b c : A) : bool :=
  Qeq_bool (compareFn a a) 0
  && implb (Qeq_bool (compareFn a b) 0) (Qeq_bool (compareFn b a) 0)
  && implb (Qeq_bool (compareFn a b) 0 && Qeq_bool (compareFn b c) 0)
       (Qeq_bool (compareFn a c) 0)
  && implb ((compareFn a b <? 0) && (compareFn b c <? 0)) (compareFn a c <? 0)
  && implb ((0 <? compareFn a b) && (0 <? compareFn b c)) (0 <? compareFn a c).

Definition consistentOn {A} (compareFn : A -> A -> Q) (values : list A) : bool :=
  forallb (fun a =>
    forallb (fun b =>
      forallb (fun c => consistentAt compareFn a b c) values) values) values.

(** The requirement on [sort]: with a comparator that is consistent for
    the elements of the array, the result is a permutation of the array in
    which no element stands after an element that the comparator puts
    after it.  With any other comparator the order is left to the
    engine. *)
Definition sorts {A} (sort : (A -> A -> Q) -> list A -> list A) : Prop :=
  forall compareFn l,
    consistent compareFn l ->
    sort compareFn l ≡ₚ l
    /\ (forall i j a b,
          (i < j)%nat ->
          sort compareFn l !! i = Some a ->
          sort compareFn l !! j = Some b ->
          ~ compareFn b a < 0).

End LanguageSpec.

(** * Notions used by the further properties *)

Module DatesSpec.

(** A date string of the engine: it names a day of the calendar, in a
    year that the [Date] constructor takes as it is (a year below 100 is
    read as a year of the twentieth century). *)
Definition plainISO (iso : Dates.ISODate) : Prop :=
  Dates.validISO iso /\ (100 <= Dates.isoYear iso)%Z.

End DatesSpec.

Module CampaignNotions.

(** The enrollment and the promo code that the campaign asks for, when it
    asks for them, are there. *)
Definition requirementsMet (campaign : Campaign.t) : bool :=
  (negb (Num.truthyB (Campaign.requiresEnrollment campaign))
   || Num.truthyB (Campaign.enrolled campaign))
  && (negb (Num.truthyB (Campaign.requiresCode campaign))
      || Num.truthyB (Campaign.codeProvided campaign)).

(** A criterion is not in the way: it is absent or the purchase matches. *)
Definition holds (criterion : option bool) : bool :=
  match criterion with
  | Some false => false
  | _ => true
  end.

(** The purchase matches every criterion that the campaign has. *)
Definition fullMatch (purchase : Purchase.t) (campaign : Campaign.t) : bool :=
  forallb id (CampaignMatchSpec.criteria purchase campaign).

(** The campaign applies in [evaluateCampaigns]: its match score is
    positive. *)
Definition applies (purchase : Purchase.t) (campaign : Campaign.t) : bool :=
  CampaignMatch.matches (CampaignMatch.evaluateCampaignMatch purchase campaign).

(** The campaign applies and its benefits are aggregated. *)
Definition counted (purchase : Purchase.t) (campaign : Campaign.t) : bool :=
  applies purchase campaign && requirementsMet campaign.

(** The campaign applies, asks for an enrollment and has none. *)
Definition lacksEnrollment (purchase : Purchase.t) (campaign : Campaign.t) : bool :=
  applies purchase campaign
  && Num.truthyB (Campaign.requiresEnrollment campaign)
  && negb (Num.truthyB (Campaign.enrolled campaign)).

(** The campaign applies, asks for a promo code and has none. *)
Definition lacksCode (purchase : Purchase.t) (campaign : Campaign.t) : bool :=
  applies purchase campaign
  && Num.truthyB (Campaign.requiresCode campaign)
  && negb (Num.truthyB (Campaign.codeProvided campaign)).

End CampaignNotions.

(** * Scenarios *)

Module Scenario.

(** The purchase, the card and the campaign of the electronics scenario. *)
Definition purchase : Purchase.t :=
  Purchase.mk 1500 "electronics" 3 (Dates.mkISO 2024 8 10) online None None None.

Definition card : Card.t :=
  Card.mk 1 "Card" 50000 45000 15 5 0.025 1.0 0.01 (ISNumber 12) None.

Definition boost : Campaign.t :=
  Campaign.mk "Electronics Cashback Boost" None (Some "electronics"%string) None None None
    (Some 1000) (Some 500) None (Some 0.03) None None None None
    (Some true) (Some true) None None.

(** A card without installment support, and a request for five
    installments. *)
Definition cardWithoutInstallments : Card.t :=
  Card.mk 2 "Plain" 50000 45000 15 5 0.025 1.0 0.01 (ISBoolean false) None.

Definition cardWithZeroInstallments : Card.t :=
  Card.mk 3 "Zero" 50000 45000 15 5 0.025 1.0 0.01 (ISNumber 0) None.

(** The campaign of the electronics scenario with a cap of 30. *)
Definition tightBoost : Campaign.t :=
  Campaign.mk "Electronics Cashback Boost" None (Some "electronics"%string) None None None
    (Some 1000) (Some 30) None (Some 0.03) None None None None
    (Some true) (Some true) None None.

(** The campaign of the electronics scenario with a cap of 0, and a
    campaign for every purchase whose flat discount is negative. *)
Definition zeroCapBoost : Campaign.t :=
  Campaign.mk "Electronics Cashback Boost" None (Some "electronics"%string) None None None
    (Some 1000) (Some 0) None (Some 0.03) None None None None
    (Some true) (Some true) None None.

Definition surcharge : Campaign.t :=
  Campaign.mk "Surcharge" None None None None None
    None None None None None (Some (-10)) None None
    None None None None.

(** A purchase of one million and three cards that differ in their name
    and in their cashback only: none, one part in a hundred million, and
    two percent. *)
Definition largePurchase : Purchase.t :=
  Purchase.mk 1000000 "travel" 1 (Dates.mkISO 2024 8 10) online None None None.

Definition cardA : Card.t :=
  Card.mk 1 "A" 10000000 10000000 15 5 0 0 0 (ISNumber 12) None.

Definition cardB : Card.t :=
  Card.mk 2 "B" 10000000 10000000 15 5 (1 # 100000000) 0 0 (ISNumber 12) None.

Definition cardC : Card.t :=
  Card.mk 3 "C" 10000000 10000000 15 5 0.02 0 0 (ISNumber 12) None.

(** Two more cards for the large purchase: with A and B they earn 0, 0.01,
    0.02 and 12500, which gives the value scores 0, 0.8e-6, 1.6e-6 and 1. *)
Definition cardD : Card.t :=
  Card.mk 4 "D" 10000000 10000000 15 5 (2 # 100000000) 0 0 (ISNumber 12) None.

Definition cardE : Card.t :=
  Card.mk 5 "E" 10000000 10000000 15 5 0.0125 0 0 (ISNumber 12) None.

Definition purchaseInFive : Purchase.t :=
  Purchase.mk 1500 "electronics" 5 (Dates.mkISO 2024 8 10) online None None None.

(** A purchase of 8 March 2024 on a card with the statement day 10 and
    the due day 12, with a limit that leaves the utilization at 12%. *)
Definition marchPurchase : Purchase.t :=
  Purchase.mk 1000 "grocery" 1 (Dates.mkISO 2024 3 8) online None None None.

Definition marchCard : Card.t :=
  Card.mk 4 "March" 50000 45000 10 12 0.025 1.0 0.01 (ISNumber 12) None.

End Scenario.

(** A row of the table [cards] as the form for a new card stores it: the
    form accepts 0 or 1 for [installment_support]. *)
Module FormScenario.

Definition row : Db.Card :=
  Db.mkCard 7 "Form card" 50000 45000 15 5 0.025 1.0 0.01 1.

End FormScenario.

(** * Properties *)

(** ** Comparisons of numbers *)

Section NumFacts.

Lemma ltb_true x y : (x <? y) = true <-> x < y.
Proof.
  unfold Num.ltb. rewrite negb_true_iff. split.
  - intros H. apply Qnot_le_lt. intros Hle. apply Qle_bool_iff in Hle. congruence.
  - intros H. destruct (Qle_bool y x) eqn:E; [|reflexivity].
    apply Qle_bool_iff in E. lra.
Qed.

Lemma ltb_false x y : (x <? y) = false <-> y <= x.
Proof.
  unfold Num.ltb. rewrite negb_false_iff. apply Qle_bool_iff.
Qed.

Lemma leb_true x y : (x <=? y) = true <-> x <= y.
Proof. apply Qle_bool_iff. Qed.

Lemma leb_false x y : (x <=? y) = false <-> y < x.
Proof.
  unfold Num.leb. split.
  - intros H. apply Qnot_le_lt. intros Hle. apply Qle_bool_iff in Hle. congruence.
  - intros H. destruct (Qle_bool x y) eqn:E; [|reflexivity].
    apply Qle_bool_iff in E. lra.
Qed.

Lemma gtb_true x y : (x >? y) = true <-> y < x.
Proof. apply ltb_true. Qed.

Lemma gtb_false x y : (x >? y) = false <-> x <= y.
Proof. apply ltb_false. Qed.

Lemma geb_true x y : (x >=? y) = true <-> y <= x.
Proof. apply leb_true. Qed.

Lemma geb_false x y : (x >=? y) = false <-> x < y.
Proof. apply leb_false. Qed.

Lemma eqb_true x y : Num.eqb x y = true <-> x == y.
Proof. apply Qeq_bool_iff. Qed.

Lemma eqb_false x y : Num.eqb x y = false <-> ~ x == y.
Proof.
  unfold Num.eqb. split.
  - intros H Heq. apply Qeq_bool_iff in Heq. congruence.
  - intros H. destruct (Qeq_bool x y) eqn:E; [|reflexivity].
    apply Qeq_bool_iff in E. contradiction.
Qed.

End NumFacts.

(** Turns the boolean tests on numbers among the hypotheses into
    propositions. *)
Ltac numb :=
  repeat match goal with
  | H : (_ <? _) = true |- _ => apply ltb_true in H
  | H : (_ <? _) = false |- _ => apply ltb_false in H
  | H : (_ <=? _) = true |- _ => apply leb_true in H
  | H : (_ <=? _) = false |- _ => apply leb_false in H
  | H : (_ >? _) = true |- _ => apply gtb_true in H
  | H : (_ >? _) = false |- _ => apply gtb_false in H
  | H : (_ >=? _) = true |- _ => apply geb_true in H
  | H : (_ >=? _) = false |- _ => apply geb_false in H
  | H : Num.eqb _ _ = true |- _ => apply eqb_true in H
  | H : Num.eqb _ _ = false |- _ => apply eqb_false in H
  end.

(** Case analysis on every [Qmin] and [Qmax] of the goal and of the
    hypotheses. *)
Ltac name_min x y :=
  let H := fresh "Hmin" in
  let m := fresh "m" in
  pose proof (Q.min_spec x y) as H; set (m := Qmin x y) in *; clearbody m.

Ltac name_max x y :=
  let H := fresh "Hmax" in
  let m := fresh "m" in
  pose proof (Q.max_spec x y) as H; set (m := Qmax x y) in *; clearbody m.

Ltac minmax :=
  repeat match goal with
  | |- context [Qmin ?x ?y] => name_min x y
  | |- context [Qmax ?x ?y] => name_max x y
  | _ : context [Qmin ?x ?y] |- _ => name_min x y
  | _ : context [Qmax ?x ?y] |- _ => name_max x y
  end;
  repeat match goal with
  | H : (_ < _ /\ _ == _) \/ (_ <= _ /\ _ == _) |- _ => destruct H as [[? ?]|[? ?]]
  end.

Section MoneyFacts.
Import Money.

Lemma round2_comp x y : x == y -> round2 x = round2 y.
Proof.
  intros H. unfold round2, Num.mathRound.
  assert (E : Qfloor (x * 100 + (1 # 2)) = Qfloor (y * 100 + (1 # 2)))
    by (apply Qfloor_comp; rewrite H; reflexivity).
  rewrite E. reflexivity.
Qed.

Lemma clamp01_comp x y : x == y -> clamp01 x == clamp01 y.
Proof. intros H. unfold clamp01. minmax; lra. Qed.

Lemma clamp01_id x : 0 <= x <= 1 -> clamp01 x == x.
Proof. intros H. unfold clamp01. minmax; lra. Qed.

End MoneyFacts.

(** ** The billing cycle *)

Section DateFacts.
Import Dates.
Local Open Scope Z_scope.

Lemma daysBeforeYear_succ y :
  daysBeforeYear (y + 1) = daysBeforeYear y + (if isLeap y then 366 else 365).
Proof.
  unfold daysBeforeYear, isLeap.
  replace (y + 1 - 1) with y by lia.
  destruct (y mod 4 =? 0) eqn:E4; destruct (y mod 100 =? 0) eqn:E100;
    destruct (y mod 400 =? 0) eqn:E400; simpl;
    rewrite ?Z.eqb_eq, ?Z.eqb_neq in *;
    Z.div_mod_to_equations; lia.
Qed.

Lemma month_cases m :
  0 <= m < 12 ->
  m = 0 \/ m = 1 \/ m = 2 \/ m = 3 \/ m = 4 \/ m = 5 \/ m = 6 \/ m = 7 \/
  m = 8 \/ m = 9 \/ m = 10 \/ m = 11.
Proof. lia. Qed.

Lemma daysInMonth_ge_28 y m : 28 <= daysInMonth y m.
Proof.
  unfold daysInMonth.
  repeat match goal with |- context [if ?b then _ else _] => destruct b end; lia.
Qed.

Lemma newDate_in_range y m d : 0 <= m < 12 -> newDate y m d = mkJSDate y m d.
Proof.
  intros H. unfold newDate.
  rewrite Z.div_small, Z.mod_small by lia. f_equal. lia.
Qed.

Lemma parse_valid iso : validISO iso -> validDate (parseISODate iso).
Proof.
  intros [Hm Hd]. unfold parseISODate.
  rewrite newDate_in_range by lia. unfold validDate. simpl. split; [lia | exact Hd].
Qed.

Lemma parse_toISODate d : 0 <= getMonth d < 12 -> parseISODate (toISODate d) = d.
Proof.
  intros H. destruct d as [y m dd]. unfold parseISODate, toISODate. simpl in *.
  replace (m + 1 - 1) with m by lia. apply newDate_in_range. exact H.
Qed.

Lemma newDate_month y m d : 0 <= getMonth (newDate y m d) < 12.
Proof. simpl. apply Z.mod_pos_bound. lia. Qed.

(** The first day of the month after month [m] comes [daysInMonth y m]
    days after the first day of month [m], also across the new year. *)
Lemma getTimeDays_next_month y m d :
  0 <= m < 12 ->
  getTimeDays (newDate y (m + 1) d)
  = daysBeforeYear y + daysBeforeMonth y m + daysInMonth y m + d.
Proof.
  intros H. unfold getTimeDays.
  destruct (month_cases m H) as [->|[->|[->|[->|[->|[->|[->|[->|[->|[->|[->| ->]]]]]]]]]]];
    cbn [newDate getFullYear getMonth getDate];
    try (change ((11 + 1) / 12) with 1; change ((11 + 1) mod 12) with 0;
         rewrite daysBeforeYear_succ);
    try (rewrite Z.add_0_r);
    unfold daysBeforeMonth, daysInMonth; simpl; destruct (isLeap y); lia.
Qed.

Lemma plusOneDay_time d :
  validDate d -> getTimeDays (plusOneDay d) = getTimeDays d + 1.
Proof.
  intros [Hm Hd]. unfold plusOneDay.
  destruct (getDate d <? daysInMonth (getFullYear d) (getMonth d)) eqn:E.
  - unfold getTimeDays. simpl. lia.
  - apply Z.ltb_ge in E. rewrite getTimeDays_next_month by exact Hm.
    unfold getTimeDays. lia.
Qed.

Lemma plusOneDay_valid d : validDate d -> validDate (plusOneDay d).
Proof.
  intros [Hm Hd]. unfold plusOneDay.
  destruct (getDate d <? daysInMonth (getFullYear d) (getMonth d)) eqn:E.
  - apply Z.ltb_lt in E. unfold validDate. simpl. lia.
  - split; [apply newDate_month|]. cbn [newDate getDate getFullYear getMonth].
    pose proof (daysInMonth_ge_28 (getFullYear d + (getMonth d + 1) / 12)
                  ((getMonth d + 1) mod 12)). lia.
Qed.

(** [nextDayOfMonth] answers with a day of the calendar, and never with
    a day before its base date. *)
Lemma nextDayOfMonth_spec baseISO day :
  validDate (parseISODate baseISO) ->
  validDate (parseISODate (nextDayOfMonth baseISO day))
  /\ isoTime baseISO <= isoTime (nextDayOfMonth baseISO day)
  /\ 1 <= isoDay (nextDayOfMonth baseISO day) <= 28.
Proof.
  intros [Hm Hd]. unfold nextDayOfMonth, isoTime.
  set (b := parseISODate baseISO) in *.
  set (c := Z.max 1 (Z.min 28 day)).
  assert (Hc : 1 <= c <= 28) by (unfold c; lia).
  destruct (getDate b <=? c) eqn:E.
  - apply Z.leb_le in E.
    rewrite parse_toISODate by apply newDate_month.
    rewrite newDate_in_range by exact Hm.
    pose proof (daysInMonth_ge_28 (getFullYear b) (getMonth b)).
    unfold validDate, getTimeDays.
    cbn [getDate getFullYear getMonth toISODate isoDay].
    lia.
  - apply Z.leb_gt in E.
    rewrite parse_toISODate by apply newDate_month.
    rewrite getTimeDays_next_month by exact Hm.
    pose proof (newDate_month (getFullYear b) (getMonth b + 1) c).
    pose proof (daysInMonth_ge_28 (getFullYear (newDate (getFullYear b) (getMonth b + 1) c))
                  (getMonth (newDate (getFullYear b) (getMonth b + 1) c))).
    unfold validDate, getTimeDays.
    change (getDate (newDate (getFullYear b) (getMonth b + 1) c)) with c.
    change (isoDay (toISODate (newDate (getFullYear b) (getMonth b + 1) c))) with c.
    lia.
Qed.

(** 24 hours after a local midnight the date is the same date on a day of
    25 hours, and the date of the next day otherwise. *)
Lemma local_plusOneDay_spec zone d :
  validDate d ->
  validDate (LocalTime.plusOneDay zone d)
  /\ getTimeDays (LocalTime.plusOneDay zone d)
     = getTimeDays d
       + (match zone (getTimeDays d) with LocalTime.Long => 0 | _ => 1 end).
Proof.
  intros Hd. unfold LocalTime.plusOneDay.
  pose proof (plusOneDay_valid d Hd). pose proof (plusOneDay_time d Hd).
  destruct (zone (getTimeDays d)); split; try assumption; lia.
Qed.

(** Where the statement date is not a day of 25 hours, the date returned
    by [nextDueDate] lies at least one day after the date returned by
    [nextStatementDate], also when the statement day and the due day are
    equal; on a statement date of 25 hours it is not before that date. *)
Lemma nextDueDate_after_statement zone purchaseISO statementDay dueDay :
  validISO purchaseISO ->
  isoTime (nextStatementDate purchaseISO statementDay)
  + (match zone (isoTime (nextStatementDate purchaseISO statementDay)) with
     | LocalTime.Long => 0
     | _ => 1
     end)
  <= isoTime (LocalTime.nextDueDate zone purchaseISO statementDay dueDay).
Proof.
  intros Hv. unfold LocalTime.nextDueDate, nextStatementDate.
  pose proof (nextDayOfMonth_spec purchaseISO statementDay (parse_valid _ Hv))
    as (Hs & _ & _).
  revert Hs. generalize (nextDayOfMonth purchaseISO statementDay). intros s Hs.
  destruct (local_plusOneDay_spec zone _ Hs) as [Hn Ht].
  pose proof (parse_toISODate _ (proj1 Hn)) as Hp.
  pose proof (nextDayOfMonth_spec
                (toISODate (LocalTime.plusOneDay zone (parseISODate s))) dueDay)
    as Hdue.
  rewrite Hp in Hdue. destruct (Hdue Hn) as (_ & Hle & _).
  revert Hle. unfold isoTime. rewrite Hp, Ht.
  generalize (getTimeDays
                (parseISODate
                   (nextDayOfMonth
                      (toISODate (LocalTime.plusOneDay zone (parseISODate s))) dueDay))).
  generalize (match zone (getTimeDays (parseISODate s)) with
              | LocalTime.Long => 0
              | _ => 1
              end).
  generalize (getTimeDays (parseISODate s)). intros; lia.
Qed.

(** C9.  The date returned by [nextDueDate] is not always after the date
    returned by [nextStatementDate], as the specification and the
    documentation of [nextDueDate] have it.  In New York the third of November
    2024 has 25 hours.  For a purchase on that day with the statement day
    and the due day both 3, the statement date is the day of the purchase;
    24 hours after its midnight it is still the third of November, and
    [nextDueDate] returns the statement date itself. *)
Theorem nextDueDate_on_statement_date :
  nextStatementDate (mkISO 2024 11 3) 3 = mkISO 2024 11 3
  /\ LocalTime.plusOneDay LocalTime.newYork2024 (parseISODate (mkISO 2024 11 3))
     = parseISODate (mkISO 2024 11 3)
  /\ LocalTime.nextDueDate LocalTime.newYork2024 (mkISO 2024 11 3) 3 3 = mkISO 2024 11 3.
Proof. vm_compute. repeat split. Qed.

(** Without the change of the clocks the same purchase is due a month
    later. *)
Example nextDueDate_uniform_zone :
  LocalTime.nextDueDate LocalTime.uniform (mkISO 2024 11 3) 3 3 = mkISO 2024 12 3
  /\ nextDueDate (mkISO 2024 11 3) 3 3 = mkISO 2024 12 3.
Proof. vm_compute. split; reflexivity. Qed.

End DateFacts.

(** ** Compatibility *)

Section CompatibilityFacts.
Import Compatibility CompatibilitySpec.

(** The result of [checkCompatibility] in its two cases. *)
Lemma checkCompatibility_cases purchase card campaigns :
  (Card.availableLimit card < Purchase.amount purchase
   /\ compatible (checkCompatibility purchase card campaigns) = false
   /\ usabilityScore (checkCompatibility purchase card campaigns) = 0)
  \/ (Purchase.amount purchase <= Card.availableLimit card
      /\ compatible (checkCompatibility purchase card campaigns) = true).
Proof.
  unfold checkCompatibility.
  destruct (Card.availableLimit card <? Purchase.amount purchase) eqn:E; numb.
  - left. repeat split. exact E.
  - right. split; [exact E|].
    repeat match goal with
    | |- context [if ?b then _ else _] => destruct b
    end; reflexivity.
Qed.

(** C1. For every purchase, card and list of campaigns,
    [checkCompatibility] answers [compatible = false] exactly when the
    available limit of the card is below the amount of the purchase, and
    in that case the usability score it returns is 0. *)
Theorem checkCompatibility_incompatible_iff purchase card campaigns :
  (compatible (checkCompatibility purchase card campaigns) = false
   <-> Card.availableLimit card < Purchase.amount purchase)
  /\ (compatible (checkCompatibility purchase card campaigns) = false ->
      usabilityScore (checkCompatibility purchase card campaigns) = 0).
Proof.
  destruct (checkCompatibility_cases purchase card campaigns)
    as [(Hlt & Hc & Hu)|(Hle & Hc)]; rewrite Hc.
  - split; [tauto | intros _; exact Hu].
  - split; [split; [discriminate | intros Hlt; lra] | discriminate].
Qed.

Lemma fold_right_max_init a n vs :
  fold_right Z.max (Z.max a n) vs = Z.max n (fold_right Z.max a vs).
Proof. induction vs as [|v vs IH]; simpl; lia. Qed.

Lemma getCampaignInstallmentBoost_spec campaigns purchase acc :
  (0 <= acc)%Z ->
  fold_left
    (fun maxBoost campaign =>
       match Num.truthyZ (Campaign.maxInstallments campaign) with
       | Some n => if (n >? maxBoost)%Z then n else maxBoost
       | None => maxBoost
       end) campaigns acc
  = fold_right Z.max acc (omap Campaign.maxInstallments campaigns)
  /\ getCampaignInstallmentBoost campaigns purchase
     = fold_right Z.max 0%Z (omap Campaign.maxInstallments campaigns).
Proof.
  intros Hacc.
  assert (H : forall ks a, (0 <= a)%Z ->
            fold_left
              (fun maxBoost campaign =>
                 match Num.truthyZ (Campaign.maxInstallments campaign) with
                 | Some n => if (n >? maxBoost)%Z then n else maxBoost
                 | None => maxBoost
                 end) ks a
            = fold_right Z.max a (omap Campaign.maxInstallments ks)).
  { induction ks as [|k ks IH]; intros a Ha; [reflexivity|].
    cbn [fold_left omap list_omap].
    destruct (Campaign.maxInstallments k) as [n|]; cbn [Num.truthyZ fold_right].
    - destruct (n =? 0)%Z eqn:E0.
      + apply Z.eqb_eq in E0. subst n. rewrite IH by exact Ha.
        assert (0 <= fold_right Z.max a (omap Campaign.maxInstallments ks))%Z.
        { clear IH. induction (omap Campaign.maxInstallments ks); simpl; lia. }
        lia.
      + destruct (n >? a)%Z eqn:En.
        * rewrite IH by lia.
          replace n with (Z.max a n) at 1 by lia. apply fold_right_max_init.
        * rewrite IH by exact Ha.
          replace a with (Z.max a n) at 1 by lia. apply fold_right_max_init.
    - apply IH, Ha. }
  split; [apply H, Hacc | apply H; lia].
Qed.

(** The ceiling computed by the source is the ceiling of the
    specification for a card whose own cap is not negative. *)
Lemma getMaxAllowedInstallments_spec card campaigns :
  (0 <= cardCap card)%Z ->
  getMaxAllowedInstallments card campaigns = installmentCeiling card campaigns.
Proof.
  intros Hcap. unfold getMaxAllowedInstallments, installmentCeiling.
  destruct (getCampaignInstallmentBoost_spec campaigns None 0%Z) as [_ ->]; [lia|].
  change (match Card.installmentSupport card with
          | ISNumber n => n
          | ISBoolean true => 24%Z
          | ISBoolean false => 0%Z
          end) with (cardCap card).
  set (vs := omap Campaign.maxInstallments campaigns).
  replace (cardCap card) with (Z.max 0 (cardCap card)) at 3 by lia.
  rewrite fold_right_max_init.
  destruct (fold_right Z.max 0 vs >? cardCap card)%Z eqn:E; lia.
Qed.

(** C6. For every purchase whose amount does not exceed the available
    limit, and every card whose own installment cap (the number in
    [installmentSupport], 24 for [true], 0 for [false] or 0) is not
    negative, the ceiling that [checkCompatibility] uses is that cap raised
    to the largest [maxInstallments] of all supplied campaigns, whether or
    not they apply to the purchase; when the requested installment count
    exceeds the ceiling, the adjusted count is [max 1 ceiling] and the
    usability score is 0.4. *)
Theorem checkCompatibility_installment_ceiling purchase card campaigns :
  Purchase.amount purchase <= Card.availableLimit card ->
  (0 <= cardCap card)%Z ->
  getMaxAllowedInstallments card campaigns = installmentCeiling card campaigns
  /\ ((installmentCeiling card campaigns < Purchase.installmentCount purchase)%Z ->
      adjustedInstallments (checkCompatibility purchase card campaigns)
      = Z.max 1 (installmentCeiling card campaigns)
      /\ usabilityScore (checkCompatibility purchase card campaigns) = 0.4).
Proof.
  intros Hlimit Hcap.
  pose proof (getMaxAllowedInstallments_spec card campaigns Hcap) as Hce.
  split; [exact Hce|]. intros Hgt.
  unfold checkCompatibility.
  apply ltb_false in Hlimit. rewrite Hlimit, Hce.
  assert (Hc : (Purchase.installmentCount purchase >? installmentCeiling card campaigns)%Z
               = true) by lia.
  rewrite Hc.
  repeat match goal with
  | |- context [if ?b then _ else _] => destruct b
  end; simpl; split; reflexivity.
Qed.

(** The scenario of C6: a card with [installmentSupport = false], five
    installments requested, no campaign. *)
Lemma checkCompatibility_installment_ceiling_witness :
  Purchase.amount Scenario.purchaseInFive
  <= Card.availableLimit Scenario.cardWithoutInstallments
  /\ (0 <= cardCap Scenario.cardWithoutInstallments)%Z
  /\ (installmentCeiling Scenario.cardWithoutInstallments []
      < Purchase.installmentCount Scenario.purchaseInFive)%Z
  /\ adjustedInstallments
       (checkCompatibility Scenario.purchaseInFive Scenario.cardWithoutInstallments [])
     = 1%Z
  /\ usabilityScore
       (checkCompatibility Scenario.purchaseInFive Scenario.cardWithoutInstallments [])
     = 0.4.
Proof.
  assert (H1 : Purchase.amount Scenario.purchaseInFive
               <= Card.availableLimit Scenario.cardWithoutInstallments)
    by (vm_compute; discriminate).
  assert (H2 : (0 <= cardCap Scenario.cardWithoutInstallments)%Z)
    by (vm_compute; discriminate).
  assert (H3 : (installmentCeiling Scenario.cardWithoutInstallments []
                < Purchase.installmentCount Scenario.purchaseInFive)%Z)
    by reflexivity.
  destruct (checkCompatibility_installment_ceiling Scenario.purchaseInFive
              Scenario.cardWithoutInstallments [] H1 H2) as [_ H].
  destruct (H H3) as [Ha Hu].
  repeat split; assumption.
Defined.

(** The same request on a card whose [installmentSupport] is the number 0. *)
Example checkCompatibility_zero_installments :
  adjustedInstallments
    (checkCompatibility Scenario.purchaseInFive Scenario.cardWithZeroInstallments [])
  = 1%Z
  /\ usabilityScore
       (checkCompatibility Scenario.purchaseInFive Scenario.cardWithZeroInstallments [])
     = 0.4.
Proof. split; reflexivity. Qed.

End CompatibilityFacts.

(** ** Value *)

Section ValueFacts.
Import Value ValueSpec.

(** C10. In the electronics scenario [checkCompatibility] answers
    [compatible = true] with three installments, and [computeValueTL]
    answers a net value of 97.5: base cashback 37.5, base points worth 15
    and 45 of extra cashback from the campaign, which stays under the cap
    of 500, so that no capping is noted. *)
Theorem electronics_scenario :
  Compatibility.compatible
    (Compatibility.checkCompatibility Scenario.purchase Scenario.card [Scenario.boost])
  = true
  /\ Compatibility.adjustedInstallments
       (Compatibility.checkCompatibility Scenario.purchase Scenario.card [Scenario.boost])
     = 3%Z
  /\ netValueTL (computeValueTL Scenario.purchase Scenario.card [Scenario.boost]) == 97.5
  /\ notes (computeValueTL Scenario.purchase Scenario.card [Scenario.boost])
     = [NBaseCashback 37.50 2.50;
        NBasePoints 15.00 1500.00 0.01;
        NExtraCashback 45.00 "Electronics Cashback Boost" 3.00].
Proof. repeat split; vm_compute; reflexivity. Qed.

Lemma campaignBenefit_benefitOf purchase card campaign :
  fst (campaignBenefit purchase card campaign) == benefitOf purchase card campaign.
Proof.
  unfold campaignBenefit, benefitOf, Num.truthyQ.
  destruct (Campaign.extraCashbackPercent campaign) as [x|];
    [destruct (Qeq_bool x 0) eqn:Ex; [apply Qeq_bool_eq in Ex|]|];
    (destruct (Campaign.extraPointRate campaign) as [y|];
     [destruct (Qeq_bool y 0) eqn:Ey; [apply Qeq_bool_eq in Ey|]|]);
    (destruct (Campaign.flatDiscount campaign) as [z|];
     [destruct (Qeq_bool z 0) eqn:Ez; [apply Qeq_bool_eq in Ez|]|]);
    cbn [fst default from_option id];
    try rewrite Ex; try rewrite Ey; try rewrite Ez; ring.
Qed.

Lemma accumulateBenefits_sum purchase card applicable st :
  fst (accumulateBenefits purchase card applicable st)
  == fst st + summedBenefit purchase card applicable.
Proof.
  unfold accumulateBenefits, summedBenefit.
  revert st. induction applicable as [|k ks IH]; intros st; cbn [fold_left List.map fold_right].
  - ring.
  - rewrite IH.
    pose proof (campaignBenefit_benefitOf purchase card k) as Hk.
    destruct (campaignBenefit purchase card k) as [b ns]. cbn [fst] in *.
    rewrite Hk. ring.
Qed.

Lemma fold_right_Qmin_init a b l :
  fold_right Qmin (Qmin a b) l == Qmin b (fold_right Qmin a l).
Proof.
  induction l as [|x l IH]; cbn [fold_right].
  - minmax; lra.
  - revert IH. generalize (fold_right Qmin (Qmin a b) l) (fold_right Qmin a l).
    intros u v IH. minmax; lra.
Qed.

Lemma fold_right_Qmin_comp a b l :
  a == b -> fold_right Qmin a l == fold_right Qmin b l.
Proof.
  intros H. induction l as [|x l IH]; cbn [fold_right]; [exact H|].
  revert IH. generalize (fold_right Qmin a l) (fold_right Qmin b l).
  intros u v IH. minmax; lra.
Qed.

Lemma wellFormed_cap_truthy campaign cap :
  wellFormed campaign -> Campaign.capAmount campaign = Some cap ->
  Num.truthyQ (Campaign.capAmount campaign) = Some cap.
Proof.
  intros (Hcap & _) E. rewrite E. unfold Num.truthyQ.
  destruct (Qeq_bool cap 0) eqn:E0; [|reflexivity].
  apply Qeq_bool_eq in E0. specialize (Hcap cap E). lra.
Qed.

(** The loop of [findMinCap], started from a cap already found. *)
Lemma findMinCap_from applicable acc :
  Forall wellFormed applicable ->
  exists m,
    fold_left
      (fun minCap campaign =>
         match Num.truthyQ (Campaign.capAmount campaign) with
         | Some cap =>
             match minCap with
             | None => Some cap
             | Some m => if cap <? m then Some cap else Some m
             end
         | None => minCap
         end) applicable (Some acc) = Some m
    /\ m == fold_right Qmin acc (caps applicable).
Proof.
  intros Hwf. revert acc.
  induction Hwf as [|k ks Hk Hks IH]; intros acc; cbn [fold_left].
  - exists acc. split; reflexivity.
  - unfold caps. cbn [omap list_omap].
    destruct (Campaign.capAmount k) as [cap|] eqn:Ek.
    + rewrite <- Ek, (wellFormed_cap_truthy k cap Hk Ek).
      cbn [fold_right].
      destruct (cap <? acc) eqn:E; numb.
      * destruct (IH cap) as (m & -> & Hm). exists m. split; [reflexivity|].
        rewrite Hm. fold (caps ks).
        rewrite <- (fold_right_Qmin_init acc cap (caps ks)).
        apply fold_right_Qmin_comp. minmax; lra.
      * destruct (IH acc) as (m & -> & Hm). exists m. split; [reflexivity|].
        rewrite Hm. fold (caps ks).
        rewrite <- (fold_right_Qmin_init acc cap (caps ks)).
        apply fold_right_Qmin_comp. minmax; lra.
    + cbn [Num.truthyQ]. apply IH.
Qed.

Lemma findMinCap_spec applicable :
  Forall wellFormed applicable ->
  match caps applicable with
  | [] => findMinCap applicable = None
  | c :: cs => exists m, findMinCap applicable = Some m /\ m == fold_right Qmin c cs
  end.
Proof.
  unfold findMinCap.
  induction 1 as [|k ks Hk Hks IH]; [reflexivity|].
  unfold caps in *. cbn [omap list_omap fold_left].
  destruct (Campaign.capAmount k) as [cap|] eqn:Ek.
  - rewrite <- Ek, (wellFormed_cap_truthy k cap Hk Ek).
    apply (findMinCap_from ks cap Hks).
  - cbn [Num.truthyQ]. exact IH.
Qed.

(** A purchase and a card within the ranges of the data model. *)
Section InRange.
Variables (purchase : Purchase.t) (card : Card.t).
Hypothesis Hrange : inRange purchase card.

Lemma benefitOf_nonneg campaign :
  wellFormed campaign -> 0 <= benefitOf purchase card campaign.
Proof.
  destruct Hrange as (Ha & _ & _ & Hv).
  intros (_ & Hc & Hp & Hf). unfold benefitOf.
  assert (H1 : 0 <= default 0 (Campaign.extraCashbackPercent campaign))
    by (destruct (Campaign.extraCashbackPercent campaign); simpl; [apply Hc; reflexivity | lra]).
  assert (H2 : 0 <= default 0 (Campaign.extraPointRate campaign))
    by (destruct (Campaign.extraPointRate campaign); simpl; [apply Hp; reflexivity | lra]).
  assert (H3 : 0 <= default 0 (Campaign.flatDiscount campaign))
    by (destruct (Campaign.flatDiscount campaign); simpl; [apply Hf; reflexivity | lra]).
  assert (0 <= Purchase.amount purchase) by lra.
  assert (P1 : 0 <= Purchase.amount purchase
                     * default 0 (Campaign.extraCashbackPercent campaign))
    by (apply Qmult_le_0_compat; assumption).
  assert (P2 : 0 <= Purchase.amount purchase
                     * default 0 (Campaign.extraPointRate campaign)
                     * Card.pointValue card)
    by (apply Qmult_le_0_compat; [apply Qmult_le_0_compat|]; assumption).
  lra.
Qed.

Lemma summedBenefit_nonneg applicable :
  Forall wellFormed applicable -> 0 <= summedBenefit purchase card applicable.
Proof.
  intros Hwf. unfold summedBenefit.
  induction Hwf as [|k ks Hk Hks IH]; cbn [List.map fold_right]; [lra|].
  pose proof (benefitOf_nonneg k Hk). lra.
Qed.

Lemma caps_positive applicable :
  Forall wellFormed applicable ->
  match caps applicable with
  | [] => True
  | c :: cs => 0 < fold_right Qmin c cs
  end.
Proof.
  intros Hwf.
  assert (Hall : List.Forall (fun c => 0 < c) (caps applicable)).
  { unfold caps. induction Hwf as [|k ks Hk Hks IH]; cbn [omap list_omap].
    - constructor.
    - destruct (Campaign.capAmount k) as [cap|] eqn:Ek; [|exact IH].
      constructor; [|exact IH]. destruct Hk as (Hcap & _). apply Hcap, Ek. }
  destruct (caps applicable) as [|c cs]; [exact I|].
  inversion Hall as [|? ? Hc Hcs]; subst. clear Hall.
  induction Hcs as [|x l Hx Hl IH]; cbn [fold_right]; [exact Hc|].
  revert IH. generalize (fold_right Qmin c l). intros u IH. minmax; lra.
Qed.

(** For a purchase and a card within the ranges of the data model and
    campaigns as the wizard builds them, the reward of [computeValueTL] is
    the base reward plus the summed benefit of the applicable campaigns,
    where, whenever at least one applicable campaign carries a cap, the
    smallest of these caps replaces the sum exactly when the sum exceeds
    it. *)
Lemma capped_reward_in_range campaigns :
  Forall wellFormed campaigns ->
  rewardTL (computeValueTL purchase card campaigns)
  = Money.round2
      (baseReward purchase card
       + cappedBenefit purchase card
           (List.filter (isCampaignApplicable purchase) campaigns)).
Proof.
  intros Hwf. unfold computeValueTL.
  set (applicable := List.filter (isCampaignApplicable purchase) campaigns).
  assert (Hwfa : Forall wellFormed applicable).
  { apply List.Forall_forall. intros k Hk. apply List.filter_In in Hk.
    rewrite List.Forall_forall in Hwf. apply Hwf, Hk. }
  pose proof (findMinCap_spec applicable Hwfa) as Hcap.
  pose proof (caps_positive applicable Hwfa) as Hpos.
  pose proof (summedBenefit_nonneg applicable Hwfa) as Hsum.
  destruct Hrange as (Ha & Hcb & Hpr & Hpv).
  assert (Hb1 : 0 <= Purchase.amount purchase * Card.cashbackPercent card)
    by (apply Qmult_le_0_compat; lra).
  assert (Hb2 : 0 <= Purchase.amount purchase * Card.pointRate card * Card.pointValue card)
    by (apply Qmult_le_0_compat; [apply Qmult_le_0_compat|]; lra).
  unfold cappedBenefit, baseReward.
  destruct (Purchase.amount purchase * Card.cashbackPercent card >? 0) eqn:E1;
    destruct (Purchase.amount purchase * Card.pointRate card * Card.pointValue card >? 0)
      eqn:E2;
    match goal with
    | |- context [accumulateBenefits ?p ?c ?l ?st] =>
        pose proof (accumulateBenefits_sum p c l st) as Hacc;
        destruct (accumulateBenefits p c l st) as [total notes3]
    end;
    cbn [fst snd] in Hacc;
    (destruct (total >? 0) eqn:E3;
     [ destruct (caps applicable) as [|c cs];
       [ rewrite Hcap
       | destruct Hcap as (m & -> & Hm);
         destruct (total >? m) eqn:E4;
         destruct (fold_right Qmin c cs <? summedBenefit purchase card applicable) eqn:E5 ]
     | destruct (caps applicable) as [|c cs];
       [ | destruct (fold_right Qmin c cs <? summedBenefit purchase card applicable) eqn:E5 ] ]);
    destruct (Purchase.amount purchase * default 0 (Purchase.posFeePercent purchase) >? 0);
    cbn [rewardTL]; apply round2_comp; numb; try lra.
Qed.

End InRange.

(** The loop of [findMinCap] finds the smallest cap other than 0. *)
Lemma findMinCap_nonZero_from applicable acc :
  exists m,
    fold_left
      (fun minCap campaign =>
         match Num.truthyQ (Campaign.capAmount campaign) with
         | Some cap =>
             match minCap with
             | None => Some cap
             | Some m => if cap <? m then Some cap else Some m
             end
         | None => minCap
         end) applicable (Some acc) = Some m
    /\ m == fold_right Qmin acc (nonZeroCaps applicable).
Proof.
  revert acc.
  induction applicable as [|k ks IH]; intros acc; cbn [fold_left].
  - exists acc. split; reflexivity.
  - unfold nonZeroCaps, caps. cbn [omap list_omap].
    destruct (Campaign.capAmount k) as [cap|] eqn:Ek; [|apply IH].
    cbn [Num.truthyQ List.filter].
    destruct (Qeq_bool cap 0) eqn:E0; cbn [negb]; [apply IH|].
    cbn [fold_right].
    destruct (cap <? acc) eqn:E; numb.
    + destruct (IH cap) as (m & -> & Hm). exists m. split; [reflexivity|].
      rewrite Hm. fold (caps ks). fold (nonZeroCaps ks).
      rewrite <- (fold_right_Qmin_init acc cap (nonZeroCaps ks)).
      apply fold_right_Qmin_comp. minmax; lra.
    + destruct (IH acc) as (m & -> & Hm). exists m. split; [reflexivity|].
      rewrite Hm. fold (caps ks). fold (nonZeroCaps ks).
      rewrite <- (fold_right_Qmin_init acc cap (nonZeroCaps ks)).
      apply fold_right_Qmin_comp. minmax; lra.
Qed.

Lemma findMinCap_nonZero applicable :
  match nonZeroCaps applicable with
  | [] => findMinCap applicable = None
  | c :: cs => exists m, findMinCap applicable = Some m /\ m == fold_right Qmin c cs
  end.
Proof.
  unfold findMinCap.
  induction applicable as [|k ks IH]; [reflexivity|].
  unfold nonZeroCaps, caps in *. cbn [omap list_omap fold_left].
  destruct (Campaign.capAmount k) as [cap|] eqn:Ek; [|exact IH].
  cbn [Num.truthyQ List.filter].
  destruct (Qeq_bool cap 0) eqn:E0; cbn [negb]; [exact IH|].
  apply (findMinCap_nonZero_from ks cap).
Qed.

(** C5.  The reward of [computeValueTL] is the base reward that counts
    plus the summed benefit of the applicable campaigns when this sum is
    positive, where, whenever at least one applicable campaign carries a
    cap other than 0, the smallest of these caps replaces the sum exactly
    when the sum exceeds it.  A positive sum that does not exceed the
    smallest such cap, and any positive sum when no applicable campaign
    carries a cap other than 0, enters the reward unchanged; a sum that is
    not positive does not enter it. *)
Theorem computeValueTL_cap purchase card campaigns :
  rewardTL (computeValueTL purchase card campaigns)
  = Money.round2
      (countedBaseReward purchase card
       + positiveCappedBenefit purchase card
           (List.filter (isCampaignApplicable purchase) campaigns)).
Proof.
  unfold computeValueTL.
  set (applicable := List.filter (isCampaignApplicable purchase) campaigns).
  pose proof (findMinCap_nonZero applicable) as Hcap.
  unfold positiveCappedBenefit, countedBaseReward, positivePart.
  destruct (0 <? Purchase.amount purchase * Card.cashbackPercent card) eqn:E1;
    destruct (0 <? Purchase.amount purchase * Card.pointRate card * Card.pointValue card)
      eqn:E2;
    unfold Num.gtb; rewrite E1, E2;
    match goal with
    | |- context [accumulateBenefits ?p ?c ?l ?st] =>
        pose proof (accumulateBenefits_sum p c l st) as Hacc;
        destruct (accumulateBenefits p c l st) as [total notes3]
    end;
    cbn [fst snd] in Hacc;
    assert (Hs : (0 <? summedBenefit purchase card applicable) = (0 <? total))
      by (destruct (0 <? summedBenefit purchase card applicable) eqn:Ea;
          destruct (0 <? total) eqn:Eb; numb; try reflexivity; lra);
    rewrite Hs;
    (destruct (0 <? total) eqn:E3;
     [ destruct (nonZeroCaps applicable) as [|c cs];
       [ rewrite Hcap
       | destruct Hcap as (m & -> & Hm);
         destruct (m <? total) eqn:E4;
         destruct (fold_right Qmin c cs <? summedBenefit purchase card applicable) eqn:E5 ]
     | ]);
    destruct (0 <? Purchase.amount purchase * default 0 (Purchase.posFeePercent purchase));
    cbn [rewardTL]; apply round2_comp; numb; try lra.
Qed.

(** C5 as stated fails on a cap of 0 and on a sum that is not positive.
    With the cap of the electronics scenario set to 0 the smallest cap is
    0 and the benefit of 45 exceeds it, so that the reward as stated is
    the base reward of 52.5; [computeValueTL] reads the cap of 0 as no cap
    and answers 97.5.  With a flat discount of -10 and no cap the reward
    as stated is 42.5; [computeValueTL] leaves the sum out and answers
    52.5. *)
Lemma computeValueTL_zero_cap_counterexample :
  (caps (List.filter (isCampaignApplicable Scenario.purchase) [Scenario.zeroCapBoost]) = [0]
   /\ summedBenefit Scenario.purchase Scenario.card
        (List.filter (isCampaignApplicable Scenario.purchase) [Scenario.zeroCapBoost]) == 45
   /\ Money.round2
        (baseReward Scenario.purchase Scenario.card
         + cappedBenefit Scenario.purchase Scenario.card
             (List.filter (isCampaignApplicable Scenario.purchase) [Scenario.zeroCapBoost]))
      == 52.5
   /\ rewardTL (computeValueTL Scenario.purchase Scenario.card [Scenario.zeroCapBoost])
      == 97.5)
  /\ (caps (List.filter (isCampaignApplicable Scenario.purchase) [Scenario.surcharge]) = []
      /\ Money.round2
           (baseReward Scenario.purchase Scenario.card
            + cappedBenefit Scenario.purchase Scenario.card
                (List.filter (isCampaignApplicable Scenario.purchase) [Scenario.surcharge]))
         == 42.5
      /\ rewardTL (computeValueTL Scenario.purchase Scenario.card [Scenario.surcharge])
         == 52.5).
Proof. vm_compute. repeat split. Qed.

Example tight_cap_replaces_sum :
  cappedBenefit Scenario.purchase Scenario.card [Scenario.boost; Scenario.tightBoost] == 30
  /\ positiveCappedBenefit Scenario.purchase Scenario.card
       [Scenario.boost; Scenario.tightBoost] == 30
  /\ rewardTL (computeValueTL Scenario.purchase Scenario.card
                 [Scenario.boost; Scenario.tightBoost]) == 82.5.
Proof. repeat split; vm_compute; reflexivity. Qed.

End ValueFacts.

(** ** Risk penalty *)

Section RiskFacts.
Import RiskPenalty RiskSpec.

Lemma limitStep_adds params st :
  fst (limitStep params st) == fst st + limitContribution params.
Proof.
  unfold limitStep, limitContribution, add.
  destruct (Card.availableLimit (card params) <? Purchase.amount (purchase params));
    cbn [fst]; ring.
Qed.

Lemma utilizationStep_adds params st :
  fst (utilizationStep params st) == fst st + utilizationContribution params.
Proof.
  unfold utilizationStep, utilizationContribution, postTransactionUtilization, add,
    Num.gtb.
  repeat match goal with
  | |- context [if ?b then _ else _] => destruct b
  end; cbn [fst]; ring.
Qed.

Lemma dueDateStep_adds due st :
  fst (dueDateStep due st) == fst st + dueDateContribution due.
Proof.
  unfold dueDateStep, dueDateContribution, add.
  destruct due as [d|]; [destruct (d <=? 3)%Z|]; cbn [fst]; ring.
Qed.

Lemma installmentStep_adds params st :
  fst (installmentStep params st) == fst st + installmentContribution params.
Proof.
  unfold installmentStep, installmentContribution, add.
  destruct (adjustedInstallments params <? Purchase.installmentCount (purchase params))%Z;
    cbn [fst]; ring.
Qed.

Lemma requirementStep_adds params st :
  fst (requirementStep params st)
  == fst st + enrollmentContribution params + codeContribution params.
Proof.
  unfold requirementStep, enrollmentContribution, codeContribution, add, isFalse.
  destruct (requiredFlags params) as [[[[|]|] [[|]|]]|]; cbn [fst enrollmentOk codeOk]; ring.
Qed.

(** Where the clocks are not moved [daysBetween] counts the days of the
    calendar. *)
Lemma minutesFrom_uniform day n :
  (0 <= n)%Z -> LocalTime.minutesFrom LocalTime.uniform day n = (1440 * n)%Z.
Proof.
  intros Hn. unfold LocalTime.minutesFrom.
  assert (H : forall l : list Z,
            foldr Z.add 0%Z ((fun k => LocalTime.minutes (LocalTime.uniform k)) <$> l)
            = (1440 * Z.of_nat (length l))%Z).
  { induction l as [|x l IH]; [reflexivity|].
    cbn [fmap list_fmap foldr length]. change (list_fmap _ _ ?f l) with (f <$> l).
    rewrite IH. unfold LocalTime.uniform, LocalTime.minutes. lia. }
  rewrite H, length_seqZ. lia.
Qed.

Lemma daysBetween_uniform aISO bISO :
  LocalTime.daysBetween LocalTime.uniform aISO bISO = Dates.daysBetween aISO bISO.
Proof.
  unfold LocalTime.daysBetween, Dates.daysBetween, LocalTime.getTimeDifference.
  generalize (Dates.getTimeDays (Dates.parseISODate aISO)).
  generalize (Dates.getTimeDays (Dates.parseISODate bISO)). intros b a.
  change (60 * 24)%Z with 1440%Z.
  destruct (a <=? b)%Z eqn:E.
  - apply Z.leb_le in E. rewrite minutesFrom_uniform by lia.
    rewrite Z.abs_eq by lia. rewrite Z.mul_comm, Z.div_mul by lia. lia.
  - apply Z.leb_gt in E. rewrite minutesFrom_uniform by lia.
    rewrite Z.abs_neq by lia. rewrite Z.opp_involutive.
    rewrite Z.mul_comm, Z.div_mul by lia. lia.
Qed.

Lemma computeRiskPenalty_uniform params :
  LocalTime.computeRiskPenalty LocalTime.uniform params = computeRiskPenalty params.
Proof.
  unfold LocalTime.computeRiskPenalty, computeRiskPenalty, LocalTime.daysUntilNextDue,
    daysUntilNextDue.
  rewrite daysBetween_uniform. reflexivity.
Qed.

(** Where the clocks are not moved, [computeRiskPenalty] returns the clamp
    to [0,1] of one sum of six independent contributions: 0.6 for an
    insufficient limit; one utilization tier at most (0.15 above 80%, else
    0.10 above 50%, else 0.05 above 30%); 0.1 when the next due date is at
    most 3 days after the purchase date; 0.2 when the adjusted
    installments are fewer than requested; 0.15 for an unmet enrollment
    flag and 0.15 for an unmet code flag.  The clamp is applied to the
    sum, once.  When the computation of the date throws, the due date
    contributes a note and nothing else. *)
Lemma computeRiskPenalty_sum params :
  Dates.validISO (Purchase.date (purchase params)) ->
  0 < Card.totalLimit (card params) ->
  penalty (LocalTime.computeRiskPenalty LocalTime.uniform params)
  == Money.clamp01
       (fold_right Qplus 0
          (contributionsFor
             (Dates.nextDueDate (Purchase.date (purchase params))
                (Card.statementDay (card params)) (Card.dueDay (card params)))
             params))
  /\ penalty (computeRiskPenaltyWith Thrown params)
     == Money.clamp01
          (limitContribution params + utilizationContribution params
           + installmentContribution params + enrollmentContribution params
           + codeContribution params)
  /\ NDueDateUnavailable ∈ notes (computeRiskPenaltyWith Thrown params).
Proof.
  intros Hv _.
  assert (H : forall due,
            penalty (computeRiskPenaltyWith due params)
            == Money.clamp01 (fold_right Qplus 0 (contributions due params))).
  { intros due. unfold computeRiskPenaltyWith. cbn [penalty].
    apply clamp01_comp.
    rewrite requirementStep_adds, installmentStep_adds, dueDateStep_adds,
      utilizationStep_adds, limitStep_adds.
    unfold contributions. cbn [fold_right fst]. ring. }
  split; [|split].
  - rewrite computeRiskPenalty_uniform. unfold computeRiskPenalty. rewrite H.
    apply clamp01_comp.
    unfold contributions, contributionsFor, daysUntilNextDue, dueDateContribution,
      closeDueDateContribution, daysAfterPurchase, Dates.daysBetween.
    fold (Dates.isoTime (Purchase.date (purchase params))).
    pose proof (nextDayOfMonth_spec (Purchase.date (purchase params))
                  (Card.statementDay (card params)) (parse_valid _ Hv)) as (_ & Hs & _).
    pose proof (nextDueDate_after_statement LocalTime.uniform
                  (Purchase.date (purchase params))
                  (Card.statementDay (card params)) (Card.dueDay (card params)) Hv) as Hd.
    change (LocalTime.nextDueDate LocalTime.uniform ?p ?s ?d)
      with (Dates.nextDueDate p s d) in Hd.
    unfold Dates.nextStatementDate, LocalTime.uniform in Hd.
    revert Hs Hd.
    generalize (Dates.nextDueDate (Purchase.date (purchase params))
                  (Card.statementDay (card params)) (Card.dueDay (card params))).
    intros due.
    generalize (Dates.isoTime
                  (Dates.nextDayOfMonth (Purchase.date (purchase params))
                     (Card.statementDay (card params)))).
    fold (Dates.isoTime due).
    generalize (Dates.isoTime due).
    generalize (Dates.isoTime (Purchase.date (purchase params))).
    intros p d s Hs Hd.
    rewrite Z.abs_eq by lia. reflexivity.
  - rewrite H. apply clamp01_comp. unfold contributions, dueDateContribution.
    cbn [fold_right]. ring.
  - unfold computeRiskPenaltyWith. cbn [notes].
    assert (Hin : forall st, NDueDateUnavailable ∈ snd st ->
                    NDueDateUnavailable
                    ∈ snd (requirementStep params (installmentStep params st))).
    { intros st Hst. unfold requirementStep, installmentStep, add.
      repeat match goal with
      | |- context [if ?b then _ else _] => destruct b
      | |- context [match ?x with _ => _ end] => destruct x
      end; cbn [snd]; rewrite ?elem_of_app; tauto. }
    match goal with
    | |- context [if ?b then _ else _] => destruct b
    end; rewrite ?elem_of_app; [left|]; apply Hin; cbn [dueDateStep snd];
      apply elem_of_app; right; apply list_elem_of_singleton; reflexivity.
Qed.

(** C4.  The penalty is not always the clamp of the sum as the
    specification states it: the due-date term can be added for a due
    date more than 3 days after the purchase date.  [daysBetween] divides
    the time from one local midnight to another by 24 hours and rounds
    down.  In New York the tenth of March 2024 has 23 hours.  For a
    purchase of 8 March with the statement day 10 and the due day 12 the
    next due date is 12 March, four days after the purchase, and no other
    contribution applies, so the sum as stated is 0; but only 95 hours lie
    between the two midnights, [daysBetween] answers 3, and
    [computeRiskPenalty] returns 0.1 with the note of a payment due in 3
    days. *)
Theorem computeRiskPenalty_short_day :
  LocalTime.nextDueDate LocalTime.newYork2024 (Dates.mkISO 2024 3 8) 10 12
  = Dates.mkISO 2024 3 12
  /\ daysAfterPurchase (Dates.mkISO 2024 3 12)
       (mkParams Scenario.marchCard Scenario.marchPurchase 1 None) = 4%Z
  /\ fold_right Qplus 0
       (contributionsFor (Dates.mkISO 2024 3 12)
          (mkParams Scenario.marchCard Scenario.marchPurchase 1 None)) == 0
  /\ LocalTime.getTimeDifference LocalTime.newYork2024
       (Dates.parseISODate (Dates.mkISO 2024 3 8))
       (Dates.parseISODate (Dates.mkISO 2024 3 12)) = (95 * 60)%Z
  /\ LocalTime.daysUntilNextDue LocalTime.newYork2024
       Scenario.marchPurchase Scenario.marchCard = Returned 3
  /\ penalty (LocalTime.computeRiskPenalty LocalTime.newYork2024
                (mkParams Scenario.marchCard Scenario.marchPurchase 1 None)) == 0.1
  /\ notes (LocalTime.computeRiskPenalty LocalTime.newYork2024
              (mkParams Scenario.marchCard Scenario.marchPurchase 1 None))
     = [NCloseToDueDate 3].
Proof. vm_compute. repeat split. Qed.

(** The same purchase where the clocks are not moved: the due date is four
    days away and the penalty is 0. *)
Example computeRiskPenalty_uniform_zone :
  LocalTime.daysUntilNextDue LocalTime.uniform Scenario.marchPurchase Scenario.marchCard
  = Returned 4
  /\ penalty (LocalTime.computeRiskPenalty LocalTime.uniform
                (mkParams Scenario.marchCard Scenario.marchPurchase 1 None)) == 0
  /\ notes (LocalTime.computeRiskPenalty LocalTime.uniform
              (mkParams Scenario.marchCard Scenario.marchPurchase 1 None)) = [].
Proof. vm_compute. repeat split. Qed.

(** All six conditions at once add up to 1.35 and are clamped to 1. *)
Example computeRiskPenalty_clamped :
  let card := Card.mk 1 "Card" 1000 100 10 11 0 0 0 (ISNumber 0) None in
  let purchase := Purchase.mk 500 "fuel" 6 (Dates.mkISO 2024 8 10) online None None None in
  let params := mkParams card purchase 1
                  (Some (mkRequiredFlags (Some false) (Some false))) in
  fold_right Qplus 0 (contributions (daysUntilNextDue purchase card) params) == 1.35
  /\ penalty (computeRiskPenalty params) == 1.
Proof. split; vm_compute; reflexivity. Qed.

End RiskFacts.

(** ** Campaign matching *)

Section CampaignMatchFacts.
Import CampaignMatch.

(** The effect of one criterion on the two counters. *)
Lemma check_counts holds yes no c :
  matchCount (check holds yes no c) = (matchCount c + if holds then 1 else 0)%Z
  /\ totalCriteria (check holds yes no c) = (totalCriteria c + 1)%Z.
Proof. unfold check. destruct holds; cbn; split; lia. Qed.

Lemma countCriteria_spec purchase campaign :
  matchCount (countCriteria purchase campaign)
  = CampaignMatchSpec.matchedCount purchase campaign
  /\ totalCriteria (countCriteria purchase campaign)
     = CampaignMatchSpec.totalCriteria purchase campaign.
Proof.
  unfold countCriteria, CampaignMatchSpec.matchedCount, CampaignMatchSpec.totalCriteria,
    CampaignMatchSpec.criteria.
  unfold minAmountStep, brandStep, categoryStep, channelStep, dateStep,
    CampaignMatchSpec.minAmountCriterion, CampaignMatchSpec.brandCriterion,
    CampaignMatchSpec.categoryCriterion, CampaignMatchSpec.channelCriterion,
    CampaignMatchSpec.dateCriterion, Dates.isoTime, Num.geb.
  destruct (Campaign.dateRange campaign) as [range|];
    [match goal with |- context [check ?b _ _ _] => destruct b end|];
    (destruct (Campaign.channel campaign) as [[ch|]|];
     [destruct (Channel_eqb ch (Purchase.channel purchase))| |]);
    (destruct (Num.truthyS (Campaign.category campaign)) as [cat|];
     [destruct (String.eqb cat "general");
      [|destruct (String.eqb cat (Purchase.category purchase))]|]);
    (destruct (Num.truthyS (Campaign.brand campaign)) as [br|];
     [destruct (String.eqb br "general");
      [|destruct (eqOptString br (Purchase.merchant purchase))]|]);
    (destruct (Num.truthyQ (Campaign.minAmount campaign)) as [mn|];
     [destruct (mn <=? Purchase.amount purchase)|]);
    split; reflexivity.
Qed.

Lemma matched_le_total purchase campaign :
  (0 <= CampaignMatchSpec.matchedCount purchase campaign
   <= CampaignMatchSpec.totalCriteria purchase campaign)%Z.
Proof.
  unfold CampaignMatchSpec.matchedCount, CampaignMatchSpec.totalCriteria.
  pose proof (List.filter_length_le id (CampaignMatchSpec.criteria purchase campaign)).
  lia.
Qed.

Lemma ratio_below_one m t : (0 < m < t)%Z -> 0 < inject_Z m / inject_Z t < 1.
Proof.
  intros [Hm Ht].
  assert (Hqm : 0 < inject_Z m) by (rewrite (Zlt_Qlt 0 m) in Hm; exact Hm).
  assert (Hqt : inject_Z m < inject_Z t) by (rewrite (Zlt_Qlt m t) in Ht; exact Ht).
  split.
  - apply Qlt_shift_div_l; lra.
  - apply Qlt_shift_div_r; lra.
Qed.

(** The three cases of the score of one campaign. *)
Lemma evaluateCampaignMatch_cases purchase campaign :
  let t := CampaignMatchSpec.totalCriteria purchase campaign in
  let m := CampaignMatchSpec.matchedCount purchase campaign in
  let s := score (evaluateCampaignMatch purchase campaign) in
  ((t = 0 \/ m = t)%Z -> s == 1)
  /\ ((0 < m < t)%Z -> s == Qmax 0.3 (inject_Z m / inject_Z t))
  /\ ((m = 0 /\ 0 < t)%Z -> s == 0).
Proof.
  intros t m s. subst s. unfold evaluateCampaignMatch. cbn [score].
  destruct (countCriteria_spec purchase campaign) as [-> ->].
  fold t m.
  destruct (t =? 0)%Z eqn:E0; [|destruct (m =? t)%Z eqn:E1; [|destruct (m >? 0)%Z eqn:E2]];
    repeat split; intros; try reflexivity; lia.
Qed.






End CampaignMatchFacts.

(** ** Cashflow *)

Section CashflowFacts.
Import Cashflow.

Lemma mathRound_integer x k : x == inject_Z k -> Num.mathRound x = k.
Proof.
  intros Hx. unfold Num.mathRound.
  pose proof (Qfloor_le (x + (1 # 2))) as Hlo.
  pose proof (Qlt_floor (x + (1 # 2))) as Hhi.
  set (f := Qfloor (x + (1 # 2))) in *.
  assert (H1 : inject_Z f < inject_Z (k + 1))
    by (rewrite inject_Z_plus; change (inject_Z 1) with 1; lra).
  assert (H2 : inject_Z k < inject_Z (f + 1)) by lra.
  rewrite <- Zlt_Qlt in H1, H2. lia.
Qed.

(** [round2] leaves a whole number of hundredths as it is. *)
Lemma round2_hundredths k : Money.round2 (inject_Z k / 100) == inject_Z k / 100.
Proof.
  unfold Money.round2.
  rewrite (mathRound_integer (inject_Z k / 100 * 100) k); [reflexivity|].
  field.
Qed.

Lemma one_over x : 1.0 / x == 1 / x.
Proof. apply Qdiv_comp; [vm_compute|]; reflexivity. Qed.

Lemma sum_from l a : fold_left Qplus l a == a + fold_right Qplus 0 l.
Proof.
  revert a. induction l as [|x l IH]; intros a; cbn [fold_left fold_right].
  - ring.
  - rewrite IH. ring.
Qed.

Lemma sum_replicate_last k r last :
  Num.sum (replicate k r ++ [last]) == inject_Z (Z.of_nat k) * r + last.
Proof.
  unfold Num.sum. rewrite sum_from.
  induction k as [|k IH].
  - cbn. ring.
  - cbn [replicate app fold_right] in *.
    rewrite Nat2Z.inj_succ, <- Z.add_1_r, inject_Z_plus.
    change (inject_Z 1) with 1. lra.
Qed.

Lemma map_constant {A} (g : A -> Q) (r : Q) l :
  (forall x, List.In x l -> g x = r) -> List.map g l = replicate (length l) r.
Proof.
  induction l as [|x l IH]; intros H; [reflexivity|].
  cbn [List.map length replicate]. rewrite (H x) by (left; reflexivity).
  f_equal. apply IH. intros y Hy. apply H. right. exact Hy.
Qed.

(** The amounts of a plan: the same rounded share for all entries but the
    last, and the last entry. *)
Lemma buildInstallmentPlan_amounts purchaseISO installments statementDay dueDay :
  (1 <= installments)%Z ->
  List.map amount (buildInstallmentPlan purchaseISO installments statementDay dueDay)
  = replicate (Z.to_nat (installments - 1)) (Money.round2 (1 / inject_Z installments))
    ++ [if (installments <=? 1)%Z then 1.0
        else Money.round2
               (1.0 - Money.round2 (1.0 / inject_Z installments)
                      * inject_Z (installments - 1))].
Proof.
  intros Hn. unfold buildInstallmentPlan.
  destruct (installments <=? 1)%Z eqn:E.
  - apply Z.leb_le in E. replace installments with 1%Z by lia. reflexivity.
  - apply Z.leb_gt in E.
    rewrite List.map_map. cbn [amount].
    assert (Hseq : seqZ 0 installments
                   = seqZ 0 (installments - 1) ++ [(installments - 1)%Z]).
    { replace installments with (Z.of_nat (S (Z.to_nat (installments - 1)))) at 1 by lia.
      rewrite seqZ_S. f_equal; [f_equal; lia | f_equal; lia]. }
    rewrite Hseq, List.map_app. cbn [List.map].
    rewrite Z.eqb_refl.
    f_equal.
    rewrite (map_constant _ (Money.round2 (1 / inject_Z installments))).
    + rewrite length_seqZ. reflexivity.
    + intros i Hi. apply list_elem_of_In, elem_of_seqZ in Hi.
      replace (i =? installments - 1)%Z with false by lia.
      apply round2_comp, one_over.
Qed.

(** C8, as amended: over exact rational numbers.  For every purchase date,
    statement day and due day and every installment count [n >= 1]: each
    of the first [n - 1] amounts of the plan is [round2 (1 / n)], the final
    amount is [1 - round2 (1 / n) * (n - 1)], which the rounding applied by
    the source leaves unchanged, and the amounts add up to exactly 1. *)
Theorem buildInstallmentPlan_sums_to_one purchaseISO installments statementDay dueDay :
  (1 <= installments)%Z ->
  exists last,
    List.map amount (buildInstallmentPlan purchaseISO installments statementDay dueDay)
    = replicate (Z.to_nat (installments - 1)) (Money.round2 (1 / inject_Z installments))
      ++ [last]
    /\ last == 1 - Money.round2 (1 / inject_Z installments) * inject_Z (installments - 1)
    /\ Num.sum
         (List.map amount
            (buildInstallmentPlan purchaseISO installments statementDay dueDay))
       == 1.
Proof.
  intros Hn.
  rewrite (buildInstallmentPlan_amounts _ _ _ _ Hn).
  eexists. split; [reflexivity|].
  assert (Hlast :
    (if (installments <=? 1)%Z then 1.0
     else Money.round2
            (1.0 - Money.round2 (1.0 / inject_Z installments)
                   * inject_Z (installments - 1)))
    == 1 - Money.round2 (1 / inject_Z installments) * inject_Z (installments - 1)).
  { destruct (installments <=? 1)%Z eqn:E.
    - apply Z.leb_le in E. replace installments with 1%Z by lia.
      vm_compute. reflexivity.
    - rewrite (round2_comp (1.0 / inject_Z installments) (1 / inject_Z installments))
        by apply one_over.
      unfold Money.round2 at 2 3.
      set (k := Num.mathRound (1 / inject_Z installments * 100)).
      assert (Hk : 1.0 - inject_Z k / 100 * inject_Z (installments - 1)
                   == inject_Z (100 - k * (installments - 1)) / 100).
      { unfold Z.sub. rewrite !inject_Z_plus, !inject_Z_opp, inject_Z_mult.
        rewrite inject_Z_plus, inject_Z_opp. field. }
      rewrite (round2_comp _ _ Hk), round2_hundredths, <- Hk. ring. }
  split; [exact Hlast|].
  rewrite sum_replicate_last, Hlast, Z2Nat.id by lia. ring.
Qed.

(** The statement of C8 on three installments. *)
Lemma buildInstallmentPlan_sums_to_one_witness :
  (1 <= 3)%Z
  /\ exists last,
       List.map amount (buildInstallmentPlan (Dates.mkISO 2024 8 10) 3 15 5)
       = replicate (Z.to_nat (3 - 1)) (Money.round2 (1 / inject_Z 3)) ++ [last]
       /\ last == 1 - Money.round2 (1 / inject_Z 3) * inject_Z (3 - 1)
       /\ Num.sum (List.map amount (buildInstallmentPlan (Dates.mkISO 2024 8 10) 3 15 5))
          == 1.
Proof.
  assert (H : (1 <= 3)%Z) by lia.
  split; [exact H|].
  apply (buildInstallmentPlan_sums_to_one (Dates.mkISO 2024 8 10) 3 15 5 H).
Defined.

(** C8 as stated fails on binary64 numbers: the amounts of a plan of ten
    installments are ten times the double nearest to 0.1, the loop of
    [cashflowScore] adds them up to the double just below 1.0, and added
    up without any rounding they do not give 1 either. *)
Lemma buildInstallmentPlan_binary64_counterexample :
  ~ IEEE.sumsToOne (IEEE.buildInstallmentPlan (Dates.mkISO 2024 8 10) 10 15 5)
  /\ IEEE.sumOfAmounts (IEEE.buildInstallmentPlan (Dates.mkISO 2024 8 10) 10 15 5)
     = PrimFloat.next_down PrimFloat.one
  /\ ~ IEEE.exactSumOfAmounts
        (IEEE.buildInstallmentPlan (Dates.mkISO 2024 8 10) 10 15 5) == 1.
Proof.
  split; [|split].
  - unfold IEEE.sumsToOne. vm_compute. discriminate.
  - vm_compute. reflexivity.
  - vm_compute. discriminate.
Qed.

(** On binary64 numbers the last amount of that plan is not the
    difference [1 - round2 (1 / n) * (n - 1)] either: the difference is
    a double slightly below 0.1 and rounding to two decimals repairs it. *)
Example buildInstallmentPlan_binary64_last :
  let r := IEEE.round2 (PrimFloat.div PrimFloat.one (IEEE.ofZ 10)) in
  let difference := PrimFloat.sub PrimFloat.one (PrimFloat.mul r (IEEE.ofZ 9)) in
  List.map IEEE.amount (IEEE.buildInstallmentPlan (Dates.mkISO 2024 8 10) 10 15 5)
  = replicate 10 r
  /\ PrimFloat.eqb difference r = false
  /\ IEEE.round2 difference = r.
Proof. repeat split; vm_compute; reflexivity. Qed.

(** The arithmetic of the electronics scenario on binary64 numbers, in the
    order in which [computeValueTL] performs it, gives 97.5 as well. *)
Example binary64_net_value :
  let amount := IEEE.ofZ 1500%Z in
  let ratio (n d : Z) := PrimFloat.div (IEEE.ofZ n) (IEEE.ofZ d) in
  let baseCashback := PrimFloat.mul amount (ratio 25%Z 1000%Z) in
  let basePointsValue :=
    PrimFloat.mul (PrimFloat.mul amount PrimFloat.one) (ratio 1%Z 100%Z) in
  let campaignBenefit :=
    PrimFloat.add PrimFloat.zero (PrimFloat.mul amount (ratio 3%Z 100%Z)) in
  let totalCampaignBenefit := PrimFloat.add PrimFloat.zero campaignBenefit in
  let totalRewards :=
    PrimFloat.add
      (PrimFloat.add (PrimFloat.add PrimFloat.zero baseCashback) basePointsValue)
      totalCampaignBenefit in
  IEEE.round2 (PrimFloat.sub totalRewards PrimFloat.zero) = ratio 975%Z 10%Z.
Proof. vm_compute. reflexivity. Qed.

(** On binary64 numbers the sum stays within [2^-49] of 1.0 for every plan
    of 1 to 200 installments. *)
Example binary64_sums_are_close :
  forallb
    (fun n =>
       let total := IEEE.sumOfAmounts (IEEE.buildInstallmentPlan (Dates.mkISO 2024 8 10) n 15 5) in
       let slack := PrimFloat.div PrimFloat.one (IEEE.ofZ (2 ^ 49)) in
       PrimFloat.leb (PrimFloat.sub PrimFloat.one slack) total
       && PrimFloat.leb total (PrimFloat.add PrimFloat.one slack))
    (seqZ 1 200)
  = true.
Proof. vm_compute. reflexivity. Qed.

End CashflowFacts.

(** ** Scoring *)

Section ScoreFacts.
Import Score ScoreSpec.

Lemma tolerance_small : 0 < tolerance /\ tolerance < 1 # 200.
Proof. split; vm_compute; reflexivity. Qed.

Lemma abs_gtb_true d e : (Qabs d >? e) = true -> d < - e \/ e < d.
Proof.
  intros H. numb. revert H. apply Qabs_case; intros; [right | left]; lra.
Qed.

Lemma abs_gtb_false d e : (Qabs d >? e) = false -> - e <= d <= e.
Proof. intros H. numb. apply Qabs_Qle_condition. exact H. Qed.

Lemma tied_bounds x y : tied x y <-> - tolerance <= x - y <= tolerance.
Proof. unfold tied. apply Qabs_Qle_condition. Qed.

(** The insertion sort with an arbitrary comparator keeps the elements of
    its argument. *)
Section ArraySort.
Context {A : Type} (compareFn : A -> A -> Q).

Lemma insertBy_elements x l y :
  y ∈ insertBy compareFn x l <-> y = x \/ y ∈ l.
Proof.
  induction l as [|z l IH]; cbn [insertBy].
  - rewrite list_elem_of_singleton. split; [auto | intros [H|H]; [exact H | inversion H]].
  - destruct (compareFn x z <=? 0).
    + rewrite elem_of_cons. reflexivity.
    + rewrite !elem_of_cons, IH. tauto.
Qed.

Lemma arraySort_elements l y : y ∈ arraySort compareFn l <-> y ∈ l.
Proof.
  unfold arraySort. induction l as [|x l IH]; cbn [fold_right]; [reflexivity|].
  rewrite insertBy_elements, elem_of_cons, IH. reflexivity.
Qed.

End ArraySort.

(** The sort is stable: two entries that the comparator does not tell
    apart keep the order in which they were given. *)
Example arraySort_stable :
  List.map fst
    (arraySort (fun a b : Z * Q => snd a - snd b) [(1%Z, 2); (2%Z, 1); (3%Z, 2); (4%Z, 1)])
  = [2%Z; 4%Z; 1%Z; 3%Z].
Proof. reflexivity. Qed.

(** What [scoreCards] returns: nothing when no card passes the filter, the
    sorted list of the scored survivors otherwise. *)
Lemma scoreCards_unfold purchase cards options :
  scoreCards purchase cards options = []
  /\ omap (evaluateCard purchase options) cards = []
  \/ exists weights minValue maxValue,
       scoreCards purchase cards options
       = arraySort compareScored
           (List.map (toScoredCard weights)
              (List.map (normalize minValue maxValue)
                 (omap (evaluateCard purchase options) cards))).
Proof.
  unfold scoreCards.
  destruct (omap (evaluateCard purchase options) cards) as [|d ds].
  - left. split; reflexivity.
  - right. cbn [List.map]. eauto.
Qed.

Lemma scoreCards_elements purchase cards options sc :
  sc ∈ scoreCards purchase cards options ->
  exists weights minValue maxValue data card,
    sc = toScoredCard weights (normalize minValue maxValue data)
    /\ card ∈ cards
    /\ evaluateCard purchase options card = Some data.
Proof.
  intros Hsc.
  destruct (scoreCards_unfold purchase cards options)
    as [[E _]|(w & mn & mx & E)]; rewrite E in Hsc.
  - inversion Hsc.
  - apply arraySort_elements, list_elem_of_In, List.in_map_iff in Hsc.
    destruct Hsc as (d' & <- & Hd').
    apply List.in_map_iff in Hd'. destruct Hd' as (d & <- & Hd).
    apply list_elem_of_In, list_elem_of_omap in Hd. destruct Hd as (card & Hc & Hev).
    exists w, mn, mx, d, card. auto.
Qed.

Lemma evaluateCard_compatible purchase options card data :
  evaluateCard purchase options card = Some data ->
  dCard data = card
  /\ Compatibility.compatible
       (Compatibility.checkCompatibility purchase card (campaignsFor options card))
     = true.
Proof.
  unfold evaluateCard.
  destruct (Compatibility.compatible
              (Compatibility.checkCompatibility purchase card (campaignsFor options card)));
    cbn [negb]; [|discriminate].
  intros E. split; [|reflexivity].
  change (dCard data) with (match Some data with Some d => dCard d | None => card end).
  rewrite <- E. reflexivity.
Qed.

(** C2. Every entry of the list that [scoreCards] returns is one of the
    given cards whose compatibility check answered [compatible = true],
    that is, whose available limit is at least the amount of the purchase;
    and when no card passes the check, [scoreCards] returns the empty list,
    a value like any other. *)
Theorem scoreCards_only_compatible purchase cards options :
  (forall sc,
     sc ∈ scoreCards purchase cards options ->
     ScoredCard.card sc ∈ cards
     /\ Compatibility.compatible
          (Compatibility.checkCompatibility purchase (ScoredCard.card sc)
             (campaignsFor options (ScoredCard.card sc)))
        = true
     /\ Purchase.amount purchase <= Card.availableLimit (ScoredCard.card sc))
  /\ ((forall card,
         card ∈ cards ->
         Compatibility.compatible
           (Compatibility.checkCompatibility purchase card (campaignsFor options card))
         = false) ->
      scoreCards purchase cards options = []).
Proof.
  split.
  - intros sc Hsc.
    destruct (scoreCards_elements _ _ _ _ Hsc) as (w & mn & mx & d & card & -> & Hc & Hev).
    destruct (evaluateCard_compatible _ _ _ _ Hev) as [Hcard Hcomp].
    cbn [toScoredCard ScoredCard.card normalize dCard]. rewrite Hcard.
    split; [exact Hc|]. split; [exact Hcomp|].
    destruct (checkCompatibility_cases purchase card (campaignsFor options card))
      as [(_ & Hf & _)|(Hle & _)]; [congruence | exact Hle].
  - intros Hall.
    destruct (scoreCards_unfold purchase cards options) as [[E _]|(w & mn & mx & E)];
      [exact E|].
    assert (Hnone : omap (evaluateCard purchase options) cards = []).
    { clear E. induction cards as [|c cs IH]; [reflexivity|].
      cbn [omap list_omap]. unfold evaluateCard at 1.
      rewrite (Hall c) by (left). cbn [negb].
      apply IH. intros card Hcard. apply Hall. right. exact Hcard. }
    rewrite E, Hnone. reflexivity.
Qed.

(** A total score is a whole number of hundredths. *)
Lemma totalScore_hundredths weights data :
  exists k, ScoredCard.totalScore (toScoredCard weights data) == inject_Z k / 100.
Proof.
  cbn [toScoredCard ScoredCard.totalScore]. unfold Money.round2.
  match goal with |- context [Num.mathRound ?x] => generalize (Num.mathRound x) end.
  intros k. set (q := inject_Z k / 100).
  destruct (Qlt_le_dec q 0) as [H0|H0];
    [exists 0%Z; setoid_replace (inject_Z 0 / 100) with 0 using relation Qeq by reflexivity
    |destruct (Qlt_le_dec 100 q) as [H1|H1];
     [exists 10000%Z; setoid_replace (inject_Z 10000 / 100) with 100 using relation Qeq
       by reflexivity
     |exists k; fold q]];
    clearbody q; minmax; lra.
Qed.

(** Two numbers of hundredths that are tied are equal. *)
Lemma hundredths_tied x y k k' :
  x == inject_Z k / 100 -> y == inject_Z k' / 100 -> tied x y -> x == y.
Proof.
  intros Hx Hy Ht. apply tied_bounds in Ht.
  pose proof tolerance_small as Htol.
  rewrite Hx, Hy in *.
  unfold Qdiv in *. change (/ 100) with (1 # 100) in *.
  assert (H1 : inject_Z k < inject_Z (k' + 1))
    by (rewrite inject_Z_plus; change (inject_Z 1) with 1; lra).
  assert (H2 : inject_Z k' < inject_Z (k + 1))
    by (rewrite inject_Z_plus; change (inject_Z 1) with 1; lra).
  rewrite <- Zlt_Qlt in H1, H2.
  replace k' with k by lia. reflexivity.
Qed.

Lemma ordered_descending collate a b k k' :
  ScoredCard.totalScore a == inject_Z k / 100 ->
  ScoredCard.totalScore b == inject_Z k' / 100 ->
  compareScoredWith collate a b <= 0 ->
  ScoredCard.totalScore b <= ScoredCard.totalScore a.
Proof.
  intros Ha Hb. unfold compareScoredWith.
  destruct (Qabs (ScoredCard.totalScore b - ScoredCard.totalScore a) >? 1e-6) eqn:E.
  - intros H. lra.
  - intros _. apply abs_gtb_false in E. change 1e-6 with tolerance in E.
    assert (Ht : tied (ScoredCard.totalScore a) (ScoredCard.totalScore b))
      by (apply tied_bounds; lra).
    rewrite (hundredths_tied _ _ _ _ Ha Hb Ht). lra.
Qed.

(** An entry that the comparator does not put after another with a tied
    total score stands before it by the documented order. *)
Lemma ordered_tieBreak collate a b :
  compareScoredWith collate a b <= 0 ->
  tied (ScoredCard.totalScore a) (ScoredCard.totalScore b) ->
  tieBreak collate a b.
Proof.
  unfold compareScoredWith, tieBreak, utilizationOf.
  intros H Ht. apply tied_bounds in Ht. revert H.
  unfold higher. rewrite !tied_bounds. change 1e-6 with tolerance.
  pose proof tolerance_small as Htol.
  repeat match goal with
  | |- context [if ?c then _ else _] =>
      let E := fresh "E" in
      destruct c eqn:E; [apply abs_gtb_true in E | apply abs_gtb_false in E]
  end; intros H;
  repeat match goal with
  | E : _ \/ _ |- _ => destruct E
  end; lra.
Qed.

Lemma StronglySorted_lookup {A} (R : relation A) l i j a b :
  StronglySorted R l -> (i < j)%nat -> l !! i = Some a -> l !! j = Some b -> R a b.
Proof.
  intros Hs. revert i j. induction Hs as [|x l Hl IH Hx]; intros i j Hij Ha Hb;
    [discriminate|].
  destruct j as [|j]; [lia|]. cbn in Hb.
  destruct i as [|i]; cbn in Ha.
  - injection Ha as ->. rewrite List.Forall_forall in Hx. apply Hx.
    apply list_elem_of_In, list_elem_of_lookup. eauto.
  - apply (IH i j); [lia | assumption | assumption].
Qed.

(** A consistent comparator orders the values it is consistent for: what
    it puts before is not put after, and "not after" is transitive and
    relates any two values. *)
Section Consistent.
Context {A : Type} (compareFn : A -> A -> Q) (values : list A).
Hypothesis compareFn_consistent : LanguageSpec.consistent compareFn values.

Lemma consistent_before_after a b :
  a ∈ values -> b ∈ values -> compareFn a b < 0 -> 0 < compareFn b a.
Proof.
  intros Ha Hb H.
  destruct (compareFn_consistent a b a Ha Hb Ha) as (Hr & _ & _ & Hlt & _).
  destruct (compareFn_consistent b a b Hb Ha Hb) as (_ & Hs & _).
  destruct (Q_dec (compareFn b a) 0) as [[Hn|Hp]|He].
  - specialize (Hlt H Hn). lra.
  - exact Hp.
  - specialize (Hs He). lra.
Qed.

Lemma consistent_after_before a b :
  a ∈ values -> b ∈ values -> 0 < compareFn a b -> compareFn b a < 0.
Proof.
  intros Ha Hb H.
  destruct (compareFn_consistent a b a Ha Hb Ha) as (Hr & _ & _ & _ & Hgt).
  destruct (compareFn_consistent b a b Hb Ha Hb) as (_ & Hs & _).
  destruct (Q_dec (compareFn b a) 0) as [[Hn|Hp]|He].
  - exact Hn.
  - specialize (Hgt H Hp). lra.
  - specialize (Hs He). lra.
Qed.

Lemma consistent_total a b :
  a ∈ values -> b ∈ values -> compareFn a b <= 0 \/ compareFn b a <= 0.
Proof.
  intros Ha Hb.
  destruct (Q_dec (compareFn a b) 0) as [[Hn|Hp]|He]; [left; lra | | left; lra].
  right. pose proof (consistent_after_before a b Ha Hb Hp). lra.
Qed.

Lemma consistent_transitive a b c :
  a ∈ values -> b ∈ values -> c ∈ values ->
  compareFn a b <= 0 -> compareFn b c <= 0 -> compareFn a c <= 0.
Proof.
  intros Ha Hb Hc Hab Hbc.
  destruct (Q_dec (compareFn a c) 0) as [[Hn|Hp]|He]; [lra | | lra].
  exfalso.
  pose proof (consistent_after_before a c Ha Hc Hp) as Hca.
  destruct (Q_dec (compareFn a b) 0) as [[Hab1|Hab2]|Hab3]; [ | lra | ].
  - destruct (compareFn_consistent c a b Hc Ha Hb) as (_ & _ & _ & Hlt & _).
    specialize (Hlt Hca Hab1).
    pose proof (consistent_before_after c b Hc Hb Hlt). lra.
  - destruct (Q_dec (compareFn b c) 0) as [[Hbc1|Hbc2]|Hbc3]; [ | lra | ].
    + destruct (compareFn_consistent b c a Hb Hc Ha) as (_ & _ & _ & Hlt & _).
      specialize (Hlt Hbc1 Hca).
      destruct (compareFn_consistent a b a Ha Hb Ha) as (_ & Hs & _).
      specialize (Hs Hab3). lra.
    + destruct (compareFn_consistent a b c Ha Hb Hc) as (_ & _ & Heq & _).
      specialize (Heq Hab3 Hbc3). lra.
Qed.

(** The insertion sort keeps a list ordered. *)
Lemma insertBy_ordered x l :
  x ∈ values -> (forall y, y ∈ l -> y ∈ values) ->
  StronglySorted (fun a b => compareFn a b <= 0) l ->
  StronglySorted (fun a b => compareFn a b <= 0) (insertBy compareFn x l).
Proof.
  intros Hx Hl Hs. induction Hs as [|y l Hs IH Hy]; cbn [insertBy].
  - constructor; constructor.
  - assert (Hyv : y ∈ values) by (apply Hl; left).
    assert (Hlv : forall z, z ∈ l -> z ∈ values) by (intros z Hz; apply Hl; right; exact Hz).
    rewrite List.Forall_forall in Hy.
    destruct (compareFn x y <=? 0) eqn:E; numb.
    + constructor; [constructor; [exact Hs | apply List.Forall_forall; exact Hy]|].
      constructor; [exact E|].
      apply List.Forall_forall. intros z Hz.
      apply (consistent_transitive x y z Hx Hyv); [|exact E | apply Hy, Hz].
      apply Hlv, list_elem_of_In, Hz.
    + constructor; [apply IH; exact Hlv|].
      apply List.Forall_forall. intros z Hz.
      apply list_elem_of_In, insertBy_elements in Hz. destruct Hz as [->|Hz].
      * destruct (consistent_total y x Hyv Hx) as [H|H]; [exact H | lra].
      * apply Hy, list_elem_of_In, Hz.
Qed.

End Consistent.

Lemma consistentOn_sound {A} (compareFn : A -> A -> Q) values :
  LanguageSpec.consistentOn compareFn values = true ->
  LanguageSpec.consistent compareFn values.
Proof.
  intros H a b c Ha Hb Hc. unfold LanguageSpec.consistentOn in H.
  apply list_elem_of_In in Ha, Hb, Hc.
  rewrite List.forallb_forall in H. specialize (H a Ha).
  rewrite List.forallb_forall in H. specialize (H b Hb).
  rewrite List.forallb_forall in H. specialize (H c Hc).
  unfold LanguageSpec.consistentAt in H. rewrite !andb_true_iff in H.
  destruct H as ((((H1 & H2) & H3) & H4) & H5).
  split; [apply Qeq_bool_eq; exact H1|].
  split; [|split; [|split]].
  - intros E. apply Qeq_eq_bool in E. rewrite E in H2. apply Qeq_bool_eq. exact H2.
  - intros E1 E2. apply Qeq_eq_bool in E1, E2. rewrite E1, E2 in H3.
    apply Qeq_bool_eq. exact H3.
  - destruct (compareFn a b <? 0) eqn:E1; destruct (compareFn b c <? 0) eqn:E2;
      destruct (compareFn a c <? 0) eqn:E3; cbn in H4; try discriminate; numb;
      intros; lra.
  - destruct (0 <? compareFn a b) eqn:E1; destruct (0 <? compareFn b c) eqn:E2;
      destruct (0 <? compareFn a c) eqn:E3; cbn in H5; try discriminate; numb;
      intros; lra.
Qed.

Lemma insertBy_permutation {A} (compareFn : A -> A -> Q) x l :
  insertBy compareFn x l ≡ₚ x :: l.
Proof.
  induction l as [|y l IH]; cbn [insertBy]; [reflexivity|].
  destruct (compareFn x y <=? 0); [reflexivity|].
  rewrite IH. constructor.
Qed.

Lemma arraySort_permutation {A} (compareFn : A -> A -> Q) l :
  arraySort compareFn l ≡ₚ l.
Proof.
  unfold arraySort. induction l as [|x l IH]; cbn [fold_right]; [reflexivity|].
  rewrite insertBy_permutation, IH. reflexivity.
Qed.

(** The insertion sort sorts as the language requires. *)
Lemma arraySort_sorts {A} : LanguageSpec.sorts (@arraySort A).
Proof.
  intros compareFn l Hc. split; [apply arraySort_permutation|].
  assert (Hs : forall l',
            (forall y, y ∈ l' -> y ∈ l) ->
            StronglySorted (fun a b => compareFn a b <= 0) (arraySort compareFn l')).
  { unfold arraySort.
    induction l' as [|x l' IH]; intros Hsub; cbn [fold_right]; [constructor|].
    apply (insertBy_ordered compareFn l Hc).
    - apply Hsub. left.
    - intros y Hy. apply Hsub. right. apply (arraySort_elements compareFn l' y). exact Hy.
    - apply IH. intros y Hy. apply Hsub. right. exact Hy. }
  specialize (Hs l (fun y Hy => Hy)).
  intros i j a b Hij Ha Hb Hlt.
  pose proof (StronglySorted_lookup _ _ i j a b Hs Hij Ha Hb) as Hab. cbn beta in Hab.
  assert (Ha' : a ∈ l)
    by (apply (arraySort_elements compareFn l a), (list_elem_of_lookup_2 _ i), Ha).
  assert (Hb' : b ∈ l)
    by (apply (arraySort_elements compareFn l b), (list_elem_of_lookup_2 _ j), Hb).
  pose proof (consistent_before_after compareFn l Hc b a Hb' Ha' Hlt). lra.
Qed.

(** One level of the comparator keeps it consistent when the differences
    at that level are zero or beyond the tolerance. *)
Lemma difference_cases d :
  d == 0 \/ tolerance < Qabs d ->
  (d == 0 /\ (Qabs d >? 1e-6) = false)
  \/ (d < - tolerance /\ (Qabs d >? 1e-6) = true)
  \/ (tolerance < d /\ (Qabs d >? 1e-6) = true).
Proof.
  pose proof tolerance_small as Htol.
  intros H.
  assert (H' : d == 0 \/ d < - tolerance \/ tolerance < d).
  { destruct H as [H|H]; [left; exact H | right].
    revert H. apply Qabs_case; intros; [right | left]; lra. }
  change 1e-6 with tolerance.
  destruct (Qabs d >? tolerance) eqn:E;
    [apply abs_gtb_true in E | apply abs_gtb_false in E];
    destruct H' as [H'|[H'|H']]; try (exfalso; lra); auto.
Qed.

Lemma level_consistent daa dab dba dbc dac raa rab rba rbc rac :
  daa == 0 -> dba == - dab -> dac == dab + dbc ->
  (dab == 0 \/ tolerance < Qabs dab) ->
  (dbc == 0 \/ tolerance < Qabs dbc) ->
  (dac == 0 \/ tolerance < Qabs dac) ->
  LanguageSpec.consistentValues raa rab rba rbc rac ->
  LanguageSpec.consistentValues
    (if Qabs daa >? 1e-6 then daa else raa)
    (if Qabs dab >? 1e-6 then dab else rab)
    (if Qabs dba >? 1e-6 then dba else rba)
    (if Qabs dbc >? 1e-6 then dbc else rbc)
    (if Qabs dac >? 1e-6 then dac else rac).
Proof.
  pose proof tolerance_small as Htol.
  intros Haa Hba Hac Sab Sbc Sac (R1 & R2 & R3 & R4 & R5).
  assert (Saa : daa == 0 \/ tolerance < Qabs daa) by (left; exact Haa).
  assert (Sba : dba == 0 \/ tolerance < Qabs dba).
  { destruct Sab as [H|H]; [left; lra | right].
    rewrite Hba, Qabs_opp. exact H. }
  destruct (difference_cases daa Saa) as [[Daa ->]|[[Daa ->]|[Daa ->]]];
    try (exfalso; lra);
  destruct (difference_cases dab Sab) as [[Dab ->]|[[Dab ->]|[Dab ->]]];
  destruct (difference_cases dba Sba) as [[Dba ->]|[[Dba ->]|[Dba ->]]];
    try (exfalso; lra);
  destruct (difference_cases dbc Sbc) as [[Dbc ->]|[[Dbc ->]|[Dbc ->]]];
  destruct (difference_cases dac Sac) as [[Dac ->]|[[Dac ->]|[Dac ->]]];
    try (exfalso; lra);
  unfold LanguageSpec.consistentValues;
  repeat split; intros; try lra; auto.
Qed.

Lemma separate_difference x y :
  separate x y ->
  (y - x == 0 \/ tolerance < Qabs (y - x)) /\ (x - y == 0 \/ tolerance < Qabs (x - y)).
Proof.
  intros [H|H].
  - split; left; lra.
  - split; right; [rewrite (Qabs_Qminus y x)|]; exact H.
Qed.

(** Where no two values of a key lie within the tolerance without being
    equal, and the collation is consistent for the names, the comparator
    is consistent. *)
Lemma separated_consistent collate entries :
  separated entries ->
  LanguageSpec.consistent collate
    (List.map (fun sc => Card.name (ScoredCard.card sc)) entries) ->
  LanguageSpec.consistent (compareScoredWith collate) entries.
Proof.
  intros Hsep Hcol a b c Ha Hb Hc.
  destruct (Hsep a b Ha Hb) as (T1 & V1 & C1 & R1 & U1).
  destruct (Hsep b c Hb Hc) as (T2 & V2 & C2 & R2 & U2).
  destruct (Hsep a c Ha Hc) as (T3 & V3 & C3 & R3 & U3).
  unfold utilizationOf in U1, U2, U3.
  unfold compareScoredWith. cbv zeta.
  apply level_consistent;
    [ring | ring | ring
    | apply (separate_difference _ _ T1)
    | apply (separate_difference _ _ T2)
    | apply (separate_difference _ _ T3) |].
  apply level_consistent;
    [ring | ring | ring
    | apply (separate_difference _ _ V1)
    | apply (separate_difference _ _ V2)
    | apply (separate_difference _ _ V3) |].
  apply level_consistent;
    [ring | ring | ring
    | apply (separate_difference _ _ C1)
    | apply (separate_difference _ _ C2)
    | apply (separate_difference _ _ C3) |].
  apply level_consistent;
    [ring | ring | ring
    | apply (separate_difference _ _ R1)
    | apply (separate_difference _ _ R2)
    | apply (separate_difference _ _ R3) |].
  apply level_consistent;
    [ring | ring | ring
    | apply (separate_difference _ _ U1)
    | apply (separate_difference _ _ U2)
    | apply (separate_difference _ _ U3) |].
  apply Hcol; apply list_elem_of_In;
    apply (List.in_map (fun sc => Card.name (ScoredCard.card sc)));
    apply list_elem_of_In; assumption.
Qed.

(** [scoreCards] is [scoreCardsWith] on the engine that sorts by insertion
    and compares names character by character. *)
Lemma scoreCards_reference purchase cards options :
  scoreCards purchase cards options = scoreCardsWith referenceEngine purchase cards options.
Proof. reflexivity. Qed.

Lemma scoreCardsWith_entries engine purchase cards options :
  scoreCardsWith engine purchase cards options
  = match scoredEntries purchase cards options with
    | [] => []
    | _ :: _ =>
        sortOf engine (compareScoredWith (localeCompareOf engine))
          (scoredEntries purchase cards options)
    end.
Proof.
  unfold scoreCardsWith, scoredEntries.
  destruct (omap (evaluateCard purchase options) cards) as [|d ds]; reflexivity.
Qed.

Lemma scoredEntries_hundredths purchase cards options :
  Forall (fun sc => exists k, ScoredCard.totalScore sc == inject_Z k / 100)
    (scoredEntries purchase cards options).
Proof.
  unfold scoredEntries.
  destruct (omap (evaluateCard purchase options) cards) as [|d ds]; [constructor|].
  cbv zeta. cbn [List.map].
  apply List.Forall_forall. intros sc Hin.
  destruct Hin as [<-|Hin]; [apply totalScore_hundredths|].
  apply List.in_map_iff in Hin. destruct Hin as (d' & <- & _).
  apply totalScore_hundredths.
Qed.

(** C3, as amended.  On every engine whose [sort] sorts as the language
    requires, and whenever the comparator of [scoreCards] is consistent
    for the scored cards, the list that [scoreCards] returns is in
    descending order of total score, and of two entries whose total
    scores are tied (differ by at most 1e-6) the one that stands first is
    first by the documented order: higher value score first, then higher
    cashflow score, then lower risk penalty, then lower resulting
    utilization, then the name of the card ascending in the collation of
    [localeCompare]; at each of these levels two values within 1e-6 of
    each other count as tied and the next level decides. *)
Theorem scoreCards_sorted engine purchase cards options :
  LanguageSpec.sorts (sortOf engine) ->
  LanguageSpec.consistent (compareScoredWith (localeCompareOf engine))
    (scoredEntries purchase cards options) ->
  forall i j a b,
    (i < j)%nat ->
    scoreCardsWith engine purchase cards options !! i = Some a ->
    scoreCardsWith engine purchase cards options !! j = Some b ->
    ScoredCard.totalScore b <= ScoredCard.totalScore a
    /\ (tied (ScoredCard.totalScore a) (ScoredCard.totalScore b) ->
        tieBreak (localeCompareOf engine) a b).
Proof.
  intros Hsort Hcons i j a b Hij Ha Hb.
  rewrite scoreCardsWith_entries in Ha, Hb.
  pose proof (scoredEntries_hundredths purchase cards options) as Hh.
  revert Hcons Ha Hb Hh. generalize (scoredEntries purchase cards options).
  intros l Hcons Ha Hb Hh.
  destruct l as [|e es]; [discriminate|].
  revert Hcons Ha Hb Hh. generalize (e :: es). clear e es. intros l Hcons Ha Hb Hh.
  destruct (Hsort _ l Hcons) as [Hperm Hord].
  assert (Ha' : a ∈ l) by (rewrite <- Hperm; exact (list_elem_of_lookup_2 _ i a Ha)).
  assert (Hb' : b ∈ l) by (rewrite <- Hperm; exact (list_elem_of_lookup_2 _ j b Hb)).
  assert (Hab : compareScoredWith (localeCompareOf engine) a b <= 0).
  { pose proof (Hord i j a b Hij Ha Hb) as Hnot.
    destruct (consistent_total _ l Hcons a b Ha' Hb') as [H|H]; [exact H|].
    destruct (Hcons b a b Hb' Ha' Hb') as (_ & Hs & _).
    destruct (Q_dec (compareScoredWith (localeCompareOf engine) b a) 0) as [[Hn|Hp]|He].
    - contradiction.
    - lra.
    - specialize (Hs He). lra. }
  rewrite List.Forall_forall in Hh.
  destruct (Hh a (proj1 (list_elem_of_In _ _) Ha')) as [k Hk].
  destruct (Hh b (proj1 (list_elem_of_In _ _) Hb')) as [k' Hk'].
  split.
  - exact (ordered_descending _ a b k k' Hk Hk' Hab).
  - intros Ht. exact (ordered_tieBreak _ a b Hab Ht).
Qed.

(** The statement of C3 on the engine that sorts by insertion and compares
    names character by character, for the large purchase on the cards A,
    B and C: the value scores of A and B are within 1e-6 of each other. *)
Lemma scoreCards_sorted_witness :
  LanguageSpec.sorts (sortOf referenceEngine)
  /\ LanguageSpec.consistent (compareScoredWith (localeCompareOf referenceEngine))
       (scoredEntries Scenario.largePurchase
          [Scenario.cardA; Scenario.cardB; Scenario.cardC] noOptions)
  /\ forall i j a b,
       (i < j)%nat ->
       scoreCardsWith referenceEngine Scenario.largePurchase
         [Scenario.cardA; Scenario.cardB; Scenario.cardC] noOptions !! i = Some a ->
       scoreCardsWith referenceEngine Scenario.largePurchase
         [Scenario.cardA; Scenario.cardB; Scenario.cardC] noOptions !! j = Some b ->
       ScoredCard.totalScore b <= ScoredCard.totalScore a
       /\ (tied (ScoredCard.totalScore a) (ScoredCard.totalScore b) ->
           tieBreak (localeCompareOf referenceEngine) a b).
Proof.
  assert (Hs : LanguageSpec.sorts (sortOf referenceEngine)) by exact arraySort_sorts.
  assert (Hc : LanguageSpec.consistent (compareScoredWith (localeCompareOf referenceEngine))
                 (scoredEntries Scenario.largePurchase
                    [Scenario.cardA; Scenario.cardB; Scenario.cardC] noOptions))
    by (apply consistentOn_sound; vm_compute; reflexivity).
  split; [exact Hs|]. split; [exact Hc|].
  apply (scoreCards_sorted referenceEngine Scenario.largePurchase
           [Scenario.cardA; Scenario.cardB; Scenario.cardC] noOptions Hs Hc).
Defined.

(** The comparator is not consistent for every list of cards.  For the
    large purchase on the cards A, B, D and E the total scores of A, B and
    D are equal and their value scores are 0, 0.8e-6 and 1.6e-6: A and B
    are tied and the name puts A first, B and D are tied and the name puts
    B first, yet the value score puts D before A.  No order of the three
    agrees with the comparator, and the language leaves the result of
    [sort] to the engine. *)
Example compareScored_not_consistent :
  exists a b d,
    scoredEntries Scenario.largePurchase
      [Scenario.cardA; Scenario.cardB; Scenario.cardD; Scenario.cardE] noOptions !! 0%nat
    = Some a
    /\ scoredEntries Scenario.largePurchase
         [Scenario.cardA; Scenario.cardB; Scenario.cardD; Scenario.cardE] noOptions !! 1%nat
       = Some b
    /\ scoredEntries Scenario.largePurchase
         [Scenario.cardA; Scenario.cardB; Scenario.cardD; Scenario.cardE] noOptions !! 2%nat
       = Some d
    /\ compareScoredWith localeCompare a b < 0
    /\ compareScoredWith localeCompare b d < 0
    /\ 0 < compareScoredWith localeCompare a d
    /\ LanguageSpec.consistentOn (compareScoredWith localeCompare)
         (scoredEntries Scenario.largePurchase
            [Scenario.cardA; Scenario.cardB; Scenario.cardD; Scenario.cardE] noOptions)
       = false.
Proof.
  eexists. eexists. eexists.
  split; [vm_compute; reflexivity|].
  split; [vm_compute; reflexivity|].
  split; [vm_compute; reflexivity|].
  repeat split; vm_compute; reflexivity.
Qed.

(** On these four cards the engine that sorts by insertion returns A
    before D, although their total scores are tied and the value score of
    D is higher by more than 1e-6; given the cards in another order it
    returns D first. *)
Example scoreCards_order_of_input :
  List.map (fun sc => Card.name (ScoredCard.card sc))
    (scoreCards Scenario.largePurchase
       [Scenario.cardA; Scenario.cardB; Scenario.cardD; Scenario.cardE] noOptions)
  = ["E"; "A"; "B"; "D"]%string
  /\ List.map (fun sc => Card.name (ScoredCard.card sc))
       (scoreCards Scenario.largePurchase
          [Scenario.cardD; Scenario.cardB; Scenario.cardA; Scenario.cardE] noOptions)
     = ["E"; "D"; "A"; "B"]%string
  /\ exists a d,
       scoreCards Scenario.largePurchase
         [Scenario.cardA; Scenario.cardB; Scenario.cardD; Scenario.cardE] noOptions !! 1%nat
       = Some a
       /\ scoreCards Scenario.largePurchase
            [Scenario.cardA; Scenario.cardB; Scenario.cardD; Scenario.cardE] noOptions
          !! 3%nat = Some d
       /\ ScoredCard.totalScore a == ScoredCard.totalScore d
       /\ ~ tieBreak localeCompare a d.
Proof.
  split; [vm_compute; reflexivity|]. split; [vm_compute; reflexivity|].
  eexists. eexists.
  split; [vm_compute; reflexivity|].
  split; [vm_compute; reflexivity|].
  split; [vm_compute; reflexivity|].
  unfold tieBreak. cbn [ScoredCard.breakdown valueScore].
  intros [H|[H _]]; vm_compute in H; [discriminate | exact (H eq_refl)].
Qed.

(** Three cards that differ in name only come out in the order of their
    names, whatever the order in which they are given. *)
Example scoreCards_by_name :
  let cardNamed name := Card.mk 1 name 50000 45000 15 5 0.025 1.0 0.01 (ISNumber 12) None in
  List.map (fun sc => Card.name (ScoredCard.card sc))
    (scoreCards Scenario.purchase [cardNamed "C"; cardNamed "A"; cardNamed "B"]%string
       noOptions)
  = ["A"; "B"; "C"]%string.
Proof. vm_compute. reflexivity. Qed.

(** C3 as stated, with exact comparisons below the total score, fails: of
    the three cards of the large purchase, card A (value score 0) stands before
    card B (value score 1/2000000) with the same total score, because the
    two value scores are within 1e-6 of each other and the name decides. *)
Lemma scoreCards_strict_order_counterexample :
  exists a b,
    scoreCards Scenario.largePurchase [Scenario.cardA; Scenario.cardB; Scenario.cardC]
      noOptions !! 1%nat = Some a
    /\ scoreCards Scenario.largePurchase [Scenario.cardA; Scenario.cardB; Scenario.cardC]
         noOptions !! 2%nat = Some b
    /\ Card.name (ScoredCard.card a) = "A"%string
    /\ Card.name (ScoredCard.card b) = "B"%string
    /\ ScoredCard.totalScore a == ScoredCard.totalScore b
    /\ valueScore (ScoredCard.breakdown a) == 0
    /\ valueScore (ScoredCard.breakdown b) == 1 # 2000000
    /\ ~ strictTieBreak a b.
Proof.
  eexists. eexists.
  split; [vm_compute; reflexivity|].
  split; [vm_compute; reflexivity|].
  repeat (split; [vm_compute; reflexivity|]).
  unfold strictTieBreak. cbn [ScoredCard.breakdown valueScore].
  intros [H|[H _]]; vm_compute in H; discriminate.
Qed.

(** A card whose available limit is below the amount is left out, and a
    list of such cards gives the empty list. *)
Example scoreCards_leaves_out :
  let poor := Card.mk 9 "Poor" 50000 1000 15 5 0.025 1.0 0.01 (ISNumber 12) None in
  List.map (fun sc => Card.name (ScoredCard.card sc))
    (scoreCards Scenario.purchase [poor; Scenario.card] noOptions)
  = ["Card"%string]
  /\ scoreCards Scenario.purchase [poor; poor] noOptions = [].
Proof. split; vm_compute; reflexivity. Qed.

End ScoreFacts.

(** * Further properties of the engine *)

(** ** Rounding, clamping and normalisation *)

Section MoneyProperties.
Import Money.

Lemma mathRound_bounds x :
  x - (1 # 2) < inject_Z (Num.mathRound x) /\ inject_Z (Num.mathRound x) <= x + (1 # 2).
Proof.
  unfold Num.mathRound.
  pose proof (Qfloor_le (x + (1 # 2))) as Hle.
  pose proof (Qlt_floor (x + (1 # 2))) as Hlt.
  rewrite inject_Z_plus in Hlt.
  change (inject_Z 1) with 1 in Hlt.
  split; lra.
Qed.

Lemma round2_bounds x : x - (1 # 200) < round2 x /\ round2 x <= x + (1 # 200).
Proof.
  unfold round2. destruct (mathRound_bounds (x * 100)) as [H1 H2].
  revert H1 H2. generalize (inject_Z (Num.mathRound (x * 100))). intros k H1 H2.
  unfold Qdiv. change (/ 100) with (1 # 100). split; lra.
Qed.

Lemma round2_fixed x : round2 (round2 x) = round2 x.
Proof.
  unfold round2 at 1.
  rewrite (mathRound_integer (round2 x * 100) (Num.mathRound (x * 100))).
  - reflexivity.
  - unfold round2. field.
Qed.

Lemma round2_monotone x y : x <= y -> round2 x <= round2 y.
Proof.
  intros H. unfold round2, Num.mathRound.
  assert (Hf : (Qfloor (x * 100 + (1 # 2)) <= Qfloor (y * 100 + (1 # 2)))%Z)
    by (apply Qfloor_resp_le; lra).
  rewrite Zle_Qle in Hf. revert Hf.
  generalize (inject_Z (Qfloor (x * 100 + (1 # 2)))).
  generalize (inject_Z (Qfloor (y * 100 + (1 # 2)))). intros b a Hf.
  unfold Qdiv. change (/ 100) with (1 # 100). lra.
Qed.

Lemma clamp01_range x : 0 <= clamp01 x <= 1.
Proof. unfold clamp01. minmax; lra. Qed.


Lemma minMaxNormalize_bounds value min max :
  0 <= minMaxNormalize value min max <= 1.
Proof.
  unfold minMaxNormalize. destruct (Num.eqb max min).
  - lra.
  - apply clamp01_range.
Qed.



End MoneyProperties.

(** ** Dates of the billing cycle *)

Section DateProperties.
Import Dates DatesSpec.
Local Open Scope Z_scope.

Lemma daysInMonth_le_31 y m : daysInMonth y m <= 31.
Proof.
  unfold daysInMonth.
  repeat match goal with |- context [if ?b then _ else _] => destruct b end; lia.
Qed.

Lemma plain_valid iso : plainISO iso -> validDate (parseISODate iso).
Proof. intros [Hv _]. apply parse_valid. exact Hv. Qed.

Lemma nextDayOfMonth_window baseISO day :
  validDate (parseISODate baseISO) ->
  isoDay (nextDayOfMonth baseISO day) = Z.max 1 (Z.min 28 day)
  /\ isoTime baseISO <= isoTime (nextDayOfMonth baseISO day) <= isoTime baseISO + 30
  /\ (getDate (parseISODate baseISO) = Z.max 1 (Z.min 28 day) ->
      isoTime (nextDayOfMonth baseISO day) = isoTime baseISO).
Proof.
  intros [Hm Hd]. unfold nextDayOfMonth, isoTime.
  set (b := parseISODate baseISO) in *.
  set (c := Z.max 1 (Z.min 28 day)).
  assert (Hc : 1 <= c <= 28) by (unfold c; lia).
  pose proof (daysInMonth_le_31 (getFullYear b) (getMonth b)) as H31.
  destruct (getDate b <=? c) eqn:E.
  - apply Z.leb_le in E.
    rewrite parse_toISODate by apply newDate_month.
    rewrite newDate_in_range by exact Hm.
    unfold getTimeDays.
    cbn [getDate getFullYear getMonth toISODate isoDay].
    lia.
  - apply Z.leb_gt in E.
    rewrite parse_toISODate by apply newDate_month.
    rewrite getTimeDays_next_month by exact Hm.
    unfold getTimeDays.
    change (isoDay (toISODate (newDate (getFullYear b) (getMonth b + 1) c))) with c.
    lia.
Qed.

(** X4.  For a base date of the calendar [nextDayOfMonth] answers with a
    date whose day of the month is the requested day clamped to 1..28,
    that is not before the base date and at most 30 days after it; a base
    date that falls on the requested day is its own answer. *)
Theorem nextDayOfMonth_next_occurrence baseISO day :
  plainISO baseISO ->
  isoDay (nextDayOfMonth baseISO day) = Z.max 1 (Z.min 28 day)
  /\ isoTime baseISO <= isoTime (nextDayOfMonth baseISO day) <= isoTime baseISO + 30
  /\ (isoDay baseISO = Z.max 1 (Z.min 28 day) ->
      isoTime (nextDayOfMonth baseISO day) = isoTime baseISO).
Proof.
  intros Hp. exact (nextDayOfMonth_window baseISO day (plain_valid _ Hp)).
Qed.

Lemma nextDayOfMonth_next_occurrence_witness :
  plainISO (mkISO 2024 1 31)
  /\ isoDay (nextDayOfMonth (mkISO 2024 1 31) 30) = Z.max 1 (Z.min 28 30)
  /\ isoTime (mkISO 2024 1 31) <= isoTime (nextDayOfMonth (mkISO 2024 1 31) 30)
     <= isoTime (mkISO 2024 1 31) + 30
  /\ (isoDay (mkISO 2024 1 31) = Z.max 1 (Z.min 28 30) ->
      isoTime (nextDayOfMonth (mkISO 2024 1 31) 30) = isoTime (mkISO 2024 1 31)).
Proof.
  assert (Hp : plainISO (mkISO 2024 1 31)) by (vm_compute; intuition discriminate).
  split; [exact Hp|].
  apply (nextDayOfMonth_next_occurrence (mkISO 2024 1 31) 30 Hp).
Defined.

Lemma nextDayOfMonth_shape baseISO day :
  exists y m,
    nextDayOfMonth baseISO day = toISODate (newDate y m (Z.max 1 (Z.min 28 day))).
Proof.
  unfold nextDayOfMonth.
  destruct (getDate (parseISODate baseISO) <=? Z.max 1 (Z.min 28 day)); eauto.
Qed.

(** X5.  [nextDayOfMonth] is idempotent: asked again for the same day, it
    returns the date it has returned. *)
Theorem nextDayOfMonth_idempotent baseISO day :
  nextDayOfMonth (nextDayOfMonth baseISO day) day = nextDayOfMonth baseISO day.
Proof.
  destruct (nextDayOfMonth_shape baseISO day) as (y & m & ->).
  unfold nextDayOfMonth at 1.
  rewrite parse_toISODate by apply newDate_month.
  change (getDate (newDate y m (Z.max 1 (Z.min 28 day)))) with (Z.max 1 (Z.min 28 day)).
  rewrite Z.leb_refl.
  f_equal. apply newDate_in_range. apply newDate_month.
Qed.

Lemma newDate_shift y m k d :
  newDate (getFullYear (newDate y m d)) (getMonth (newDate y m d) + k) d
  = newDate y (m + k) d.
Proof.
  unfold newDate. cbn [getFullYear getMonth]. f_equal.
  - Z.div_mod_to_equations. lia.
  - Z.div_mod_to_equations. lia.
Qed.

Lemma addMonths_parsed iso n :
  parseISODate (addMonths iso n)
  = newDate (getFullYear (parseISODate iso)) (getMonth (parseISODate iso) + n)
      (Z.min 28 (isoDay iso)).
Proof. unfold addMonths. apply parse_toISODate. apply newDate_month. Qed.

Lemma addMonths_compose iso a b :
  addMonths (addMonths iso a) b = addMonths iso (a + b).
Proof.
  unfold addMonths at 1. rewrite addMonths_parsed.
  change (getDate (newDate ?y ?m ?d)) with d.
  replace (Z.min 28 (Z.min 28 (isoDay iso))) with (Z.min 28 (isoDay iso)) by lia.
  rewrite newDate_shift. rewrite <- Z.add_assoc. reflexivity.
Qed.

Lemma addMonths_zero iso :
  1 <= isoMonth iso <= 12 -> isoDay iso <= 28 -> addMonths iso 0 = iso.
Proof.
  intros Hm Hd. destruct iso as [y m d]. unfold addMonths, parseISODate.
  cbn [isoYear isoMonth isoDay] in *.
  rewrite (newDate_in_range y (m - 1) d) by lia.
  cbn [getFullYear getMonth getDate].
  rewrite Z.add_0_r, Z.min_r by lia.
  rewrite newDate_in_range by lia. unfold toISODate. simpl. f_equal. lia.
Qed.

Lemma addMonths_next_time iso n :
  exists len,
    28 <= len <= 31
    /\ isoTime (addMonths iso (n + 1)) = isoTime (addMonths iso n) + len.
Proof.
  unfold isoTime. rewrite !addMonths_parsed.
  set (y := getFullYear (parseISODate iso)).
  set (m := getMonth (parseISODate iso)).
  set (c := Z.min 28 (isoDay iso)).
  rewrite Z.add_assoc. rewrite <- (newDate_shift y (m + n) 1 c).
  pose proof (newDate_month y (m + n) c) as Hm.
  exists (daysInMonth (getFullYear (newDate y (m + n) c)) (getMonth (newDate y (m + n) c))).
  split.
  - split; [apply daysInMonth_ge_28 | apply daysInMonth_le_31].
  - rewrite getTimeDays_next_month by exact Hm.
    unfold getTimeDays. cbn [getDate newDate]. lia.
Qed.

(** X7.  Adding months in two steps is adding their sum, and adding no
    month to a date whose day is at most 28 leaves the date as it is.  One
    more month moves the date that [addMonths] returns 28 to 31 days
    later: the day of the month, once clamped to 28, stays. *)
Theorem addMonths_additive iso a b :
  plainISO iso -> 0 <= a -> 0 <= b ->
  addMonths (addMonths iso a) b = addMonths iso (a + b)
  /\ (isoDay iso <= 28 -> addMonths iso 0 = iso)
  /\ isoDay (addMonths iso a) = Z.min 28 (isoDay iso)
  /\ 28 <= isoTime (addMonths iso (a + 1)) - isoTime (addMonths iso a) <= 31.
Proof.
  intros [[Hm Hd] Hy] Ha Hb. split; [|split; [|split]].
  - apply addMonths_compose.
  - intros H28. apply addMonths_zero; assumption.
  - reflexivity.
  - destruct (addMonths_next_time iso a) as (len & Hlen & E). lia.
Qed.

Lemma addMonths_additive_witness :
  plainISO (mkISO 2024 11 30) /\ 0 <= 2 /\ 0 <= 3
  /\ addMonths (addMonths (mkISO 2024 11 30) 2) 3 = addMonths (mkISO 2024 11 30) (2 + 3)
  /\ (isoDay (mkISO 2024 11 30) <= 28 -> addMonths (mkISO 2024 11 30) 0 = mkISO 2024 11 30)
  /\ isoDay (addMonths (mkISO 2024 11 30) 2) = Z.min 28 (isoDay (mkISO 2024 11 30))
  /\ 28 <= isoTime (addMonths (mkISO 2024 11 30) (2 + 1))
           - isoTime (addMonths (mkISO 2024 11 30) 2) <= 31.
Proof.
  assert (Hp : plainISO (mkISO 2024 11 30)) by (vm_compute; intuition discriminate).
  assert (Ha : 0 <= 2) by lia.
  assert (Hb : 0 <= 3) by lia.
  split; [exact Hp|]. split; [exact Ha|]. split; [exact Hb|].
  apply (addMonths_additive (mkISO 2024 11 30) 2 3 Hp Ha Hb).
Defined.

Lemma nextDueDate_bounds purchaseISO statementDay dueDay :
  validISO purchaseISO ->
  validDate (parseISODate (nextDueDate purchaseISO statementDay dueDay))
  /\ isoDay (nextDueDate purchaseISO statementDay dueDay) = Z.max 1 (Z.min 28 dueDay)
  /\ isoTime purchaseISO + 1 <= isoTime (nextDueDate purchaseISO statementDay dueDay)
     <= isoTime purchaseISO + 61.
Proof.
  intros Hv. unfold nextDueDate, nextStatementDate.
  pose proof (nextDayOfMonth_spec purchaseISO statementDay (parse_valid _ Hv))
    as (Hs & _ & _).
  pose proof (nextDayOfMonth_window purchaseISO statementDay (parse_valid _ Hv))
    as (_ & Hw & _).
  revert Hs Hw. generalize (nextDayOfMonth purchaseISO statementDay). intros s Hs Hw.
  pose proof (plusOneDay_valid _ Hs) as Hn.
  pose proof (plusOneDay_time _ Hs) as Ht.
  pose proof (parse_toISODate _ (proj1 Hn)) as Hp.
  pose proof (nextDayOfMonth_spec (toISODate (plusOneDay (parseISODate s))) dueDay)
    as Hdue.
  pose proof (nextDayOfMonth_window (toISODate (plusOneDay (parseISODate s))) dueDay)
    as Hdw.
  rewrite Hp in Hdue, Hdw.
  destruct (Hdue Hn) as (Hvalid & _ & _). destruct (Hdw Hn) as (Hday & Hle & _).
  split; [exact Hvalid|]. split; [exact Hday|].
  revert Hle Hw. unfold isoTime. rewrite Hp, Ht.
  generalize (getTimeDays
                (parseISODate
                   (nextDayOfMonth (toISODate (plusOneDay (parseISODate s))) dueDay))).
  generalize (getTimeDays (parseISODate s)).
  generalize (getTimeDays (parseISODate purchaseISO)). intros; lia.
Qed.

(** The same search in local time: the due date is never before the
    statement date, and the day after the statement date is skipped only
    on a statement date of 25 hours. *)
Lemma local_nextDueDate_bounds zone purchaseISO statementDay dueDay :
  validISO purchaseISO ->
  validDate (parseISODate (LocalTime.nextDueDate zone purchaseISO statementDay dueDay))
  /\ isoDay (LocalTime.nextDueDate zone purchaseISO statementDay dueDay)
     = Z.max 1 (Z.min 28 dueDay)
  /\ isoTime purchaseISO <= isoTime (nextStatementDate purchaseISO statementDay)
  /\ isoTime (nextStatementDate purchaseISO statementDay)
     <= isoTime (LocalTime.nextDueDate zone purchaseISO statementDay dueDay)
     <= isoTime purchaseISO + 61.
Proof.
  intros Hv. unfold LocalTime.nextDueDate, nextStatementDate.
  pose proof (nextDayOfMonth_spec purchaseISO statementDay (parse_valid _ Hv))
    as (Hs & _ & _).
  pose proof (nextDayOfMonth_window purchaseISO statementDay (parse_valid _ Hv))
    as (_ & Hw & _).
  revert Hs Hw. generalize (nextDayOfMonth purchaseISO statementDay). intros s Hs Hw.
  destruct (local_plusOneDay_spec zone _ Hs) as [Hn Ht].
  pose proof (parse_toISODate _ (proj1 Hn)) as Hp.
  pose proof (nextDayOfMonth_spec
                (toISODate (LocalTime.plusOneDay zone (parseISODate s))) dueDay)
    as Hdue.
  pose proof (nextDayOfMonth_window
                (toISODate (LocalTime.plusOneDay zone (parseISODate s))) dueDay)
    as Hdw.
  rewrite Hp in Hdue, Hdw.
  destruct (Hdue Hn) as (Hvalid & _ & _). destruct (Hdw Hn) as (Hday & Hle & _).
  split; [exact Hvalid|]. split; [exact Hday|].
  revert Hle Hw. unfold isoTime. rewrite Hp, Ht.
  generalize (getTimeDays
                (parseISODate
                   (nextDayOfMonth
                      (toISODate (LocalTime.plusOneDay zone (parseISODate s))) dueDay))).
  assert (Hk : 0 <= match zone (getTimeDays (parseISODate s)) with
                    | LocalTime.Long => 0
                    | _ => 1
                    end <= 1) by (destruct (zone _); lia).
  revert Hk.
  generalize (match zone (getTimeDays (parseISODate s)) with
              | LocalTime.Long => 0
              | _ => 1
              end).
  generalize (getTimeDays (parseISODate s)).
  generalize (getTimeDays (parseISODate purchaseISO)). intros; lia.
Qed.

(** On a statement date of 25 hours the search for the due day starts on
    the statement date itself. *)
Lemma local_nextDueDate_long zone purchaseISO statementDay dueDay :
  validISO purchaseISO ->
  zone (isoTime (nextStatementDate purchaseISO statementDay)) = LocalTime.Long ->
  LocalTime.nextDueDate zone purchaseISO statementDay dueDay
  = nextDayOfMonth (nextStatementDate purchaseISO statementDay) dueDay.
Proof.
  intros Hv Hz. unfold LocalTime.nextDueDate, LocalTime.plusOneDay.
  unfold isoTime in Hz. rewrite Hz.
  pose proof (nextDayOfMonth_spec purchaseISO statementDay (parse_valid _ Hv))
    as (Hs & _ & _).
  fold (nextStatementDate purchaseISO statementDay) in Hs.
  unfold nextDayOfMonth.
  rewrite parse_toISODate by exact (proj1 Hs). reflexivity.
Qed.

(** X8.  In every time zone (the clocks moved by an hour at a time, or not
    at all), for a purchase on a day of the calendar, the
    due date that [nextDueDate] returns falls on the due day clamped to
    1..28, not before the statement date and so not before the purchase,
    and at most 61 days after the purchase.  It is after the statement
    date unless that day has 25 hours; then it is the first occurrence of
    the due day from the statement date on, the statement date itself when
    the two days are equal. *)
Theorem nextDueDate_window zone purchaseISO statementDay dueDay :
  plainISO purchaseISO ->
  isoDay (LocalTime.nextDueDate zone purchaseISO statementDay dueDay)
  = Z.max 1 (Z.min 28 dueDay)
  /\ isoTime purchaseISO <= isoTime (nextStatementDate purchaseISO statementDay)
  /\ isoTime (nextStatementDate purchaseISO statementDay)
     <= isoTime (LocalTime.nextDueDate zone purchaseISO statementDay dueDay)
     <= isoTime purchaseISO + 61
  /\ (zone (isoTime (nextStatementDate purchaseISO statementDay)) <> LocalTime.Long ->
      isoTime (nextStatementDate purchaseISO statementDay) + 1
      <= isoTime (LocalTime.nextDueDate zone purchaseISO statementDay dueDay))
  /\ (zone (isoTime (nextStatementDate purchaseISO statementDay)) = LocalTime.Long ->
      LocalTime.nextDueDate zone purchaseISO statementDay dueDay
      = nextDayOfMonth (nextStatementDate purchaseISO statementDay) dueDay).
Proof.
  intros [Hv _].
  destruct (local_nextDueDate_bounds zone purchaseISO statementDay dueDay Hv)
    as (_ & Hday & Hs & Hd).
  split; [exact Hday|]. split; [exact Hs|]. split; [exact Hd|]. split.
  - intros Hz.
    pose proof (nextDueDate_after_statement zone purchaseISO statementDay dueDay Hv) as H.
    destruct (zone (isoTime (nextStatementDate purchaseISO statementDay)));
      [exact H | exact H | contradiction].
  - apply local_nextDueDate_long. exact Hv.
Qed.

(** The bound of 61 days is reached by a purchase of 2 December with the
    statement day and the due day both 1. *)
Example nextDueDate_latest :
  isoTime (nextDueDate (mkISO 2023 12 2) 1 1) = isoTime (mkISO 2023 12 2) + 61.
Proof. vm_compute. reflexivity. Qed.

Lemma nextDueDate_window_witness :
  plainISO (mkISO 2024 11 3)
  /\ isoDay (LocalTime.nextDueDate LocalTime.newYork2024 (mkISO 2024 11 3) 3 5)
     = Z.max 1 (Z.min 28 5)
  /\ isoTime (mkISO 2024 11 3) <= isoTime (nextStatementDate (mkISO 2024 11 3) 3)
  /\ isoTime (nextStatementDate (mkISO 2024 11 3) 3)
     <= isoTime (LocalTime.nextDueDate LocalTime.newYork2024 (mkISO 2024 11 3) 3 5)
     <= isoTime (mkISO 2024 11 3) + 61
  /\ (LocalTime.newYork2024 (isoTime (nextStatementDate (mkISO 2024 11 3) 3))
      <> LocalTime.Long ->
      isoTime (nextStatementDate (mkISO 2024 11 3) 3) + 1
      <= isoTime (LocalTime.nextDueDate LocalTime.newYork2024 (mkISO 2024 11 3) 3 5))
  /\ (LocalTime.newYork2024 (isoTime (nextStatementDate (mkISO 2024 11 3) 3))
      = LocalTime.Long ->
      LocalTime.nextDueDate LocalTime.newYork2024 (mkISO 2024 11 3) 3 5
      = nextDayOfMonth (nextStatementDate (mkISO 2024 11 3) 3) 5).
Proof.
  assert (Hp : plainISO (mkISO 2024 11 3)) by (vm_compute; intuition discriminate).
  split; [exact Hp|].
  apply (nextDueDate_window LocalTime.newYork2024 (mkISO 2024 11 3) 3 5 Hp).
Defined.

End DateProperties.

(** ** The installment plan *)

Section CashflowProperties.
Import Dates DatesSpec Cashflow.

Lemma map_lookup {A B} (f : A -> B) (l : list A) (i : nat) :
  List.map f l !! i = option_map f (l !! i).
Proof.
  revert i. induction l as [|x l IH]; intros [|i]; simpl; try reflexivity. apply IH.
Qed.

Lemma plan_entry purchaseISO n s d i a :
  buildInstallmentPlan purchaseISO n s d !! i = Some a ->
  (Z.of_nat i < Z.max 1 n)%Z
  /\ dueISO a = (if (Z.of_nat i =? 0)%Z then nextDueDate purchaseISO s d
                 else addMonths (nextDueDate purchaseISO s d) (Z.of_nat i))
  /\ daysFromPurchase a = calculateDaysFromPurchase purchaseISO (dueISO a).
Proof.
  unfold buildInstallmentPlan. destruct (n <=? 1)%Z eqn:E.
  - destruct i as [|i]; simpl; [|destruct i; discriminate].
    intros H. injection H as <-. cbn [dueISO daysFromPurchase].
    split; [lia|]. split; reflexivity.
  - apply Z.leb_gt in E. rewrite map_lookup.
    destruct (seqZ 0 n !! i) as [k|] eqn:L; simpl; [|discriminate].
    intros H. injection H as <-. apply lookup_seqZ in L as [-> Hlt].
    cbn [dueISO daysFromPurchase]. rewrite Z.add_0_l.
    split; [lia|]. split; reflexivity.
Qed.

Lemma nextDueDate_clamped purchaseISO s d :
  (1 <= isoMonth (nextDueDate purchaseISO s d) <= 12)%Z
  /\ (1 <= isoDay (nextDueDate purchaseISO s d) <= 28)%Z.
Proof.
  unfold nextDueDate.
  destruct (nextDayOfMonth_shape
              (toISODate (plusOneDay (parseISODate (nextStatementDate purchaseISO s)))) d)
    as (y & m & ->).
  cbn [toISODate newDate isoMonth isoDay getMonth getDate].
  pose proof (Z.mod_pos_bound m 12). lia.
Qed.

Lemma addMonths_later iso k :
  (0 <= k)%Z -> (isoTime (addMonths iso 0) + 28 * k <= isoTime (addMonths iso k))%Z.
Proof.
  intros Hk. pattern k. apply natlike_ind; [lia | | exact Hk].
  intros x Hx IH. destruct (addMonths_next_time iso x) as (len & Hlen & E).
  unfold Z.succ. lia.
Qed.

(** The position in time of entry [i] of the plan: [i] months after the
    first due date. *)
Lemma plan_entry_time purchaseISO n s d i a :
  buildInstallmentPlan purchaseISO n s d !! i = Some a ->
  isoTime (dueISO a) = isoTime (addMonths (nextDueDate purchaseISO s d) (Z.of_nat i)).
Proof.
  intros H. destruct (plan_entry _ _ _ _ _ _ H) as (_ & -> & _).
  destruct (Z.of_nat i =? 0)%Z eqn:E; [|reflexivity].
  apply Z.eqb_eq in E. rewrite E.
  destruct (nextDueDate_clamped purchaseISO s d) as [Hm Hd].
  rewrite addMonths_zero by lia. reflexivity.
Qed.

Lemma plan_entry_days purchaseISO n s d i a :
  validISO purchaseISO ->
  buildInstallmentPlan purchaseISO n s d !! i = Some a ->
  (daysFromPurchase a = isoTime (dueISO a) - isoTime purchaseISO)%Z
  /\ (1 + 28 * Z.of_nat i <= daysFromPurchase a)%Z.
Proof.
  intros Hv H.
  pose proof (plan_entry_time _ _ _ _ _ _ H) as Ht.
  destruct (plan_entry _ _ _ _ _ _ H) as (_ & _ & ->).
  destruct (nextDueDate_bounds purchaseISO s d Hv) as (_ & _ & Hfirst & _).
  destruct (nextDueDate_clamped purchaseISO s d) as [Hm Hd].
  pose proof (addMonths_later (nextDueDate purchaseISO s d) (Z.of_nat i)) as Hl.
  rewrite addMonths_zero in Hl by lia.
  unfold calculateDaysFromPurchase. fold (isoTime (dueISO a)). fold (isoTime purchaseISO).
  lia.
Qed.

Lemma calculateDays_later purchaseISO dueISO :
  (isoTime purchaseISO <= isoTime dueISO)%Z ->
  calculateDaysFromPurchase purchaseISO dueISO = (isoTime dueISO - isoTime purchaseISO)%Z.
Proof. unfold calculateDaysFromPurchase, isoTime. lia. Qed.

(** The plan in local time: the entries hang on the first due date as
    they do without changes of the clock. *)
Lemma local_plan_entry zone purchaseISO n s d i a :
  LocalTime.buildInstallmentPlan zone purchaseISO n s d !! i = Some a ->
  (Z.of_nat i < Z.max 1 n)%Z
  /\ dueISO a = (if (Z.of_nat i =? 0)%Z then LocalTime.nextDueDate zone purchaseISO s d
                 else addMonths (LocalTime.nextDueDate zone purchaseISO s d) (Z.of_nat i))
  /\ daysFromPurchase a = calculateDaysFromPurchase purchaseISO (dueISO a).
Proof.
  unfold LocalTime.buildInstallmentPlan. destruct (n <=? 1)%Z eqn:E.
  - destruct i as [|i]; simpl; [|destruct i; discriminate].
    intros H. injection H as <-. cbn [dueISO daysFromPurchase].
    split; [lia|]. split; reflexivity.
  - apply Z.leb_gt in E. rewrite map_lookup.
    destruct (seqZ 0 n !! i) as [k|] eqn:L; simpl; [|discriminate].
    intros H. injection H as <-. apply lookup_seqZ in L as [-> Hlt].
    cbn [dueISO daysFromPurchase]. rewrite Z.add_0_l.
    split; [lia|]. split; reflexivity.
Qed.

Lemma local_plan_length zone purchaseISO n s d :
  length (LocalTime.buildInstallmentPlan zone purchaseISO n s d) = Z.to_nat (Z.max 1 n).
Proof.
  unfold LocalTime.buildInstallmentPlan. destruct (n <=? 1)%Z eqn:E.
  - apply Z.leb_le in E. simpl. lia.
  - apply Z.leb_gt in E. rewrite length_map, length_seqZ. lia.
Qed.

Lemma local_plan_entry_days zone purchaseISO n s d i a :
  validISO purchaseISO ->
  LocalTime.buildInstallmentPlan zone purchaseISO n s d !! i = Some a ->
  (daysFromPurchase a = isoTime (dueISO a) - isoTime purchaseISO)%Z
  /\ (isoTime (LocalTime.nextDueDate zone purchaseISO s d) - isoTime purchaseISO
      + 28 * Z.of_nat i <= daysFromPurchase a)%Z.
Proof.
  intros Hv H.
  destruct (local_plan_entry _ _ _ _ _ _ _ H) as (_ & Hdue & ->).
  destruct (local_nextDueDate_bounds zone purchaseISO s d Hv)
    as (Hvalid & Hday & Hs & Hfirst & _).
  assert (Hm : (1 <= isoMonth (LocalTime.nextDueDate zone purchaseISO s d) <= 12)%Z).
  { unfold LocalTime.nextDueDate.
    destruct (nextDayOfMonth_shape
                (toISODate (LocalTime.plusOneDay zone
                              (parseISODate (nextStatementDate purchaseISO s)))) d)
      as (y & m & ->).
    cbn [toISODate newDate isoMonth getMonth].
    pose proof (Z.mod_pos_bound m 12). lia. }
  pose proof (addMonths_later (LocalTime.nextDueDate zone purchaseISO s d) (Z.of_nat i))
    as Hl.
  rewrite addMonths_zero in Hl by lia.
  assert (Ht : (isoTime (LocalTime.nextDueDate zone purchaseISO s d) + 28 * Z.of_nat i
                <= isoTime (dueISO a))%Z).
  { rewrite Hdue. destruct (Z.of_nat i =? 0)%Z eqn:E.
    - apply Z.eqb_eq in E. lia.
    - apply Hl. lia. }
  rewrite calculateDays_later by lia. lia.
Qed.

(** X9.  In every time zone (the clocks moved by an hour at a time, or not
    at all) the plan has one entry for each installment,
    and one entry when fewer than two installments are asked for.  Its
    first entry is due on the date of [nextDueDate], between 0 and 61 days
    after a purchase on a day of the calendar, and the number of days of
    every entry is the number of days from the date of the purchase to its
    due date. *)
Theorem buildInstallmentPlan_first_payment zone purchaseISO n s d :
  plainISO purchaseISO ->
  length (LocalTime.buildInstallmentPlan zone purchaseISO n s d) = Z.to_nat (Z.max 1 n)
  /\ (exists a,
        LocalTime.buildInstallmentPlan zone purchaseISO n s d !! 0%nat = Some a
        /\ dueISO a = LocalTime.nextDueDate zone purchaseISO s d
        /\ (0 <= daysFromPurchase a <= 61)%Z)
  /\ (forall i a,
        LocalTime.buildInstallmentPlan zone purchaseISO n s d !! i = Some a ->
        (daysFromPurchase a = isoTime (dueISO a) - isoTime purchaseISO)%Z
        /\ (28 * Z.of_nat i <= daysFromPurchase a)%Z).
Proof.
  intros [Hv _].
  destruct (local_nextDueDate_bounds zone purchaseISO s d Hv)
    as (_ & _ & Hs & Hfirst & Hlast).
  split; [apply local_plan_length|]. split.
  - assert (Hlen : (0 < length (LocalTime.buildInstallmentPlan zone purchaseISO n s d))%nat)
      by (rewrite local_plan_length; lia).
    apply lookup_lt_is_Some_2 in Hlen. destruct Hlen as [a Ha].
    exists a. split; [exact Ha|].
    destruct (local_plan_entry _ _ _ _ _ _ _ Ha) as (_ & Hdue & _).
    destruct (local_plan_entry_days _ _ _ _ _ _ _ Hv Ha) as (Hdays & Hpos).
    change (Z.of_nat 0 =? 0)%Z with true in Hdue.
    split; [exact Hdue|]. rewrite Hdue in Hdays. lia.
  - intros i a Ha. destruct (local_plan_entry_days _ _ _ _ _ _ _ Hv Ha) as (Hdays & Hpos).
    split; [exact Hdays | lia].
Qed.

Lemma buildInstallmentPlan_first_payment_witness :
  plainISO (mkISO 2024 11 3)
  /\ length (LocalTime.buildInstallmentPlan LocalTime.newYork2024 (mkISO 2024 11 3) 3 3 3)
     = Z.to_nat (Z.max 1 3)
  /\ (exists a,
        LocalTime.buildInstallmentPlan LocalTime.newYork2024 (mkISO 2024 11 3) 3 3 3 !! 0%nat
        = Some a
        /\ dueISO a = LocalTime.nextDueDate LocalTime.newYork2024 (mkISO 2024 11 3) 3 3
        /\ (0 <= daysFromPurchase a <= 61)%Z)
  /\ (forall i a,
        LocalTime.buildInstallmentPlan LocalTime.newYork2024 (mkISO 2024 11 3) 3 3 3 !! i
        = Some a ->
        (daysFromPurchase a = isoTime (dueISO a) - isoTime (mkISO 2024 11 3))%Z
        /\ (28 * Z.of_nat i <= daysFromPurchase a)%Z).
Proof.
  assert (Hp : plainISO (mkISO 2024 11 3)) by (vm_compute; intuition discriminate).
  split; [exact Hp|].
  apply (buildInstallmentPlan_first_payment LocalTime.newYork2024 (mkISO 2024 11 3) 3 3 3 Hp).
Defined.

(** The single payment of a purchase in New York on the third of November
    2024, with the statement day and the due day both 3, is due on the
    day of the purchase: 0 days from the purchase.  Where the clocks are
    not moved it is due a month later. *)
Example buildInstallmentPlan_due_at_once :
  List.map (fun a => (dueISO a, daysFromPurchase a))
    (LocalTime.buildInstallmentPlan LocalTime.newYork2024 (mkISO 2024 11 3) 1 3 3)
  = [(mkISO 2024 11 3, 0%Z)]
  /\ List.map (fun a => (dueISO a, daysFromPurchase a))
       (LocalTime.buildInstallmentPlan LocalTime.uniform (mkISO 2024 11 3) 1 3 3)
     = [(mkISO 2024 12 3, 30%Z)].
Proof. vm_compute. split; reflexivity. Qed.

(** Without changes of the clock the functions of local time are the
    functions on calendar days. *)
Lemma uniform_zone :
  (forall d, LocalTime.plusOneDay LocalTime.uniform d = plusOneDay d)
  /\ (forall purchaseISO s d,
        LocalTime.nextDueDate LocalTime.uniform purchaseISO s d = nextDueDate purchaseISO s d)
  /\ (forall purchaseISO n s d,
        LocalTime.buildInstallmentPlan LocalTime.uniform purchaseISO n s d
        = buildInstallmentPlan purchaseISO n s d).
Proof. repeat split. Qed.

(** X10.  Each entry of the plan is due 28 to 31 days after the entry
    before it, so the days from the purchase grow along the plan. *)
Theorem buildInstallmentPlan_monthly purchaseISO n s d :
  plainISO purchaseISO ->
  forall i a b,
    buildInstallmentPlan purchaseISO n s d !! i = Some a ->
    buildInstallmentPlan purchaseISO n s d !! S i = Some b ->
    (28 <= isoTime (dueISO b) - isoTime (dueISO a) <= 31)%Z
    /\ (28 <= daysFromPurchase b - daysFromPurchase a <= 31)%Z.
Proof.
  intros [Hv _] i a b Ha Hb.
  destruct (plan_entry_days _ _ _ _ _ _ Hv Ha) as (Hda & _).
  destruct (plan_entry_days _ _ _ _ _ _ Hv Hb) as (Hdb & _).
  rewrite Hda, Hdb.
  rewrite (plan_entry_time _ _ _ _ _ _ Ha), (plan_entry_time _ _ _ _ _ _ Hb).
  destruct (addMonths_next_time (nextDueDate purchaseISO s d) (Z.of_nat i))
    as (len & Hlen & E).
  replace (Z.of_nat (S i)) with (Z.of_nat i + 1)%Z by lia.
  lia.
Qed.

Lemma buildInstallmentPlan_monthly_witness :
  plainISO (mkISO 2024 8 10)
  /\ forall i a b,
       buildInstallmentPlan (mkISO 2024 8 10) 3 15 5 !! i = Some a ->
       buildInstallmentPlan (mkISO 2024 8 10) 3 15 5 !! S i = Some b ->
       (28 <= isoTime (dueISO b) - isoTime (dueISO a) <= 31)%Z
       /\ (28 <= daysFromPurchase b - daysFromPurchase a <= 31)%Z.
Proof.
  assert (Hp : plainISO (mkISO 2024 8 10)) by (vm_compute; intuition discriminate).
  split; [exact Hp|].
  apply (buildInstallmentPlan_monthly (mkISO 2024 8 10) 3 15 5 Hp).
Defined.

(** The plan of the electronics scenario: due on 5 September, 5 October
    and 5 November, 26, 56 and 87 days after the purchase of 10 August. *)
Example buildInstallmentPlan_electronics :
  List.map (fun a => (dueISO a, daysFromPurchase a))
    (buildInstallmentPlan (mkISO 2024 8 10) 3 15 5)
  = [(mkISO 2024 9 5, 26%Z); (mkISO 2024 10 5, 56%Z); (mkISO 2024 11 5, 87%Z)].
Proof. vm_compute. reflexivity. Qed.

Lemma amounts_positive n :
  (1 <= n <= 17)%Z ->
  0 < Money.round2 (1 / inject_Z n)
  /\ 0 < (if (n <=? 1)%Z then 1.0
          else Money.round2 (1.0 - Money.round2 (1.0 / inject_Z n) * inject_Z (n - 1))).
Proof.
  intros H.
  assert (C : (n = 1 \/ n = 2 \/ n = 3 \/ n = 4 \/ n = 5 \/ n = 6 \/ n = 7 \/ n = 8
               \/ n = 9 \/ n = 10 \/ n = 11 \/ n = 12 \/ n = 13 \/ n = 14 \/ n = 15
               \/ n = 16 \/ n = 17)%Z) by lia.
  repeat (destruct C as [->|C]; [split; vm_compute; reflexivity|]).
  subst n. split; vm_compute; reflexivity.
Qed.

(** X11.  For 1 to 17 installments every amount of the plan is positive. *)
Theorem buildInstallmentPlan_amounts_positive purchaseISO n s d :
  (1 <= n <= 17)%Z ->
  forall a, a ∈ buildInstallmentPlan purchaseISO n s d -> 0 < amount a.
Proof.
  intros Hn a Ha.
  assert (Hin : List.In (amount a)
                  (List.map amount (buildInstallmentPlan purchaseISO n s d)))
    by (apply List.in_map, list_elem_of_In; exact Ha).
  rewrite buildInstallmentPlan_amounts in Hin by lia.
  destruct (amounts_positive n Hn) as [Hr Hl].
  apply List.in_app_or in Hin. destruct Hin as [Hin|[Hin|[]]].
  - apply list_elem_of_In, elem_of_replicate in Hin. destruct Hin as [-> _]. exact Hr.
  - rewrite <- Hin. exact Hl.
Qed.

Lemma buildInstallmentPlan_amounts_positive_witness :
  (1 <= 12 <= 17)%Z
  /\ forall a, a ∈ buildInstallmentPlan (mkISO 2024 8 10) 12 15 5 -> 0 < amount a.
Proof.
  assert (Hn : (1 <= 12 <= 17)%Z) by lia.
  split; [exact Hn|].
  apply (buildInstallmentPlan_amounts_positive (mkISO 2024 8 10) 12 15 5 Hn).
Defined.

(** With 18 installments the rounded amount is 0.06, seventeen of them
    make 1.02, and the last amount is -0.02, on rational and on binary64
    numbers alike. *)
Example buildInstallmentPlan_eighteen purchaseISO s d :
  (exists a,
     a ∈ buildInstallmentPlan purchaseISO 18 s d /\ amount a == - (2 # 100))
  /\ (exists a,
        List.last (IEEE.buildInstallmentPlan (mkISO 2024 8 10) 18 15 5) a = a
        /\ PrimFloat.ltb (IEEE.amount a) PrimFloat.zero = true).
Proof.
  split.
  - assert (Hin : List.In (Money.round2
                             (1.0 - Money.round2 (1.0 / inject_Z 18) * inject_Z (18 - 1)))
                    (List.map amount (buildInstallmentPlan purchaseISO 18 s d))).
    { rewrite buildInstallmentPlan_amounts by lia.
      apply List.in_or_app. right. left. reflexivity. }
    apply List.in_map_iff in Hin. destruct Hin as (a & Ea & Ha).
    exists a. split; [apply list_elem_of_In; exact Ha|].
    rewrite Ea. vm_compute. reflexivity.
  - eexists. split; [vm_compute; reflexivity|]. vm_compute. reflexivity.
Qed.

Lemma cashflowScore_one days :
  (0 <= days)%Z ->
  Money.clamp01 (Qmin ((0 + inject_Z days * 1.0) / (0 + 1.0)) 60 / 60)
  == inject_Z (Z.min days 60) / 60.
Proof.
  intros Hd.
  assert (Havg : (0 + inject_Z days * 1.0) / (0 + 1.0) == inject_Z days) by field.
  assert (H0 : 0 <= inject_Z days) by (rewrite (Zle_Qle 0 days) in Hd; exact Hd).
  revert Havg. generalize ((0 + inject_Z days * 1.0) / (0 + 1.0)). intros avg Havg.
  destruct (Z.le_gt_cases days 60) as [Hle|Hgt].
  - rewrite Z.min_l by lia. rewrite (Zle_Qle days 60) in Hle.
    change (inject_Z 60) with 60 in Hle.
    revert H0 Hle Havg. generalize (inject_Z days). intros q H0 Hle Havg.
    unfold Money.clamp01, Qdiv. change (/ 60) with (1 # 60). minmax; lra.
  - rewrite Z.min_r by lia. rewrite (Zlt_Qlt 60 days) in Hgt.
    change (inject_Z 60) with 60 in Hgt.
    revert H0 Hgt Havg. generalize (inject_Z days). intros q H0 Hgt Havg.
    change (inject_Z 60) with 60.
    unfold Money.clamp01, Qdiv. change (/ 60) with (1 # 60). minmax; lra.
Qed.

(** X12.  For a single payment the cashflow score is the number of days
    from the purchase to the due date, at most 60, divided by 60, and
    [estimatePaymentDays] reads that number of days back from the score. *)
Theorem cashflowScore_single_payment purchaseISO n s d :
  plainISO purchaseISO -> (n <= 1)%Z ->
  cashflowScore (buildInstallmentPlan purchaseISO n s d)
  == inject_Z (Z.min (isoTime (nextDueDate purchaseISO s d) - isoTime purchaseISO) 60) / 60
  /\ ResultCard.estimatePaymentDays (cashflowScore (buildInstallmentPlan purchaseISO n s d))
     = Z.min (isoTime (nextDueDate purchaseISO s d) - isoTime purchaseISO) 60.
Proof.
  intros [Hv _] Hn.
  destruct (nextDueDate_bounds purchaseISO s d Hv) as (_ & _ & Hfirst & _).
  assert (Hscore :
            cashflowScore (buildInstallmentPlan purchaseISO n s d)
            == inject_Z (Z.min (isoTime (nextDueDate purchaseISO s d)
                                - isoTime purchaseISO) 60) / 60).
  { unfold buildInstallmentPlan. replace (n <=? 1)%Z with true by lia.
    unfold cashflowScore, weightedTotals.
    cbn [length fold_left amount daysFromPurchase fst snd Z.of_nat Z.eqb Pos.of_succ_nat].
    change (0 + 1.0 >? 0) with true. cbv iota.
    rewrite (calculateDays_later purchaseISO (nextDueDate purchaseISO s d)) by lia.
    apply cashflowScore_one. lia. }
  split; [exact Hscore|].
  unfold ResultCard.estimatePaymentDays. apply mathRound_integer.
  rewrite Hscore. field.
Qed.

Lemma cashflowScore_single_payment_witness :
  plainISO (mkISO 2024 8 10) /\ (1 <= 1)%Z
  /\ cashflowScore (buildInstallmentPlan (mkISO 2024 8 10) 1 15 5)
     == inject_Z (Z.min (isoTime (nextDueDate (mkISO 2024 8 10) 15 5)
                         - isoTime (mkISO 2024 8 10)) 60) / 60
  /\ ResultCard.estimatePaymentDays
       (cashflowScore (buildInstallmentPlan (mkISO 2024 8 10) 1 15 5))
     = Z.min (isoTime (nextDueDate (mkISO 2024 8 10) 15 5) - isoTime (mkISO 2024 8 10)) 60.
Proof.
  assert (Hp : plainISO (mkISO 2024 8 10)) by (vm_compute; intuition discriminate).
  assert (Hn : (1 <= 1)%Z) by lia.
  split; [exact Hp|]. split; [exact Hn|].
  apply (cashflowScore_single_payment (mkISO 2024 8 10) 1 15 5 Hp Hn).
Defined.

End CashflowProperties.

(** ** Installments and usability *)

Section CompatibilityProperties.
Import Compatibility.

Lemma boost_ignores_purchase campaigns purchase :
  getCampaignInstallmentBoost campaigns purchase = getCampaignInstallmentBoost campaigns None.
Proof. reflexivity. Qed.

Lemma boost_le_maxAllowed card campaigns :
  (getCampaignInstallmentBoost campaigns None <= getMaxAllowedInstallments card campaigns)%Z.
Proof.
  unfold getMaxAllowedInstallments.
  destruct (getCampaignInstallmentBoost campaigns None >? _)%Z eqn:E; lia.
Qed.

(** X13.  [checkCompatibility] never raises the number of installments
    and never lowers it below one: for a request of at least one
    installment the adjusted number lies between 1 and the request, and
    it is the request itself when the ceiling of the card allows it. *)
Theorem checkCompatibility_adjusted_range purchase card campaigns :
  (1 <= Purchase.installmentCount purchase)%Z ->
  (1 <= adjustedInstallments (checkCompatibility purchase card campaigns)
   <= Purchase.installmentCount purchase)%Z
  /\ ((Purchase.installmentCount purchase <= getMaxAllowedInstallments card campaigns)%Z ->
      adjustedInstallments (checkCompatibility purchase card campaigns)
      = Purchase.installmentCount purchase).
Proof.
  intros Hn. unfold checkCompatibility.
  destruct (Card.availableLimit card <? Purchase.amount purchase);
    [cbn [adjustedInstallments]; split; [lia | reflexivity]|].
  generalize (getMaxAllowedInstallments card campaigns). intros maxAllowed.
  generalize (getCampaignInstallmentBoost campaigns (Some purchase)). intros boost.
  destruct (Z.gtb_spec (Purchase.installmentCount purchase) maxAllowed) as [E1|E1].
  - destruct (_ >? 0.9); destruct (boost >? maxAllowed)%Z; cbn [adjustedInstallments];
      split; intros; lia.
  - replace ((Purchase.installmentCount purchase >? 1) && (maxAllowed =? 0))%Z
      with false by lia.
    destruct (_ >? 0.9); destruct (boost >? maxAllowed)%Z; cbn [adjustedInstallments];
      split; intros; (lia || reflexivity).
Qed.

Lemma checkCompatibility_adjusted_range_witness :
  (1 <= Purchase.installmentCount Scenario.purchaseInFive)%Z
  /\ (1 <= adjustedInstallments
             (checkCompatibility Scenario.purchaseInFive Scenario.card [])
      <= Purchase.installmentCount Scenario.purchaseInFive)%Z
  /\ ((Purchase.installmentCount Scenario.purchaseInFive
       <= getMaxAllowedInstallments Scenario.card [])%Z ->
      adjustedInstallments (checkCompatibility Scenario.purchaseInFive Scenario.card [])
      = Purchase.installmentCount Scenario.purchaseInFive).
Proof.
  assert (Hn : (1 <= Purchase.installmentCount Scenario.purchaseInFive)%Z)
    by (vm_compute; discriminate).
  split; [exact Hn|].
  apply (checkCompatibility_adjusted_range Scenario.purchaseInFive Scenario.card [] Hn).
Defined.

Lemma usabilityScore_table purchase card campaigns :
  Purchase.amount purchase <= Card.availableLimit card ->
  usabilityScore (checkCompatibility purchase card campaigns)
  == (if (Purchase.installmentCount purchase >? getMaxAllowedInstallments card campaigns)%Z
      then 0.4
      else if (Card.totalLimit card - (Card.availableLimit card - Purchase.amount purchase))
              / Card.totalLimit card >? 0.9
           then 0.6
           else 1).
Proof.
  intros Hfits. unfold checkCompatibility.
  apply ltb_false in Hfits. rewrite Hfits.
  generalize (getCampaignInstallmentBoost campaigns (Some purchase)).
  generalize (getMaxAllowedInstallments card campaigns). intros maxAllowed boost.
  generalize ((Card.totalLimit card - (Card.availableLimit card - Purchase.amount purchase))
              / Card.totalLimit card). intros u.
  destruct (Purchase.installmentCount purchase >? maxAllowed)%Z eqn:E1.
  - destruct (u >? 0.9); destruct (boost >? maxAllowed)%Z; cbn [usabilityScore];
      reflexivity.
  - assert (E2 : ((Purchase.installmentCount purchase >? 1) && (maxAllowed =? 0))%Z = false).
    { apply andb_false_iff. lia. }
    rewrite E2.
    destruct (u >? 0.9); destruct (boost >? maxAllowed)%Z; cbn [usabilityScore];
      reflexivity.
Qed.

(** X14.  For a card whose limit covers the amount the usability score is
    0.4 when the request exceeds the installment ceiling, otherwise 0.6
    when the utilization after the purchase is above 90%, otherwise 1: a
    reduction of the installments is not lowered further by a high
    utilization. *)
Theorem checkCompatibility_usability purchase card campaigns :
  Purchase.amount purchase <= Card.availableLimit card ->
  usabilityScore (checkCompatibility purchase card campaigns)
  == (if (Purchase.installmentCount purchase >? getMaxAllowedInstallments card campaigns)%Z
      then 0.4
      else if (Card.totalLimit card - (Card.availableLimit card - Purchase.amount purchase))
              / Card.totalLimit card >? 0.9
           then 0.6
           else 1).
Proof. apply usabilityScore_table. Qed.

Lemma checkCompatibility_usability_witness :
  Purchase.amount Scenario.purchaseInFive
  <= Card.availableLimit Scenario.cardWithoutInstallments
  /\ usabilityScore
       (checkCompatibility Scenario.purchaseInFive Scenario.cardWithoutInstallments [])
     == (if (Purchase.installmentCount Scenario.purchaseInFive
             >? getMaxAllowedInstallments Scenario.cardWithoutInstallments [])%Z
         then 0.4
         else if (Card.totalLimit Scenario.cardWithoutInstallments
                  - (Card.availableLimit Scenario.cardWithoutInstallments
                     - Purchase.amount Scenario.purchaseInFive))
                 / Card.totalLimit Scenario.cardWithoutInstallments >? 0.9
              then 0.6
              else 1).
Proof.
  assert (H : Purchase.amount Scenario.purchaseInFive
              <= Card.availableLimit Scenario.cardWithoutInstallments)
    by (vm_compute; discriminate).
  split; [exact H|].
  apply (checkCompatibility_usability Scenario.purchaseInFive
           Scenario.cardWithoutInstallments [] H).
Defined.

(** X15.  The note that a campaign allows more installments is never
    written: the ceiling that [getMaxAllowedInstallments] returns already
    includes the largest boost of the campaigns, so the boost that
    [checkCompatibility] compares with it is never larger. *)
Theorem checkCompatibility_no_boost_note purchase card campaigns upTo :
  (getCampaignInstallmentBoost campaigns (Some purchase)
   <= getMaxAllowedInstallments card campaigns)%Z
  /\ NCampaignAllowsInstallments upTo ∉ notes (checkCompatibility purchase card campaigns).
Proof.
  pose proof (boost_le_maxAllowed card campaigns) as Hle.
  rewrite <- (boost_ignores_purchase campaigns (Some purchase)) in Hle.
  split; [exact Hle|].
  unfold checkCompatibility.
  replace (getCampaignInstallmentBoost campaigns (Some purchase)
           >? getMaxAllowedInstallments card campaigns)%Z with false by lia.
  revert Hle. generalize (getMaxAllowedInstallments card campaigns). intros maxAllowed _.
  repeat match goal with
         | |- context [if ?b then _ else _] => destruct b
         end;
    cbn [notes app]; rewrite ?elem_of_cons, ?elem_of_nil; intuition discriminate.
Qed.

End CompatibilityProperties.

(** ** Campaigns: the two matchers and the aggregation *)

Section CampaignProperties.
Import CampaignMatch CampaignNotions.

Lemma if_false_else (a r : bool) : (if a then false else r) = negb a && r.
Proof. destruct a; reflexivity. Qed.

Lemma fullMatch_holds purchase campaign :
  fullMatch purchase campaign
  = holds (CampaignMatchSpec.dateCriterion purchase campaign)
    && holds (CampaignMatchSpec.channelCriterion purchase campaign)
    && holds (CampaignMatchSpec.categoryCriterion purchase campaign)
    && holds (CampaignMatchSpec.brandCriterion purchase campaign)
    && holds (CampaignMatchSpec.minAmountCriterion purchase campaign).
Proof.
  unfold fullMatch, CampaignMatchSpec.criteria.
  destruct (CampaignMatchSpec.dateCriterion purchase campaign) as [[|]|];
    destruct (CampaignMatchSpec.channelCriterion purchase campaign) as [[|]|];
    destruct (CampaignMatchSpec.categoryCriterion purchase campaign) as [[|]|];
    destruct (CampaignMatchSpec.brandCriterion purchase campaign) as [[|]|];
    destruct (CampaignMatchSpec.minAmountCriterion purchase campaign) as [[|]|];
    reflexivity.
Qed.

(** [isCampaignApplicable] of [value.ts] in terms of the criteria that
    [evaluateCampaignMatch] of [campaignMatch.ts] counts. *)
Lemma isCampaignApplicable_criteria purchase campaign :
  Value.isCampaignApplicable purchase campaign
  = fullMatch purchase campaign && requirementsMet campaign.
Proof.
  rewrite fullMatch_holds. unfold Value.isCampaignApplicable, requirementsMet.
  rewrite !if_false_else.
  assert (Hd : negb match Campaign.dateRange campaign with
                    | Some range =>
                        ((Dates.getTimeDays (Dates.parseISODate (Purchase.date purchase))
                          <? Dates.getTimeDays (Dates.parseISODate (rangeStart range)))
                         || (Dates.getTimeDays (Dates.parseISODate (rangeEnd range))
                             <? Dates.getTimeDays (Dates.parseISODate (Purchase.date purchase))))%Z
                    | None => false
                    end
               = holds (CampaignMatchSpec.dateCriterion purchase campaign)).
  { unfold CampaignMatchSpec.dateCriterion, Dates.isoTime.
    destruct (Campaign.dateRange campaign) as [range|]; [|reflexivity].
    generalize (Dates.getTimeDays (Dates.parseISODate (Purchase.date purchase))).
    generalize (Dates.getTimeDays (Dates.parseISODate (rangeStart range))).
    generalize (Dates.getTimeDays (Dates.parseISODate (rangeEnd range))).
    intros e s t. rewrite !Z.ltb_antisym.
    destruct (s <=? t)%Z; destruct (t <=? e)%Z; reflexivity. }
  assert (Hm : negb match Num.truthyQ (Campaign.minAmount campaign) with
                    | Some minAmount => Purchase.amount purchase <? minAmount
                    | None => false
                    end
               = holds (CampaignMatchSpec.minAmountCriterion purchase campaign)).
  { unfold CampaignMatchSpec.minAmountCriterion.
    destruct (Num.truthyQ (Campaign.minAmount campaign)) as [m|]; [|reflexivity].
    unfold Num.ltb, Num.leb. destruct (Qle_bool m (Purchase.amount purchase)); reflexivity. }
  assert (Hc : negb match Campaign.channel campaign with
                    | Some (only c) => negb (Channel_eqb c (Purchase.channel purchase))
                    | Some any => false
                    | None => false
                    end
               = holds (CampaignMatchSpec.channelCriterion purchase campaign)).
  { unfold CampaignMatchSpec.channelCriterion.
    destruct (Campaign.channel campaign) as [[c|]|]; try reflexivity.
    destruct (Channel_eqb c (Purchase.channel purchase)); reflexivity. }
  assert (Hg : negb match Num.truthyS (Campaign.category campaign) with
                    | Some category =>
                        negb (String.eqb category "general")
                        && negb (String.eqb category (Purchase.category purchase))
                    | None => false
                    end
               = holds (CampaignMatchSpec.categoryCriterion purchase campaign)).
  { unfold CampaignMatchSpec.categoryCriterion.
    destruct (Num.truthyS (Campaign.category campaign)) as [g|]; [|reflexivity].
    destruct (String.eqb g "general"); [reflexivity|].
    destruct (String.eqb g (Purchase.category purchase)); reflexivity. }
  assert (Hb : negb match Num.truthyS (Campaign.brand campaign) with
                    | Some brand =>
                        negb (String.eqb brand "general")
                        && negb (eqOptString brand (Purchase.merchant purchase))
                    | None => false
                    end
               = holds (CampaignMatchSpec.brandCriterion purchase campaign)).
  { unfold CampaignMatchSpec.brandCriterion.
    destruct (Num.truthyS (Campaign.brand campaign)) as [b|]; [|reflexivity].
    destruct (String.eqb b "general"); [reflexivity|].
    destruct (eqOptString b (Purchase.merchant purchase)); reflexivity. }
  rewrite Hd, Hm, Hc, Hg, Hb.
  generalize (holds (CampaignMatchSpec.dateCriterion purchase campaign)).
  generalize (holds (CampaignMatchSpec.minAmountCriterion purchase campaign)).
  generalize (holds (CampaignMatchSpec.channelCriterion purchase campaign)).
  generalize (holds (CampaignMatchSpec.categoryCriterion purchase campaign)).
  generalize (holds (CampaignMatchSpec.brandCriterion purchase campaign)).
  generalize (Num.truthyB (Campaign.requiresEnrollment campaign)).
  generalize (Num.truthyB (Campaign.enrolled campaign)).
  generalize (Num.truthyB (Campaign.requiresCode campaign)).
  generalize (Num.truthyB (Campaign.codeProvided campaign)).
  intros [] [] [] [] [] [] [] [] []; reflexivity.
Qed.

Lemma forallb_filter_length (l : list bool) :
  forallb id l = true <-> length (List.filter id l) = length l.
Proof.
  induction l as [|b l IH]; [simpl; tauto|].
  pose proof (List.filter_length_le id l) as Hle.
  destruct b; cbn [forallb List.filter id andb length].
  - rewrite IH. lia.
  - split; [discriminate | lia].
Qed.

Lemma fullMatch_counts purchase campaign :
  fullMatch purchase campaign = true
  <-> CampaignMatchSpec.matchedCount purchase campaign
      = CampaignMatchSpec.totalCriteria purchase campaign.
Proof.
  unfold fullMatch, CampaignMatchSpec.matchedCount, CampaignMatchSpec.totalCriteria.
  rewrite forallb_filter_length. lia.
Qed.

(** The score of one campaign is 0, or at least 0.3 and at most 1; it is
    1 exactly when every criterion of the campaign is matched. *)
Lemma score_floor purchase campaign :
  (score (evaluateCampaignMatch purchase campaign) == 0
   \/ 0.3 <= score (evaluateCampaignMatch purchase campaign) <= 1)
  /\ (score (evaluateCampaignMatch purchase campaign) == 1
      <-> fullMatch purchase campaign = true).
Proof.
  rewrite fullMatch_counts.
  pose proof (matched_le_total purchase campaign) as Hmt.
  destruct (evaluateCampaignMatch_cases purchase campaign) as (H1 & H2 & H3).
  set (t := CampaignMatchSpec.totalCriteria purchase campaign) in *.
  set (m := CampaignMatchSpec.matchedCount purchase campaign) in *.
  destruct (Z.eq_dec m t) as [Em|Em].
  { assert (Hs := H1 (or_intror Em)).
    split; [right; lra | split; intros; assumption]. }
  destruct (Z.eq_dec m 0%Z) as [Ez|Ez].
  { assert (Hs : score (evaluateCampaignMatch purchase campaign) == 0)
      by (apply H3; lia).
    split; [left; exact Hs|]. split; [lra | contradiction]. }
  assert (Hs : score (evaluateCampaignMatch purchase campaign)
               == Qmax 0.3 (inject_Z m / inject_Z t)) by (apply H2; lia).
  pose proof (ratio_below_one m t ltac:(lia)) as Hr.
  revert Hs Hr. generalize (inject_Z m / inject_Z t).
  generalize (score (evaluateCampaignMatch purchase campaign)). intros sc r Hs Hr.
  split; [right|split; [|contradiction]]; minmax; lra.
Qed.

(** X16.  The two matchers agree on full matches: [isCampaignApplicable]
    of [value.ts] accepts a campaign exactly when [evaluateCampaignMatch]
    of [campaignMatch.ts] gives it the score 1 and the enrollment and the
    code that the campaign asks for are there. *)
Theorem isCampaignApplicable_full_match purchase campaign :
  Value.isCampaignApplicable purchase campaign = true
  <-> score (evaluateCampaignMatch purchase campaign) == 1
      /\ requirementsMet campaign = true.
Proof.
  rewrite isCampaignApplicable_criteria, andb_true_iff.
  destruct (score_floor purchase campaign) as [_ H]. rewrite H. tauto.
Qed.

Lemma step_flags purchase st campaign :
  allEnrollmentsSatisfied (step purchase st campaign)
  = allEnrollmentsSatisfied st && negb (lacksEnrollment purchase campaign)
  /\ allCodesSatisfied (step purchase st campaign)
     = allCodesSatisfied st && negb (lacksCode purchase campaign)
  /\ hasEnrollmentRequirement (step purchase st campaign)
     = hasEnrollmentRequirement st
       || (applies purchase campaign && Num.truthyB (Campaign.requiresEnrollment campaign))
  /\ hasCodeRequirement (step purchase st campaign)
     = hasCodeRequirement st
       || (applies purchase campaign && Num.truthyB (Campaign.requiresCode campaign)).
Proof.
  unfold step, lacksEnrollment, lacksCode, applies.
  destruct (matches (evaluateCampaignMatch purchase campaign)).
  - destruct (Num.truthyB (Campaign.requiresEnrollment campaign));
      destruct (Num.truthyB (Campaign.enrolled campaign));
      destruct (Num.truthyB (Campaign.requiresCode campaign));
      destruct (Num.truthyB (Campaign.codeProvided campaign));
      cbn [negb andb orb];
      repeat match goal with
      | |- context [aggregate ?c ?x] => destruct (aggregate c x)
      end;
      cbn [allEnrollmentsSatisfied allCodesSatisfied hasEnrollmentRequirement
             hasCodeRequirement];
      rewrite ?andb_true_r, ?andb_false_r, ?orb_true_r, ?orb_false_r; auto.
  - cbn [allEnrollmentsSatisfied allCodesSatisfied hasEnrollmentRequirement
           hasCodeRequirement andb negb].
    rewrite !andb_true_r, !orb_false_r. auto.
Qed.

Lemma fold_step_flags purchase campaigns st :
  allEnrollmentsSatisfied (fold_left (step purchase) campaigns st)
  = allEnrollmentsSatisfied st && negb (existsb (lacksEnrollment purchase) campaigns)
  /\ allCodesSatisfied (fold_left (step purchase) campaigns st)
     = allCodesSatisfied st && negb (existsb (lacksCode purchase) campaigns).
Proof.
  revert st. induction campaigns as [|k ks IH]; intros st.
  - cbn. rewrite !andb_true_r. auto.
  - cbn [fold_left existsb]. destruct (IH (step purchase st k)) as [-> ->].
    destruct (step_flags purchase st k) as (-> & -> & _).
    rewrite !negb_orb, !andb_assoc. auto.
Qed.

Lemma fold_step_has purchase campaigns st :
  (allEnrollmentsSatisfied st = false -> hasEnrollmentRequirement st = true) ->
  (allCodesSatisfied st = false -> hasCodeRequirement st = true) ->
  (allEnrollmentsSatisfied (fold_left (step purchase) campaigns st) = false ->
   hasEnrollmentRequirement (fold_left (step purchase) campaigns st) = true)
  /\ (allCodesSatisfied (fold_left (step purchase) campaigns st) = false ->
      hasCodeRequirement (fold_left (step purchase) campaigns st) = true).
Proof.
  revert st. induction campaigns as [|k ks IH]; intros st He Hc; [auto|].
  cbn [fold_left]. apply IH.
  - destruct (step_flags purchase st k) as (-> & _ & -> & _).
    unfold lacksEnrollment.
    destruct (allEnrollmentsSatisfied st); destruct (hasEnrollmentRequirement st);
      destruct (applies purchase k);
      destruct (Num.truthyB (Campaign.requiresEnrollment k));
      destruct (Num.truthyB (Campaign.enrolled k)); cbn; auto.
  - destruct (step_flags purchase st k) as (_ & -> & _ & ->).
    unfold lacksCode.
    destruct (allCodesSatisfied st); destruct (hasCodeRequirement st);
      destruct (applies purchase k);
      destruct (Num.truthyB (Campaign.requiresCode k));
      destruct (Num.truthyB (Campaign.codeProvided k)); cbn; auto.
Qed.

(** X17.  [requirementsOk.enrollmentOk] is false exactly when some
    campaign that applies asks for an enrollment that is missing, and
    [requirementsOk.codeOk] is false exactly when some campaign that
    applies asks for a promo code that is missing; campaigns that do not
    apply have no say. *)
Theorem evaluateCampaigns_requirementsOk purchase card campaigns :
  enrollmentOk (requirementsOk (evaluateCampaigns purchase card campaigns))
  = negb (existsb (lacksEnrollment purchase) campaigns)
  /\ codeOk (requirementsOk (evaluateCampaigns purchase card campaigns))
     = negb (existsb (lacksCode purchase) campaigns).
Proof.
  unfold evaluateCampaigns. cbn [requirementsOk enrollmentOk codeOk].
  destruct (fold_step_flags purchase campaigns initialAcc) as [He Hc].
  destruct (fold_step_has purchase campaigns initialAcc) as [He' Hc'];
    [discriminate | discriminate |].
  revert He Hc He' Hc'.
  generalize (fold_left (step purchase) campaigns initialAcc). intros st.
  cbn [initialAcc allEnrollmentsSatisfied allCodesSatisfied andb].
  intros <- <-.
  destruct (allEnrollmentsSatisfied st); destruct (allCodesSatisfied st);
    intros He' Hc'; rewrite ?He', ?Hc', ?orb_true_r by reflexivity; auto.
Qed.





Lemma truthy_default (o : option Q) : default 0 o == default 0 (Num.truthyQ o).
Proof.
  destruct o as [x|]; [|reflexivity]. unfold Num.truthyQ.
  destruct (Qeq_bool x 0) eqn:E; [|reflexivity].
  apply Qeq_bool_eq in E. exact E.
Qed.

Lemma fold_right_Qmax_init a b l :
  fold_right Qmax (Qmax a b) l == Qmax b (fold_right Qmax a l).
Proof.
  induction l as [|x l IH]; cbn [fold_right].
  - apply Q.max_comm.
  - revert IH. generalize (fold_right Qmax (Qmax a b) l).
    generalize (fold_right Qmax a l). intros u v IH. minmax; lra.
Qed.

Lemma fold_right_Qmax_comp a b l :
  a == b -> fold_right Qmax a l == fold_right Qmax b l.
Proof.
  intros H. induction l as [|x l IH]; cbn [fold_right]; [exact H|].
  revert IH. generalize (fold_right Qmax a l). generalize (fold_right Qmax b l).
  intros u v IH. minmax; lra.
Qed.

(** What [aggregate] does to the three amounts of the effective
    benefits: the two rates are added, the flat discount is the larger
    one. *)
Lemma aggregate_benefits campaign e n :
  extraCashbackPercent (fst (aggregate campaign (e, n)))
  == extraCashbackPercent e + default 0 (Campaign.extraCashbackPercent campaign)
  /\ extraPointRate (fst (aggregate campaign (e, n)))
     == extraPointRate e + default 0 (Campaign.extraPointRate campaign)
  /\ (0 <= flatDiscount e ->
      flatDiscount (fst (aggregate campaign (e, n)))
      == Qmax (flatDiscount e) (default 0 (Campaign.flatDiscount campaign))).
Proof.
  rewrite (truthy_default (Campaign.extraCashbackPercent campaign)).
  rewrite (truthy_default (Campaign.extraPointRate campaign)).
  rewrite (truthy_default (Campaign.flatDiscount campaign)).
  unfold aggregate.
  destruct (Num.truthyQ (Campaign.extraCashbackPercent campaign)) as [pct|];
    destruct (Num.truthyQ (Campaign.extraPointRate campaign)) as [rate|];
    (destruct (Num.truthyQ (Campaign.flatDiscount campaign)) as [discount|];
     [cbn [flatDiscount]; destruct (discount >? flatDiscount e) eqn:E|]);
    destruct (Num.truthyZ (Campaign.maxInstallments campaign));
    destruct (Num.truthyZ (Campaign.interestFreeMonths campaign));
    cbn [fst extraCashbackPercent extraPointRate flatDiscount default from_option id];
    numb; (split; [ring|split; [ring|]]); intros H0; minmax; lra.
Qed.

Lemma step_effective purchase st campaign :
  exists n,
    accEffective (step purchase st campaign)
    = if counted purchase campaign
      then fst (aggregate campaign (accEffective st, n))
      else accEffective st.
Proof.
  unfold step, counted, applies, requirementsMet.
  destruct (matches (evaluateCampaignMatch purchase campaign)); [|exists []; reflexivity].
  destruct (Num.truthyB (Campaign.requiresEnrollment campaign));
    destruct (Num.truthyB (Campaign.enrolled campaign));
    destruct (Num.truthyB (Campaign.requiresCode campaign));
    destruct (Num.truthyB (Campaign.codeProvided campaign));
    cbn [negb andb orb];
    try (exists []; reflexivity);
    match goal with
    | |- context [aggregate ?c (?e, ?n)] =>
        exists n; destruct (aggregate c (e, n)); reflexivity
    end.
Qed.

Lemma fold_step_effective purchase campaigns st :
  0 <= flatDiscount (accEffective st) ->
  extraCashbackPercent (accEffective (fold_left (step purchase) campaigns st))
  == extraCashbackPercent (accEffective st)
     + fold_right Qplus 0
         (List.map (fun k => default 0 (Campaign.extraCashbackPercent k))
            (List.filter (counted purchase) campaigns))
  /\ extraPointRate (accEffective (fold_left (step purchase) campaigns st))
     == extraPointRate (accEffective st)
        + fold_right Qplus 0
            (List.map (fun k => default 0 (Campaign.extraPointRate k))
               (List.filter (counted purchase) campaigns))
  /\ flatDiscount (accEffective (fold_left (step purchase) campaigns st))
     == fold_right Qmax (flatDiscount (accEffective st))
          (List.map (fun k => default 0 (Campaign.flatDiscount k))
             (List.filter (counted purchase) campaigns)).
Proof.
  revert st. induction campaigns as [|k ks IH]; intros st H0.
  - cbn. repeat split; ring.
  - cbn [fold_left List.filter].
    destruct (step_effective purchase st k) as (n & E).
    destruct (aggregate_benefits k (accEffective st) n) as (Hc & Hp & Hf).
    specialize (Hf H0).
    destruct (counted purchase k).
    + assert (H0' : 0 <= flatDiscount (accEffective (step purchase st k))).
      { rewrite E, Hf. minmax; lra. }
      destruct (IH _ H0') as (IHc & IHp & IHf).
      rewrite IHc, IHp, IHf, E. cbn [List.map fold_right].
      split; [rewrite Hc; ring|]. split; [rewrite Hp; ring|].
      rewrite (fold_right_Qmax_comp _ _ _ Hf). apply fold_right_Qmax_init.
    + assert (H0' : 0 <= flatDiscount (accEffective (step purchase st k)))
        by (rewrite E; exact H0).
      destruct (IH _ H0') as (IHc & IHp & IHf).
      rewrite IHc, IHp, IHf, E. repeat split; reflexivity.
Qed.

(** X19.  The effective benefits that [evaluateCampaigns] returns are
    taken over the campaigns that apply and whose requirements are met:
    the extra cashback and the extra point rate are the sums of theirs,
    the flat discount is the largest of theirs and not their sum. *)
Theorem evaluateCampaigns_effective purchase card campaigns :
  extraCashbackPercent (effective (evaluateCampaigns purchase card campaigns))
  == fold_right Qplus 0
       (List.map (fun k => default 0 (Campaign.extraCashbackPercent k))
          (List.filter (counted purchase) campaigns))
  /\ extraPointRate (effective (evaluateCampaigns purchase card campaigns))
     == fold_right Qplus 0
          (List.map (fun k => default 0 (Campaign.extraPointRate k))
             (List.filter (counted purchase) campaigns))
  /\ flatDiscount (effective (evaluateCampaigns purchase card campaigns))
     == fold_right Qmax 0
          (List.map (fun k => default 0 (Campaign.flatDiscount k))
             (List.filter (counted purchase) campaigns)).
Proof.
  unfold evaluateCampaigns. cbn [effective].
  assert (H0 : 0 <= flatDiscount (accEffective initialAcc)) by (cbn; lra).
  destruct (fold_step_effective purchase campaigns initialAcc H0) as (Hc & Hp & Hf).
  cbn [initialAcc accEffective extraCashbackPercent extraPointRate flatDiscount]
    in Hc, Hp, Hf.
  rewrite Hc, Hp, Hf. repeat split; ring.
Qed.

End CampaignProperties.

(** ** Net value *)

Section ValueProperties.
Import Value CampaignNotions.

Lemma filter_idempotent {A} (f : A -> bool) (l : list A) :
  List.filter f (List.filter f l) = List.filter f l.
Proof.
  induction l as [|x l IH]; [reflexivity|].
  cbn [List.filter]. destruct (f x) eqn:E; [|exact IH].
  cbn [List.filter]. rewrite E, IH. reflexivity.
Qed.

(** X20.  [computeValueTL] only looks at the campaigns that
    [isCampaignApplicable] accepts: the campaigns whose criteria are not
    all matched, or whose enrollment or code is missing, change neither
    the amounts nor the notes of the result. *)
Theorem computeValueTL_applicable_only purchase card campaigns :
  computeValueTL purchase card campaigns
  = computeValueTL purchase card
      (List.filter (fun k => fullMatch purchase k && requirementsMet k) campaigns).
Proof.
  assert (E : List.filter (fun k => fullMatch purchase k && requirementsMet k) campaigns
              = List.filter (isCampaignApplicable purchase) campaigns).
  { apply List.filter_ext. intros k. symmetry. apply isCampaignApplicable_criteria. }
  rewrite E. unfold computeValueTL. rewrite filter_idempotent. reflexivity.
Qed.

(** The shape of the result: the reward and the cost before rounding. *)
Lemma computeValueTL_shape purchase card campaigns :
  exists rewards,
    rewardTL (computeValueTL purchase card campaigns) = Money.round2 rewards
    /\ costTL (computeValueTL purchase card campaigns)
       = Money.round2
           (Qmax 0 (Purchase.amount purchase * default 0 (Purchase.posFeePercent purchase)))
    /\ netValueTL (computeValueTL purchase card campaigns)
       = Money.round2
           (rewards
            - Qmax 0 (Purchase.amount purchase
                      * default 0 (Purchase.posFeePercent purchase))).
Proof.
  unfold computeValueTL.
  generalize (List.filter (isCampaignApplicable purchase) campaigns). intros applicable.
  generalize (Purchase.amount purchase * default 0 (Purchase.posFeePercent purchase)).
  intros posFee.
  destruct (Purchase.amount purchase * Card.cashbackPercent card >? 0);
    destruct (Purchase.amount purchase * Card.pointRate card * Card.pointValue card >? 0);
    match goal with
    | |- context [accumulateBenefits ?p ?c ?l ?st] =>
        destruct (accumulateBenefits p c l st) as [total notes3]
    end;
    (destruct (total >? 0);
     [destruct (findMinCap applicable) as [m|]; [destruct (total >? m)|]|]);
    destruct (posFee >? 0) eqn:E; numb;
    cbn [rewardTL costTL netValueTL];
    eexists; (split; [reflexivity|]);
    split; apply round2_comp; minmax; lra.
Qed.

(** X21.  The cost of a purchase is the POS commission, rounded, and
    never negative; the net value is the reward less the commission,
    rounded, so it never exceeds the reward and equals it when there is
    no commission. *)
Theorem computeValueTL_net purchase card campaigns :
  costTL (computeValueTL purchase card campaigns)
  = Money.round2
      (Qmax 0 (Purchase.amount purchase * default 0 (Purchase.posFeePercent purchase)))
  /\ 0 <= costTL (computeValueTL purchase card campaigns)
  /\ netValueTL (computeValueTL purchase card campaigns)
     <= rewardTL (computeValueTL purchase card campaigns)
  /\ (Purchase.amount purchase * default 0 (Purchase.posFeePercent purchase) <= 0 ->
      netValueTL (computeValueTL purchase card campaigns)
      = rewardTL (computeValueTL purchase card campaigns)).
Proof.
  destruct (computeValueTL_shape purchase card campaigns) as (rewards & -> & -> & ->).
  generalize (Purchase.amount purchase * default 0 (Purchase.posFeePercent purchase)).
  intros posFee.
  split; [reflexivity|]. split; [|split].
  - apply Qle_trans with (Money.round2 0); [vm_compute; discriminate|].
    apply round2_monotone. minmax; lra.
  - apply round2_monotone. minmax; lra.
  - intros H. apply round2_comp. minmax; lra.
Qed.

End ValueProperties.

(** ** The risk of a card that covers the purchase *)

Section RiskProperties.
Import RiskPenalty RiskSpec.

Lemma total_steps due params :
  fst (requirementStep params
         (installmentStep params
            (dueDateStep due (utilizationStep params (limitStep params (0, []))))))
  == total due params.
Proof.
  rewrite requirementStep_adds, installmentStep_adds, dueDateStep_adds,
    utilizationStep_adds, limitStep_adds.
  unfold total, contributions. cbn [fold_right fst]. ring.
Qed.

Lemma contributions_bounds due params :
  0 <= limitContribution params <= 0.6
  /\ 0 <= utilizationContribution params <= 0.15
  /\ 0 <= dueDateContribution due <= 0.1
  /\ 0 <= installmentContribution params <= 0.2
  /\ 0 <= enrollmentContribution params <= 0.15
  /\ 0 <= codeContribution params <= 0.15.
Proof.
  unfold limitContribution, utilizationContribution, dueDateContribution,
    installmentContribution, enrollmentContribution, codeContribution.
  repeat split;
    repeat match goal with
    | |- context [if ?b then _ else _] => destruct b
    | |- context [match ?x with _ => _ end] => destruct x
    end; lra.
Qed.

(** No step of the penalty writes the note of the cap. *)
Lemma add_uncapped amount note st :
  (forall pct, note <> NPenaltyCapped pct) ->
  Forall (fun n => forall pct, n <> NPenaltyCapped pct) (snd st) ->
  Forall (fun n => forall pct, n <> NPenaltyCapped pct) (snd (add amount note st)).
Proof.
  intros Hn Hst. unfold add. cbn [snd]. apply Forall_app. split; [exact Hst|].
  apply Forall_cons. split; [exact Hn | apply Forall_nil_2].
Qed.

Lemma steps_uncapped due params :
  Forall (fun n => forall pct, n <> NPenaltyCapped pct)
    (snd (requirementStep params
            (installmentStep params
               (dueDateStep due (utilizationStep params (limitStep params (0, []))))))).
Proof.
  assert (H0 : Forall (fun n => forall pct, n <> NPenaltyCapped pct)
                 (snd ((0, []) : State))) by apply Forall_nil_2.
  revert H0. generalize ((0, []) : State). intros st0 H0.
  assert (H1 : Forall (fun n => forall pct, n <> NPenaltyCapped pct)
                 (snd (limitStep params st0))).
  { unfold limitStep. destruct (_ <? _); [apply add_uncapped|]; auto; discriminate. }
  revert H1. generalize (limitStep params st0). clear st0 H0. intros st1 H1.
  assert (H2 : Forall (fun n => forall pct, n <> NPenaltyCapped pct)
                 (snd (utilizationStep params st1))).
  { unfold utilizationStep.
    repeat match goal with
    | |- context [if ?b then _ else _] => destruct b
    end; try apply add_uncapped; auto; discriminate. }
  revert H2. generalize (utilizationStep params st1). clear st1 H1. intros st2 H2.
  assert (H3 : Forall (fun n => forall pct, n <> NPenaltyCapped pct)
                 (snd (dueDateStep due st2))).
  { unfold dueDateStep. destruct due as [days|].
    - destruct (days <=? 3)%Z; [apply add_uncapped|]; auto; discriminate.
    - cbn [snd]. apply Forall_app. split; [exact H2|].
      apply Forall_cons. split; [discriminate | apply Forall_nil_2]. }
  revert H3. generalize (dueDateStep due st2). clear st2 H2. intros st3 H3.
  assert (H4 : Forall (fun n => forall pct, n <> NPenaltyCapped pct)
                 (snd (installmentStep params st3))).
  { unfold installmentStep. destruct (_ <? _)%Z; [apply add_uncapped|]; auto; discriminate. }
  revert H4. generalize (installmentStep params st3). clear st3 H3. intros st4 H4.
  unfold requirementStep. destruct (requiredFlags params) as [flags|]; [|exact H4].
  destruct (isFalse (enrollmentOk flags)); destruct (isFalse (codeOk flags));
    repeat apply add_uncapped; auto; discriminate.
Qed.

Lemma penalty_covered params :
  Purchase.amount (purchase params) <= Card.availableLimit (card params) ->
  penalty (computeRiskPenalty params)
  == total (daysUntilNextDue (purchase params) (card params)) params
  /\ 0 <= penalty (computeRiskPenalty params) <= 0.75
  /\ (forall pct, NPenaltyCapped pct ∉ notes (computeRiskPenalty params)).
Proof.
  intros Hfits. unfold computeRiskPenalty.
  generalize (daysUntilNextDue (purchase params) (card params)). intros due.
  unfold computeRiskPenaltyWith. cbn [penalty notes].
  pose proof (total_steps due params) as Ht.
  pose proof (steps_uncapped due params) as Hn.
  revert Ht Hn.
  generalize (requirementStep params
                (installmentStep params
                   (dueDateStep due (utilizationStep params (limitStep params (0, [])))))).
  intros st Ht Hn.
  assert (Hb : 0 <= total due params <= 0.75).
  { destruct (contributions_bounds due params) as (Hl & Hu & Hd & Hi & He & Hc).
    assert (El : limitContribution params == 0).
    { unfold limitContribution. apply ltb_false in Hfits. rewrite Hfits. reflexivity. }
    unfold total, contributions. cbn [fold_right]. lra. }
  assert (Hp : Money.clamp01 (fst st) == total due params).
  { rewrite <- Ht. apply clamp01_id. rewrite Ht. lra. }
  split; [exact Hp|]. split; [rewrite Hp; exact Hb|].
  assert (E : (fst st >? 1) = false) by (apply gtb_false; rewrite Ht; lra).
  rewrite E. intros pct Hin.
  rewrite Forall_forall in Hn. exact (Hn _ Hin pct eq_refl).
Qed.

(** X22.  For a card whose available limit covers the amount the penalty
    is the plain sum of the contributions, at most 0.75: the clamp to 1
    does not act and the note of the cap is not written. *)
Theorem computeRiskPenalty_covered params :
  Purchase.amount (purchase params) <= Card.availableLimit (card params) ->
  penalty (computeRiskPenalty params)
  == total (daysUntilNextDue (purchase params) (card params)) params
  /\ 0 <= penalty (computeRiskPenalty params) <= 0.75
  /\ (forall pct, NPenaltyCapped pct ∉ notes (computeRiskPenalty params)).
Proof. apply penalty_covered. Qed.

Lemma computeRiskPenalty_covered_witness :
  Purchase.amount (purchase (mkParams Scenario.card Scenario.purchase 3 None))
  <= Card.availableLimit (card (mkParams Scenario.card Scenario.purchase 3 None))
  /\ penalty (computeRiskPenalty (mkParams Scenario.card Scenario.purchase 3 None))
     == total (daysUntilNextDue
                 (purchase (mkParams Scenario.card Scenario.purchase 3 None))
                 (card (mkParams Scenario.card Scenario.purchase 3 None)))
          (mkParams Scenario.card Scenario.purchase 3 None)
  /\ 0 <= penalty (computeRiskPenalty (mkParams Scenario.card Scenario.purchase 3 None))
     <= 0.75
  /\ (forall pct,
        NPenaltyCapped pct
        ∉ notes (computeRiskPenalty (mkParams Scenario.card Scenario.purchase 3 None))).
Proof.
  assert (H : Purchase.amount (purchase (mkParams Scenario.card Scenario.purchase 3 None))
              <= Card.availableLimit
                   (card (mkParams Scenario.card Scenario.purchase 3 None)))
    by (vm_compute; discriminate).
  split; [exact H|].
  apply (computeRiskPenalty_covered (mkParams Scenario.card Scenario.purchase 3 None) H).
Defined.

End RiskProperties.

(** ** The ranking *)

Section ScoreProperties.
Import Score.

Lemma cashflowScore_range plan : 0 <= Cashflow.cashflowScore plan <= 1.
Proof.
  unfold Cashflow.cashflowScore.
  destruct (Z.of_nat (length plan) =? 0)%Z; [lra|].
  destruct (Cashflow.weightedTotals plan) as [totalDays totalWeight].
  apply clamp01_range.
Qed.

Lemma matchScore_range purchase card campaigns :
  0 <= CampaignMatch.matchScore (CampaignMatch.evaluateCampaigns purchase card campaigns) <= 1.
Proof.
  unfold CampaignMatch.evaluateCampaigns. cbn [CampaignMatch.matchScore].
  destruct (_ >? 0)%Z; [apply clamp01_range | lra].
Qed.

(** The fields of the record that phase 1 builds for a card. *)
Lemma evaluateCard_fields purchase options card data :
  evaluateCard purchase options card = Some data ->
  let campaigns := campaignsFor options card in
  let compatibility := Compatibility.checkCompatibility purchase card campaigns in
  let campaignEval := CampaignMatch.evaluateCampaigns purchase card campaigns in
  Purchase.amount purchase <= Card.availableLimit card
  /\ dCard data = card
  /\ dNetValueTL data = Value.netValueTL (Value.computeValueTL purchase card campaigns)
  /\ dValueScore data = 0
  /\ dCashflowScore data
     = Cashflow.cashflowScore
         (Cashflow.buildInstallmentPlan (Purchase.date purchase)
            (Compatibility.adjustedInstallments compatibility)
            (Card.statementDay card) (Card.dueDay card))
  /\ dRiskPenalty data
     = RiskPenalty.penalty
         (RiskPenalty.computeRiskPenalty
            (RiskPenalty.mkParams card purchase
               (Compatibility.adjustedInstallments compatibility)
               (Some (RiskPenalty.mkRequiredFlags
                        (Some (CampaignMatch.enrollmentOk
                                 (CampaignMatch.requirementsOk campaignEval)))
                        (Some (CampaignMatch.codeOk
                                 (CampaignMatch.requirementsOk campaignEval)))))))
  /\ dUsabilityScore data = Compatibility.usabilityScore compatibility
  /\ dCampaignMatchScore data = CampaignMatch.matchScore campaignEval
  /\ dAdjustedInstallments data = Compatibility.adjustedInstallments compatibility.
Proof.
  intros E campaigns compatibility campaignEval.
  assert (Hfits : Purchase.amount purchase <= Card.availableLimit card).
  { destruct (checkCompatibility_cases purchase card (campaignsFor options card))
      as [(_ & Hc & _)|(H & _)]; [|exact H].
    unfold evaluateCard in E. rewrite Hc in E. discriminate. }
  split; [exact Hfits|].
  unfold evaluateCard in E.
  destruct (Compatibility.compatible
              (Compatibility.checkCompatibility purchase card (campaignsFor options card)));
    cbn [negb] in E; [|discriminate].
  apply (inj Some) in E. subst data.
  cbn [dCard dNetValueTL dValueScore dCashflowScore dRiskPenalty dUsabilityScore
         dCampaignMatchScore dAdjustedInstallments].
  repeat split; reflexivity.
Qed.

Lemma evaluateCard_ranges purchase options card data :
  evaluateCard purchase options card = Some data ->
  0 <= dCashflowScore data <= 1
  /\ 0 <= dRiskPenalty data <= 0.75
  /\ 0.4 <= dUsabilityScore data <= 1
  /\ 0 <= dCampaignMatchScore data <= 1.
Proof.
  intros E. destruct (evaluateCard_fields _ _ _ _ E)
    as (Hfits & _ & _ & _ & -> & -> & -> & -> & _).
  split; [apply cashflowScore_range|]. split; [|split; [|apply matchScore_range]].
  - match goal with
    | |- context [RiskPenalty.computeRiskPenalty ?params] =>
        destruct (penalty_covered params Hfits) as (_ & H & _); exact H
    end.
  - rewrite (usabilityScore_table purchase card (campaignsFor options card) Hfits).
    destruct (_ >? _)%Z; [lra|]. destruct (_ >? 0.9); lra.
Qed.

Lemma fold_left_Qmin_spec vs v :
  fold_left Qmin vs v <= v
  /\ (forall x, List.In x vs -> fold_left Qmin vs v <= x)
  /\ (fold_left Qmin vs v == v \/ exists x, List.In x vs /\ fold_left Qmin vs v == x).
Proof.
  revert v. induction vs as [|y vs IH]; intros v; cbn [fold_left].
  - split; [lra|]. split; [intros x []|]. left. reflexivity.
  - destruct (IH (Qmin v y)) as (H1 & H2 & H3).
    assert (Hv : Qmin v y <= v) by apply Q.le_min_l.
    assert (Hy : Qmin v y <= y) by apply Q.le_min_r.
    split; [lra|]. split.
    + intros x [<-|Hx]; [lra | apply H2, Hx].
    + destruct H3 as [H3|(x & Hx & H3)].
      * destruct (Q.min_spec v y) as [[_ E]|[_ E]].
        -- left. rewrite H3. exact E.
        -- right. exists y. split; [left; reflexivity | rewrite H3; exact E].
      * right. exists x. split; [right; exact Hx | exact H3].
Qed.

Lemma fold_left_Qmax_spec vs v :
  v <= fold_left Qmax vs v
  /\ (forall x, List.In x vs -> x <= fold_left Qmax vs v)
  /\ (fold_left Qmax vs v == v \/ exists x, List.In x vs /\ fold_left Qmax vs v == x).
Proof.
  revert v. induction vs as [|y vs IH]; intros v; cbn [fold_left].
  - split; [lra|]. split; [intros x []|]. left. reflexivity.
  - destruct (IH (Qmax v y)) as (H1 & H2 & H3).
    assert (Hv : v <= Qmax v y) by apply Q.le_max_l.
    assert (Hy : y <= Qmax v y) by apply Q.le_max_r.
    split; [lra|]. split.
    + intros x [<-|Hx]; [lra | apply H2, Hx].
    + destruct H3 as [H3|(x & Hx & H3)].
      * destruct (Q.max_spec v y) as [[_ E]|[_ E]].
        -- right. exists y. split; [left; reflexivity | rewrite H3; exact E].
        -- left. rewrite H3. exact E.
      * right. exists x. split; [right; exact Hx | exact H3].
Qed.

(** The four phases of [scoreCards]: the weights, and the bounds of the
    normalisation, which are the smallest and the largest net value of
    the cards that are scored. *)
Lemma scoreCards_phases purchase cards options :
  exists minValue maxValue,
    scoreCards purchase cards options
    = arraySort compareScored
        (List.map
           (toScoredCard
              (mergeWeights (default (mkPartialWeights None None None None None)
                               (weights options))))
           (List.map (normalize minValue maxValue)
              (omap (evaluateCard purchase options) cards)))
    /\ (forall d, List.In d (omap (evaluateCard purchase options) cards) ->
        minValue <= dNetValueTL d <= maxValue)
    /\ (forall d, List.In d (omap (evaluateCard purchase options) cards) ->
        (exists d', List.In d' (omap (evaluateCard purchase options) cards)
                    /\ dNetValueTL d' == minValue)
        /\ (exists d', List.In d' (omap (evaluateCard purchase options) cards)
                       /\ dNetValueTL d' == maxValue)).
Proof.
  unfold scoreCards.
  destruct (omap (evaluateCard purchase options) cards) as [|d0 ds].
  - exists 0, 0. split; [reflexivity|]. split; intros d [].
  - cbn [List.map].
    set (vs := List.map dNetValueTL ds).
    destruct (fold_left_Qmin_spec vs (dNetValueTL d0)) as (Hn1 & Hn2 & Hn3).
    destruct (fold_left_Qmax_spec vs (dNetValueTL d0)) as (Hx1 & Hx2 & Hx3).
    exists (fold_left Qmin vs (dNetValueTL d0)), (fold_left Qmax vs (dNetValueTL d0)).
    split; [reflexivity|].
    assert (Hvs : forall d, List.In d ds -> List.In (dNetValueTL d) vs)
      by (intros d Hd; apply List.in_map; exact Hd).
    split.
    + intros d [E0|Hd]; [subst d; split; assumption|].
      split; [apply Hn2 | apply Hx2]; apply Hvs, Hd.
    + intros d _. split.
      * destruct Hn3 as [E|(x & Hx & E)].
        -- exists d0. split; [left; reflexivity | symmetry; exact E].
        -- apply List.in_map_iff in Hx. destruct Hx as (d' & <- & Hd').
           exists d'. split; [right; exact Hd' | symmetry; exact E].
      * destruct Hx3 as [E|(x & Hx & E)].
        -- exists d0. split; [left; reflexivity | symmetry; exact E].
        -- apply List.in_map_iff in Hx. destruct Hx as (d' & <- & Hd').
           exists d'. split; [right; exact Hd' | symmetry; exact E].
Qed.

(** An entry of the result and the record it was made from. *)
Lemma scoreCards_entry purchase cards options :
  exists minValue maxValue,
    (forall d, List.In d (omap (evaluateCard purchase options) cards) ->
     minValue <= dNetValueTL d <= maxValue)
    /\ (forall d, List.In d (omap (evaluateCard purchase options) cards) ->
        (exists d', List.In d' (omap (evaluateCard purchase options) cards)
                    /\ dNetValueTL d' == minValue)
        /\ (exists d', List.In d' (omap (evaluateCard purchase options) cards)
                       /\ dNetValueTL d' == maxValue))
    /\ (forall sc,
          sc ∈ scoreCards purchase cards options
          <-> exists d,
                List.In d (omap (evaluateCard purchase options) cards)
                /\ sc = toScoredCard
                          (mergeWeights (default (mkPartialWeights None None None None None)
                                           (weights options)))
                          (normalize minValue maxValue d)).
Proof.
  destruct (scoreCards_phases purchase cards options) as (mn & mx & E & H1 & H2).
  exists mn, mx. split; [exact H1|]. split; [exact H2|].
  intros sc. rewrite E, arraySort_elements, list_elem_of_In, List.map_map, List.in_map_iff.
  split; intros (d & Hd & Hd'); exists d; split; auto.
Qed.

Lemma evaluated_card purchase options cards d :
  List.In d (omap (evaluateCard purchase options) cards) ->
  exists card, card ∈ cards /\ evaluateCard purchase options card = Some d.
Proof. intros H. apply list_elem_of_In, list_elem_of_omap in H. exact H. Qed.

(** X23.  Every entry of the result has a total score between 0 and 100
    and breakdown scores between 0 and 1; since the card covers the
    purchase, its risk penalty is at most 0.75 and its usability score at
    least 0.4. *)
Theorem scoreCards_ranges purchase cards options :
  Forall
    (fun sc =>
       0 <= ScoredCard.totalScore sc <= 100
       /\ 0 <= valueScore (ScoredCard.breakdown sc) <= 1
       /\ 0 <= cashflowScore (ScoredCard.breakdown sc) <= 1
       /\ 0 <= riskPenalty (ScoredCard.breakdown sc) <= 0.75
       /\ 0.4 <= usabilityScore (ScoredCard.breakdown sc) <= 1
       /\ 0 <= campaignMatchScore (ScoredCard.breakdown sc) <= 1)
    (scoreCards purchase cards options).
Proof.
  apply Forall_forall. intros sc Hsc.
  destruct (scoreCards_entry purchase cards options) as (mn & mx & _ & _ & Hent).
  apply Hent in Hsc. destruct Hsc as (d & Hd & ->).
  destruct (evaluated_card _ _ _ _ Hd) as (card & _ & Hev).
  destruct (evaluateCard_ranges _ _ _ _ Hev) as (Hc & Hr & Hu & Hm).
  cbn [toScoredCard ScoredCard.totalScore ScoredCard.breakdown valueScore cashflowScore
         riskPenalty usabilityScore campaignMatchScore normalize dValueScore
         dCashflowScore dRiskPenalty dUsabilityScore dCampaignMatchScore].
  split.
  { match goal with |- context [Money.round2 ?x] => generalize (Money.round2 x) end.
    intros t. minmax; lra. }
  split; [apply clamp01_range|].
  rewrite !clamp01_id by lra. auto.
Qed.

Lemma round2_percent x : 0 <= x <= 1 -> 0 <= Money.round2 (100 * x) <= 100.
Proof.
  intros H. split.
  - apply Qle_trans with (Money.round2 0); [vm_compute; discriminate|].
    apply round2_monotone. lra.
  - apply Qle_trans with (Money.round2 100); [|vm_compute; discriminate].
    apply round2_monotone. lra.
Qed.

(** X24.  With the default weights the clamps of phase 3 do not act: the
    total score of an entry is the rounded weighted sum of the scores of
    its breakdown, with the weights 0.45, 0.25, 0.20, 0.05 and 0.05. *)
Theorem scoreCards_default_weights purchase cards options :
  weights options = None ->
  Forall
    (fun sc =>
       ScoredCard.totalScore sc
       == Money.round2
            (100 * (0.45 * valueScore (ScoredCard.breakdown sc)
                    + 0.25 * cashflowScore (ScoredCard.breakdown sc)
                    + 0.20 * (1 - riskPenalty (ScoredCard.breakdown sc))
                    + 0.05 * usabilityScore (ScoredCard.breakdown sc)
                    + 0.05 * campaignMatchScore (ScoredCard.breakdown sc))))
    (scoreCards purchase cards options).
Proof.
  intros Hw. apply Forall_forall. intros sc Hsc.
  destruct (scoreCards_entry purchase cards options) as (mn & mx & _ & _ & Hent).
  apply Hent in Hsc. destruct Hsc as (d & Hd & ->).
  destruct (evaluated_card _ _ _ _ Hd) as (card & _ & Hev).
  destruct (evaluateCard_ranges _ _ _ _ Hev) as (Hc & Hr & Hu & Hm).
  pose proof (minMaxNormalize_bounds (dNetValueTL d) mn mx) as Hv.
  rewrite Hw.
  cbn [toScoredCard ScoredCard.totalScore ScoredCard.breakdown valueScore cashflowScore
         riskPenalty usabilityScore campaignMatchScore normalize dValueScore
         dCashflowScore dRiskPenalty dUsabilityScore dCampaignMatchScore
         mergeWeights default from_option id pValue pCashflow pRisk pUsability pCampaign
         DEFAULT_WEIGHTS value cashflow risk usability campaign].
  revert Hc Hr Hu Hm Hv.
  generalize (Money.minMaxNormalize (dNetValueTL d) mn mx) (dCashflowScore d)
    (dRiskPenalty d) (dUsabilityScore d) (dCampaignMatchScore d).
  intros v c r u m Hc Hr Hu Hm Hv.
  rewrite (round2_comp
             (100 * (0.45 * Money.clamp01 v + 0.25 * Money.clamp01 c
                     + 0.20 * (1 - Money.clamp01 r) + 0.05 * Money.clamp01 u
                     + 0.05 * Money.clamp01 m))
             (100 * (0.45 * v + 0.25 * c + 0.20 * (1 - r) + 0.05 * u + 0.05 * m)))
    by (rewrite !clamp01_id by lra; reflexivity).
  assert (Hs : 0 <= 0.45 * v + 0.25 * c + 0.20 * (1 - r) + 0.05 * u + 0.05 * m <= 1)
    by lra.
  pose proof (round2_percent _ Hs) as Ht. revert Ht.
  generalize (Money.round2
                (100 * (0.45 * v + 0.25 * c + 0.20 * (1 - r) + 0.05 * u + 0.05 * m))).
  intros t Ht. minmax; lra.
Qed.

Lemma scoreCards_default_weights_witness :
  weights noOptions = None
  /\ Forall
       (fun sc =>
          ScoredCard.totalScore sc
          == Money.round2
               (100 * (0.45 * valueScore (ScoredCard.breakdown sc)
                       + 0.25 * cashflowScore (ScoredCard.breakdown sc)
                       + 0.20 * (1 - riskPenalty (ScoredCard.breakdown sc))
                       + 0.05 * usabilityScore (ScoredCard.breakdown sc)
                       + 0.05 * campaignMatchScore (ScoredCard.breakdown sc))))
       (scoreCards Scenario.purchase [Scenario.card] noOptions).
Proof.
  assert (Hw : weights noOptions = None) by reflexivity.
  split; [exact Hw|].
  apply (scoreCards_default_weights Scenario.purchase [Scenario.card] noOptions Hw).
Defined.

Lemma insertBy_length {A} (compareFn : A -> A -> Q) x l :
  length (insertBy compareFn x l) = S (length l).
Proof.
  induction l as [|y l IH]; [reflexivity|].
  cbn [insertBy]. destruct (compareFn x y <=? 0); cbn [length]; [reflexivity|].
  rewrite IH. reflexivity.
Qed.

Lemma arraySort_length {A} (compareFn : A -> A -> Q) l :
  length (arraySort compareFn l) = length l.
Proof.
  induction l as [|x l IH]; [reflexivity|].
  unfold arraySort in *. cbn [fold_right length]. rewrite insertBy_length, IH. reflexivity.
Qed.

Lemma evaluated_length purchase options cards :
  length (omap (evaluateCard purchase options) cards)
  = length (List.filter
              (fun card => negb (Card.availableLimit card <? Purchase.amount purchase))
              cards).
Proof.
  induction cards as [|card cards IH]; [reflexivity|].
  cbn [List.filter].
  assert (E : omap (evaluateCard purchase options) (card :: cards)
              = match evaluateCard purchase options card with
                | Some d => d :: omap (evaluateCard purchase options) cards
                | None => omap (evaluateCard purchase options) cards
                end) by reflexivity.
  rewrite E. clear E.
  destruct (checkCompatibility_cases purchase card (campaignsFor options card))
    as [(Hlt & Hc & _)|(Hle & Hc)].
  - apply ltb_true in Hlt. rewrite Hlt. cbn [negb].
    unfold evaluateCard at 1. rewrite Hc. cbn [negb]. exact IH.
  - apply ltb_false in Hle. rewrite Hle. cbn [negb].
    unfold evaluateCard at 1. rewrite Hc. cbn [negb length]. f_equal. exact IH.
Qed.

Lemma scoreCards_count purchase cards options :
  length (scoreCards purchase cards options)
  = length (List.filter
              (fun card => negb (Card.availableLimit card <? Purchase.amount purchase))
              cards).
Proof.
  destruct (scoreCards_phases purchase cards options) as (mn & mx & -> & _).
  rewrite arraySort_length, !length_map. apply evaluated_length.
Qed.

(** X25.  The result has exactly one entry for each card whose available
    limit covers the amount, whatever the campaigns and the weights are;
    in particular it is empty when no card does. *)
Theorem scoreCards_length purchase cards options :
  length (scoreCards purchase cards options)
  = length (List.filter
              (fun card => negb (Card.availableLimit card <? Purchase.amount purchase))
              cards).
Proof. apply scoreCards_count. Qed.

Lemma toScoredCard_value weights minValue maxValue d :
  netValueTL (ScoredCard.breakdown (toScoredCard weights (normalize minValue maxValue d)))
  = dNetValueTL d
  /\ valueScore (ScoredCard.breakdown (toScoredCard weights (normalize minValue maxValue d)))
     = Money.clamp01 (Money.minMaxNormalize (dNetValueTL d) minValue maxValue).
Proof. split; reflexivity. Qed.

Lemma normalize_cases x minValue maxValue :
  minValue <= x <= maxValue ->
  (minValue == maxValue -> Money.clamp01 (Money.minMaxNormalize x minValue maxValue) == 0.5)
  /\ (minValue < maxValue -> x == maxValue ->
      Money.clamp01 (Money.minMaxNormalize x minValue maxValue) == 1)
  /\ (minValue < maxValue -> x == minValue ->
      Money.clamp01 (Money.minMaxNormalize x minValue maxValue) == 0).
Proof.
  intros Hx. unfold Money.minMaxNormalize. split; [|split].
  - intros E. assert (Eb : Num.eqb maxValue minValue = true) by (apply eqb_true; lra).
    rewrite Eb. apply clamp01_id. lra.
  - intros Hlt E.
    assert (Eb : Num.eqb maxValue minValue = false) by (apply eqb_false; lra).
    rewrite Eb.
    assert (Eq : (x - minValue) / (maxValue - minValue) == 1) by (rewrite E; field; lra).
    rewrite (clamp01_comp _ _ (clamp01_comp _ _ Eq)). vm_compute. reflexivity.
  - intros Hlt E.
    assert (Eb : Num.eqb maxValue minValue = false) by (apply eqb_false; lra).
    rewrite Eb.
    assert (Eq : (x - minValue) / (maxValue - minValue) == 0) by (rewrite E; field; lra).
    rewrite (clamp01_comp _ _ (clamp01_comp _ _ Eq)). vm_compute. reflexivity.
Qed.

(** X26.  The value score compares the net values of the entries of the
    result with each other: an entry gets 0.5 when all net values are
    equal (so also when it is the only entry), 1 when its net value is
    the largest and 0 when it is the smallest of net values that are not
    all equal. *)
Theorem scoreCards_valueScore purchase cards options :
  Forall
    (fun sc =>
       ((forall sc', sc' ∈ scoreCards purchase cards options ->
           netValueTL (ScoredCard.breakdown sc') == netValueTL (ScoredCard.breakdown sc)) ->
        valueScore (ScoredCard.breakdown sc) == 0.5)
       /\ ((forall sc', sc' ∈ scoreCards purchase cards options ->
              netValueTL (ScoredCard.breakdown sc') <= netValueTL (ScoredCard.breakdown sc)) ->
           (exists sc', sc' ∈ scoreCards purchase cards options
                        /\ netValueTL (ScoredCard.breakdown sc')
                           < netValueTL (ScoredCard.breakdown sc)) ->
           valueScore (ScoredCard.breakdown sc) == 1)
       /\ ((forall sc', sc' ∈ scoreCards purchase cards options ->
              netValueTL (ScoredCard.breakdown sc) <= netValueTL (ScoredCard.breakdown sc')) ->
           (exists sc', sc' ∈ scoreCards purchase cards options
                        /\ netValueTL (ScoredCard.breakdown sc)
                           < netValueTL (ScoredCard.breakdown sc')) ->
           valueScore (ScoredCard.breakdown sc) == 0))
    (scoreCards purchase cards options).
Proof.
  destruct (scoreCards_entry purchase cards options) as (mn & mx & Hb & Hatt & Hent).
  apply Forall_forall. intros sc Hsc.
  apply Hent in Hsc. destruct Hsc as (d & Hd & ->).
  destruct (Hatt d Hd) as ((dmin & Hdmin & Emin) & (dmax & Hdmax & Emax)).
  set (W := mergeWeights (default (mkPartialWeights None None None None None)
                            (weights options))) in *.
  assert (Hnet : forall d', List.In d' (omap (evaluateCard purchase options) cards) ->
            toScoredCard W (normalize mn mx d') ∈ scoreCards purchase cards options)
    by (intros d' Hd'; apply Hent; exists d'; auto).
  destruct (toScoredCard_value W mn mx d) as [-> ->].
  destruct (normalize_cases (dNetValueTL d) mn mx (Hb d Hd)) as (Htie & Hbest & Hworst).
  split; [|split].
  - intros Hall. apply Htie.
    pose proof (Hall _ (Hnet dmin Hdmin)) as H1.
    pose proof (Hall _ (Hnet dmax Hdmax)) as H2.
    destruct (toScoredCard_value W mn mx dmin) as [E1 _]. rewrite E1 in H1.
    destruct (toScoredCard_value W mn mx dmax) as [E2 _]. rewrite E2 in H2.
    lra.
  - intros Hall (sc' & Hsc' & Hlt).
    pose proof (Hall _ (Hnet dmax Hdmax)) as H2.
    destruct (toScoredCard_value W mn mx dmax) as [E2 _]. rewrite E2 in H2.
    apply Hent in Hsc'. destruct Hsc' as (d' & Hd' & ->).
    destruct (toScoredCard_value W mn mx d') as [E3 _]. rewrite E3 in Hlt.
    pose proof (Hb d' Hd') as Hb'. pose proof (Hb d Hd) as Hbd.
    apply Hbest; lra.
  - intros Hall (sc' & Hsc' & Hlt).
    pose proof (Hall _ (Hnet dmin Hdmin)) as H1.
    destruct (toScoredCard_value W mn mx dmin) as [E1 _]. rewrite E1 in H1.
    apply Hent in Hsc'. destruct Hsc' as (d' & Hd' & ->).
    destruct (toScoredCard_value W mn mx d') as [E3 _]. rewrite E3 in Hlt.
    pose proof (Hb d' Hd') as Hb'. pose proof (Hb d Hd) as Hbd.
    apply Hworst; lra.
Qed.

End ScoreProperties.

(** ** The campaign wizard *)

Section WizardProperties.
Import CampaignWizard CampaignNotions.




Lemma buildCampaign_requirements state :
  requirementsMet (buildCampaign state)
  = (negb (requiresEnrollment state) || enrolled state)
    && (negb (requiresCode state) || codeProvided state).
Proof.
  unfold requirementsMet, buildCampaign.
  cbn [Campaign.requiresEnrollment Campaign.enrolled Campaign.requiresCode
         Campaign.codeProvided].
  destruct (requiresEnrollment state); destruct (enrolled state);
    destruct (requiresCode state); destruct (codeProvided state); reflexivity.
Qed.

(** X28.  A campaign that the wizard builds with the scope left as it is
    at the start (any category, channel and brand, no dates, no minimum
    amount) matches every purchase in full, and [isCampaignApplicable]
    accepts it exactly when the enrollment and the code that were ticked
    as required are ticked as there. *)
Theorem buildCampaign_unscoped state purchase :
  category state = "general"%string ->
  channel state = any ->
  brand state = "general"%string ->
  dateRangeStart state = None ->
  minAmount state = None ->
  CampaignMatch.score (CampaignMatch.evaluateCampaignMatch purchase (buildCampaign state))
  == 1
  /\ Value.isCampaignApplicable purchase (buildCampaign state)
     = (negb (requiresEnrollment state) || enrolled state)
       && (negb (requiresCode state) || codeProvided state).
Proof.
  intros Hc Hch Hb Hd Hm.
  assert (Hfull : fullMatch purchase (buildCampaign state) = true).
  { unfold fullMatch, CampaignMatchSpec.criteria, CampaignMatchSpec.dateCriterion,
      CampaignMatchSpec.channelCriterion, CampaignMatchSpec.categoryCriterion,
      CampaignMatchSpec.brandCriterion, CampaignMatchSpec.minAmountCriterion, buildCampaign.
    cbn [Campaign.dateRange Campaign.channel Campaign.category Campaign.brand
           Campaign.minAmount].
    rewrite Hc, Hch, Hb, Hd, Hm. reflexivity. }
  split.
  - apply (proj2 (score_floor purchase (buildCampaign state))). exact Hfull.
  - rewrite isCampaignApplicable_criteria, Hfull, buildCampaign_requirements. reflexivity.
Qed.

Lemma buildCampaign_unscoped_witness :
  category INITIAL_STATE = "general"%string
  /\ channel INITIAL_STATE = any
  /\ brand INITIAL_STATE = "general"%string
  /\ dateRangeStart INITIAL_STATE = None
  /\ minAmount INITIAL_STATE = None
  /\ CampaignMatch.score
       (CampaignMatch.evaluateCampaignMatch Scenario.purchase (buildCampaign INITIAL_STATE))
     == 1
  /\ Value.isCampaignApplicable Scenario.purchase (buildCampaign INITIAL_STATE)
     = (negb (requiresEnrollment INITIAL_STATE) || enrolled INITIAL_STATE)
       && (negb (requiresCode INITIAL_STATE) || codeProvided INITIAL_STATE).
Proof.
  assert (Hc : category INITIAL_STATE = "general"%string) by reflexivity.
  assert (Hch : channel INITIAL_STATE = any) by reflexivity.
  assert (Hb : brand INITIAL_STATE = "general"%string) by reflexivity.
  assert (Hd : dateRangeStart INITIAL_STATE = None) by reflexivity.
  assert (Hm : minAmount INITIAL_STATE = None) by reflexivity.
  split; [exact Hc|]. split; [exact Hch|]. split; [exact Hb|].
  split; [exact Hd|]. split; [exact Hm|].
  apply (buildCampaign_unscoped INITIAL_STATE Scenario.purchase Hc Hch Hb Hd Hm).
Defined.

End WizardProperties.

(** ** The simulation screen *)

Section SimulationProperties.
Import Score.

Lemma fold_insert_keeps (v : list Campaign.t) cards (m : gmap Z (list Campaign.t)) k :
  m !! k = Some v ->
  fold_left (fun m card => <[Card.id card := v]> m) cards m !! k = Some v.
Proof.
  revert m. induction cards as [|c cards IH]; intros m H; [exact H|].
  cbn [fold_left]. apply IH.
  destruct (decide (Card.id c = k)) as [->|Hne].
  - apply lookup_insert_eq.
  - rewrite lookup_insert_ne by exact Hne. exact H.
Qed.

Lemma fold_insert_in (v : list Campaign.t) cards (m : gmap Z (list Campaign.t)) card :
  card ∈ cards ->
  fold_left (fun m card => <[Card.id card := v]> m) cards m !! Card.id card = Some v.
Proof.
  revert m. induction cards as [|c cards IH]; intros m Hin; [inversion Hin|].
  apply elem_of_cons in Hin. cbn [fold_left]. destruct Hin as [->|Hin].
  - apply fold_insert_keeps, lookup_insert_eq.
  - apply IH, Hin.
Qed.

(** Every card of the list reads the same campaigns from the map. *)
Lemma campaignsFor_every campaignsActive currentCampaigns domainCards card :
  card ∈ domainCards ->
  campaignsFor
    (mkOptions (Some (Simulation.campaignsByCardId campaignsActive currentCampaigns domainCards)) None)
    card
  = if campaignsActive then currentCampaigns else [].
Proof.
  intros Hin. unfold campaignsFor, Simulation.campaignsByCardId.
  cbn [Score.campaignsByCardId default from_option id].
  destruct campaignsActive; cbn [andb].
  - destruct currentCampaigns as [|k ks].
    + change (Z.of_nat (length (@nil Campaign.t)) >? 0)%Z with false. cbv iota.
      rewrite lookup_empty. reflexivity.
    + assert (E : (Z.of_nat (length (k :: ks)) >? 0)%Z = true)
        by (apply Z.gtb_lt; cbn [length]; lia).
      rewrite E, (fold_insert_in (k :: ks) domainCards ∅ card Hin). reflexivity.
  - rewrite lookup_empty. reflexivity.
Qed.

Lemma filter_map_length {A B} (f : B -> bool) (g : A -> B) (l : list A) :
  length (List.filter f (List.map g l)) = length (List.filter (fun x => f (g x)) l).
Proof.
  induction l as [|x l IH]; [reflexivity|].
  cbn [List.map List.filter]. destruct (f (g x)); cbn [length]; rewrite IH; reflexivity.
Qed.

Lemma computeScores_scoreCards campaignsActive currentCampaigns cards purchase :
  Simulation.computeScores campaignsActive currentCampaigns cards purchase
  = scoreCards purchase (List.map Simulation.toDomainCard cards)
      (mkOptions
         (Some (Simulation.campaignsByCardId campaignsActive currentCampaigns
                  (List.map Simulation.toDomainCard cards))) None).
Proof.
  unfold Simulation.computeScores. destruct cards as [|row rows]; [reflexivity|].
  assert (E : (Z.of_nat (length (row :: rows)) =? 0)%Z = false)
    by (apply Z.eqb_neq; cbn [length]; lia).
  rewrite E. reflexivity.
Qed.

(** X29.  [computeScores] is [scoreCards] on the rows of the table turned
    into cards, every card reading the same campaigns: the campaigns of
    the wizard when they are active, none otherwise.  Its result has one
    entry for each row whose available limit covers the amount. *)
Theorem computeScores_campaigns campaignsActive currentCampaigns cards purchase :
  Simulation.computeScores campaignsActive currentCampaigns cards purchase
  = scoreCards purchase (List.map Simulation.toDomainCard cards)
      (mkOptions
         (Some (Simulation.campaignsByCardId campaignsActive currentCampaigns
                  (List.map Simulation.toDomainCard cards))) None)
  /\ (forall row,
        row ∈ cards ->
        campaignsFor
          (mkOptions
             (Some (Simulation.campaignsByCardId campaignsActive currentCampaigns
                      (List.map Simulation.toDomainCard cards))) None)
          (Simulation.toDomainCard row)
        = if campaignsActive then currentCampaigns else [])
  /\ length (Simulation.computeScores campaignsActive currentCampaigns cards purchase)
     = length (List.filter
                 (fun row => negb (Db.available_limit row <? Purchase.amount purchase))
                 cards).
Proof.
  split; [apply computeScores_scoreCards|]. split.
  - intros row Hrow. apply campaignsFor_every.
    apply list_elem_of_In, List.in_map, list_elem_of_In. exact Hrow.
  - rewrite computeScores_scoreCards, scoreCards_count.
    exact (filter_map_length
             (fun card => negb (Card.availableLimit card <? Purchase.amount purchase))
             Simulation.toDomainCard cards).
Qed.

Lemma adjustedInstallments_table purchase card campaigns :
  Purchase.amount purchase <= Card.availableLimit card ->
  Compatibility.adjustedInstallments
    (Compatibility.checkCompatibility purchase card campaigns)
  = (if (Purchase.installmentCount purchase
         >? Compatibility.getMaxAllowedInstallments card campaigns)%Z
     then Z.max 1 (Compatibility.getMaxAllowedInstallments card campaigns)
     else Purchase.installmentCount purchase).
Proof.
  intros Hfits. unfold Compatibility.checkCompatibility.
  apply ltb_false in Hfits. rewrite Hfits.
  generalize (Compatibility.getCampaignInstallmentBoost campaigns (Some purchase)).
  generalize (Compatibility.getMaxAllowedInstallments card campaigns).
  intros maxAllowed boost.
  destruct (Z.gtb_spec (Purchase.installmentCount purchase) maxAllowed) as [E1|E1].
  - destruct (_ >? 0.9); destruct (boost >? maxAllowed)%Z; reflexivity.
  - replace ((Purchase.installmentCount purchase >? 1) && (maxAllowed =? 0))%Z
      with false by lia.
    destruct (_ >? 0.9); destruct (boost >? maxAllowed)%Z; reflexivity.
Qed.

(** X30.  The form for a new card stores 0 or 1 as the installment
    support of the card, and [computeScores] hands that number to the
    engine as the largest number of installments: while no campaign is
    active, every purchase on such cards is scored as a single payment,
    however many installments were asked for. *)
Theorem computeScores_form_cards currentCampaigns cards purchase :
  (forall row, row ∈ cards -> (0 <= Db.installment_support row <= 1)%Z) ->
  (1 <= Purchase.installmentCount purchase)%Z ->
  Forall (fun sc => ScoredCard.adjustedInstallments sc = Some 1%Z)
    (Simulation.computeScores false currentCampaigns cards purchase).
Proof.
  intros Hrows Hn. rewrite computeScores_scoreCards.
  apply Forall_forall. intros sc Hsc.
  match type of Hsc with
  | _ ∈ scoreCards ?p ?cs ?o =>
      destruct (scoreCards_entry p cs o) as (mn & mx & _ & _ & Hent)
  end.
  apply Hent in Hsc. destruct Hsc as (d & Hd & ->).
  destruct (evaluated_card _ _ _ _ Hd) as (card & Hcard & Hev).
  destruct (evaluateCard_fields _ _ _ _ Hev) as (Hfits & _ & _ & _ & _ & _ & _ & _ & Hadj).
  cbv zeta in Hadj.
  rewrite (campaignsFor_every false currentCampaigns _ card Hcard) in Hadj.
  cbn [toScoredCard ScoredCard.adjustedInstallments normalize dAdjustedInstallments].
  rewrite Hadj, (adjustedInstallments_table purchase card [] Hfits).
  apply list_elem_of_In, List.in_map_iff in Hcard. destruct Hcard as (row & <- & Hrow).
  apply list_elem_of_In, Hrows in Hrow.
  unfold Compatibility.getMaxAllowedInstallments, Simulation.toDomainCard.
  cbn [Card.installmentSupport Compatibility.getCampaignInstallmentBoost fold_left].
  revert Hrow. generalize (Db.installment_support row). intros support Hrow.
  f_equal.
  destruct (Z.gtb_spec 0 support); [lia|].
  destruct (Z.gtb_spec (Purchase.installmentCount purchase) support); lia.
Qed.

Lemma computeScores_form_cards_witness :
  (forall row, row ∈ [FormScenario.row] -> (0 <= Db.installment_support row <= 1)%Z)
  /\ (1 <= Purchase.installmentCount Scenario.purchase)%Z
  /\ Forall (fun sc => ScoredCard.adjustedInstallments sc = Some 1%Z)
       (Simulation.computeScores false [] [FormScenario.row] Scenario.purchase).
Proof.
  assert (Hrows : forall row, row ∈ [FormScenario.row] ->
                    (0 <= Db.installment_support row <= 1)%Z).
  { intros row Hrow. apply list_elem_of_singleton in Hrow. subst row.
    vm_compute. intuition discriminate. }
  assert (Hn : (1 <= Purchase.installmentCount Scenario.purchase)%Z)
    by (vm_compute; discriminate).
  split; [exact Hrows|]. split; [exact Hn|].
  apply (computeScores_form_cards [] [FormScenario.row] Scenario.purchase Hrows Hn).
Defined.

(** The card of the form, asked for three installments: one entry, a
    single payment, and the usability score 0.4 of a reduced request. *)
Example form_card_single_payment :
  List.map (fun sc => (ScoredCard.adjustedInstallments sc,
                       usabilityScore (ScoredCard.breakdown sc)))
    (Simulation.computeScores false [] [FormScenario.row] Scenario.purchase)
  = [(Some 1%Z, Money.clamp01 0.4)].
Proof. vm_compute. reflexivity. Qed.

End SimulationProperties.
